(** * The test-run reporting client (helpers/APIHelper.js)

    A shallow embedding of the two variants of the [APIHelper] class and of
    the part of their environment they touch: the persisted test-cases file,
    the [PIPELINE_RUN_ID] environment variable, the wall clock, the remote
    tracking service behind axios, and the logger.

    Conventions of the model.
    - A JavaScript string is a [string]; its characters stand for the code
      units of the source string.
    - An instant (a [Date] or the number [Date.now()] returns) is the count of
      milliseconds since the epoch, a [Z]; [toISOString] is not interpreted.
    - Time never runs backwards: between two calls the clock advances by a
      natural number of milliseconds, and one call reads one instant.
    - Every call of the harness comes with an [Oracle]: what the environment
      does during that call (how much time has passed, what the remote
      service answers, whether the file operations succeed).
    - The persisted file is absent or holds a JSON array of records; a failed
      write leaves it as it was. *)

From Stdlib Require Import ZArith List String Ascii Bool Lia.
From Stdlib Require Import DecimalString DecimalZ DecimalN DecimalFacts.
Import ListNotations.

Local Open Scope Z_scope.
Local Open Scope string_scope.
Local Open Scope list_scope.

(** ** JavaScript values *)

(** Truthiness of a string: every string but the empty one. *)
Definition truthy (s : string) : bool := negb (s =? "").

(** Truthiness of a value that is a string, [null] or [undefined]. *)
Definition truthy_opt (o : option string) : bool :=
  match o with
  | Some s => truthy s
  | None => false
  end.

(** [a || b] on such values. *)
Definition js_or (a b : option string) : option string :=
  if truthy_opt a then a else b.

(** An optional positional argument of a call: left out, [null], or a
    string. *)
Inductive Arg : Type :=
| Omitted
| Null
| Text (s : string).

(** A parameter without default: a missing argument is [undefined], which
    the code treats like [null]. *)
Definition arg_value (a : Arg) : option string :=
  match a with
  | Text s => Some s
  | _ => None
  end.

(** A parameter with default [d]: the default replaces a missing argument
    only; [null] stays [null]. *)
Definition arg_default (d : string) (a : Arg) : option string :=
  match a with
  | Omitted => Some d
  | Null => None
  | Text s => Some s
  end.

(** A number computed from a count of milliseconds. The arithmetic on
    doubles is not evaluated: the value is kept as the expression of the
    source. *)
Inductive Num : Type :=
| Int (z : Z)
| Seconds (ms : Z)              (* ms / 1000.0 *)
| Fixed2 (x : Num).             (* parseFloat(x.toFixed(2)) *)

(** ** The environment *)

(** The decoded body of a response of the tracking service, with the fields
    the helpers read. *)
Record RespData : Type := mkRespData {
  run_id : option string;                (* data.run_id *)
  pipeline_run_run_id : option string;   (* data.pipeline_run.run_id *)
  test_id : option string                (* data.test_id *)
}.

(** A JavaScript [Error]; axios attaches the response when there is one. *)
Record Error : Type := mkError {
  message : string;
  response : option (Z * RespData)
}.

(** What happens to one HTTP request. *)
Inductive NetOutcome : Type :=
| Responds (status : Z) (data : RespData)
| Fails (reason : string).              (* no response: network error, timeout *)

Record Oracle : Type := mkOracle {
  tick : N;             (* milliseconds since the previous call *)
  net : NetOutcome;     (* outcome of the request of this call, if it sends one *)
  dir_ok : bool;        (* ensureDirSync succeeds *)
  read_ok : bool;       (* readJsonSync succeeds *)
  write_ok : bool       (* writeJsonSync succeeds *)
}.

Definition io_ok (o : Oracle) : bool := dir_ok o && read_ok o && write_ok o.

Inductive LogLine : Type :=
| Info (msg : string)
| Err (msg : string)
| Separator
| SubSeparator.

Inductive Method : Type := POST | PATCH.

(** config/config.js, the values the helpers read. *)
Record Config : Type := mkConfig {
  api_enabled : bool;
  api_baseURL : string;
  api_orgId : string;
  api_createdBy : string;
  jenkins_buildNumber : string;
  jenkins_buildUrl : string;
  jenkins_jobName : string;
  jenkins_gitBranch : string;
  jenkins_gitCommit : string;
  jenkins_triggeredBy : string;
  environment : string;
  process_platform : string
}.

Section Runtime.

(** [R] is the type of the records of the persisted file, [B] the type of
    request bodies. *)
Context {R B : Type}.

Record Request : Type := mkRequest {
  method : Method;
  url : string;
  body : B
}.

(** What is outside the helper object and shared between processes. *)
Record World : Type := mkWorld {
  file : option (list R);                 (* test-results/.test-cases.json *)
  env_PIPELINE_RUN_ID : option string;    (* process.env.PIPELINE_RUN_ID *)
  clock : Z;
  sent : list Request;                    (* requests issued so far, oldest first *)
  logs : list LogLine                     (* lines logged so far, oldest first *)
}.

(** The fields of the helper object ([this]). *)
Record Helper : Type := mkHelper {
  isJenkins : bool;
  pipelineRunId : option string;
  startTime : option Z;
  testStartTime : option Z
}.

Record St : Type := mkSt {
  this : Helper;
  world : World
}.

(** *** State and exceptions *)

Inductive Res (A : Type) : Type :=
| Ok (a : A)
| Throw (e : Error).

Definition M (A : Type) : Type := St -> Res A * St.

Definition ret {A} (a : A) : M A := fun s => (Ok A a, s).

Definition bind {A C} (m : M A) (k : A -> M C) : M C :=
  fun s =>
    match m s with
    | (Ok _ a, s') => k a s'
    | (Throw _ e, s') => (Throw C e, s')
    end.

Definition throw {A} (e : Error) : M A := fun s => (Throw A e, s).

Definition try_catch {A} (m : M A) (handler : Error -> M A) : M A :=
  fun s =>
    match m s with
    | (Ok _ a, s') => (Ok A a, s')
    | (Throw _ e, s') => handler e s'
    end.

Definition get_this : M Helper := fun s => (Ok _ (this s), s).

Definition set_this (f : Helper -> Helper) : M unit :=
  fun s => (Ok _ tt, mkSt (f (this s)) (world s)).

Definition get_world : M World := fun s => (Ok _ (world s), s).

Definition set_world (f : World -> World) : M unit :=
  fun s => (Ok _ tt, mkSt (this s) (f (world s))).

End Runtime.

Arguments Request : clear implicits.
Arguments World : clear implicits.
Arguments St : clear implicits.
Arguments M : clear implicits.
Arguments Ok {A} a.
Arguments Throw {A} e.

Declare Scope js_scope.
Delimit Scope js_scope with js.
Notation "x <- m ;; k" := (bind m (fun x => k))
  (at level 61, m at next level, right associativity) : js_scope.
Notation "m ;; k" := (bind m (fun _ => k))
  (at level 61, right associativity) : js_scope.
Notation "'try' m 'catch' e => h" := (try_catch m (fun e => h))
  (at level 61, m at level 61, e name, h at level 61) : js_scope.

Section Primitives.

Context {R B : Type}.
Variable o : Oracle.

Local Open Scope js_scope.

Definition with_file (w : World R B) (f : option (list R)) : World R B :=
  mkWorld f (env_PIPELINE_RUN_ID w) (clock w) (sent w) (logs w).

Definition with_env (w : World R B) (e : option string) : World R B :=
  mkWorld (file w) e (clock w) (sent w) (logs w).

Definition with_clock (w : World R B) (c : Z) : World R B :=
  mkWorld (file w) (env_PIPELINE_RUN_ID w) c (sent w) (logs w).

Definition with_sent (w : World R B) (l : list (Request B)) : World R B :=
  mkWorld (file w) (env_PIPELINE_RUN_ID w) (clock w) l (logs w).

Definition with_logs (w : World R B) (l : list LogLine) : World R B :=
  mkWorld (file w) (env_PIPELINE_RUN_ID w) (clock w) (sent w) l.

(** The logger never fails. *)
Definition logger (l : LogLine) : M R B unit :=
  set_world (fun w => with_logs w (logs w ++ [l])).

(** [Date.now()], [new Date()]. *)
Definition Date_now : M R B Z :=
  w <- get_world ;; ret (clock w).

(** [fs.existsSync] returns false rather than fail. *)
Definition existsSync : M R B bool :=
  w <- get_world ;;
  ret (match file w with Some _ => true | None => false end).

Definition ensureDirSync : M R B unit :=
  if dir_ok o then ret tt
  else throw (mkError "EACCES: permission denied, mkdir" None).

Definition readJsonSync : M R B (list R) :=
  w <- get_world ;;
  match file w with
  | Some l =>
      if read_ok o then ret l
      else throw (mkError "EIO: i/o error, read" None)
  | None => throw (mkError "ENOENT: no such file or directory, open" None)
  end.

Definition writeJsonSync (l : list R) : M R B unit :=
  if write_ok o then set_world (fun w => with_file w (Some l))
  else throw (mkError "EACCES: permission denied, open" None).

Definition getenv : M R B (option string) :=
  w <- get_world ;; ret (env_PIPELINE_RUN_ID w).

(** Assigning to a property of [process.env] stores a string. *)
Definition setenv (v : string) : M R B unit :=
  set_world (fun w => with_env w (Some v)).

(** axios with its default [validateStatus]: the request is issued; the
    promise resolves with the response when the status is 2xx and rejects
    otherwise, with the response attached when there is one. *)
Definition axios (m : Method) (u : string) (b : B) : M R B (Z * RespData) :=
  set_world (fun w => with_sent w (sent w ++ [mkRequest m u b])) ;;
  match net o with
  | Responds st d =>
      if ((200 <=? st) && (st <? 300))%Z then ret (st, d)
      else throw (mkError "Request failed with status code" (Some (st, d)))
  | Fails reason => throw (mkError reason None)
  end.

End Primitives.

(** ** Aggregation of the persisted records

    Both variants count the records of each status with
    [tests.filter(t => t.status === s).length]. *)

Section Aggregation.

Context {R : Type}.
Variable status_of : R -> string.

Definition count_status (s : string) (tests : list R) : nat :=
  List.length (filter (fun t => status_of t =? s) tests).

(** The records counted as passed, failed or skipped. *)
Definition counted (tests : list R) : nat :=
  count_status "passed" tests + count_status "failed" tests
  + count_status "skipped" tests.

End Aggregation.

(** * First variant *)

Module V1.

(** A record of the persisted file, as [saveTestCaseToFile] builds it. *)
Record TestCase : Type := mkTestCase {
  tc_test_id : string;
  tc_name : string;
  tc_status : string;
  tc_duration : Num;
  tc_timestamp : Z
}.

(** Request body of API-1. *)
Record RunPayload : Type := mkRunPayload {
  rp_job_name : string;
  rp_build_number : string;
  rp_branch : string;
  rp_commit_hash : string;
  rp_triggered_by : string;
  rp_start_time : Z;
  rp_status : string;
  rp_environment : string;
  rp_browser : string;
  rp_browser_version : string;
  rp_platform : string;
  rp_framework : string;
  rp_organization : string;
  rp_created_by : string
}.

(** Request body of API-3; [cp_error_message] is [None] when the payload has
    no [error_message] field. *)
Record CasePayload : Type := mkCasePayload {
  cp_name : string;
  cp_status : string;
  cp_run : string;
  cp_duration : Num;
  cp_created_at : Z;
  cp_start_time : Z;
  cp_error_message : option string
}.

(** Request body of API-4. *)
Record FinalPayload : Type := mkFinalPayload {
  fp_status : string;
  fp_end_time : Z;
  fp_duration : Z;
  fp_total_tests : nat;
  fp_passed : nat;
  fp_failed : nat;
  fp_aborted : nat
}.

Inductive Body : Type :=
| RunCreate (p : RunPayload)
| CaseCreate (p : CasePayload)
| RunUpdate (p : FinalPayload).

Abbreviation State := (St TestCase Body).
Abbreviation Run := (M TestCase Body).

Section Methods.

Variable config : Config.
Variable o : Oracle.

Local Open Scope js_scope.

(** The state the constructor leaves. *)
Definition constructor : Helper :=
  mkHelper (api_enabled config) None None None.

Definition getCurrentTimestamp : Run Z := Date_now.

Definition getPipelineRunId : Run (option string) :=
  h <- get_this ;;
  (if negb (truthy_opt (pipelineRunId h)) then
     e <- getenv ;;
     set_this (fun h => mkHelper (isJenkins h) (js_or e None)
                                 (startTime h) (testStartTime h))
   else ret tt) ;;
  h <- get_this ;;
  ret (pipelineRunId h).

Definition clearTestCasesFile : Run unit :=
  try
    (ensureDirSync o ;;
     writeJsonSync o [] ;;
     logger (Info "Test cases file cleared"))
  catch error =>
    logger (Err "Could not clear test cases file").

Definition saveTestCaseToFile (testId name status : string) (duration : Num)
  : Run unit :=
  try
    (ex <- existsSync ;;
     testCases <- (if ex : bool then readJsonSync o else ret []) ;;
     now <- getCurrentTimestamp ;;
     writeJsonSync o (testCases ++ [mkTestCase testId name status duration now]) ;;
     logger (Info "Test case saved"))
  catch error =>
    logger (Err "Could not save test case").

Definition readTestCasesFromFile : Run (list TestCase) :=
  try
    (ex <- existsSync ;;
     if negb ex then
       logger (Info "Test cases file not found") ;;
       ret []
     else
       testCases <- readJsonSync o ;;
       logger (Info "Read test cases from file") ;;
       ret testCases)
  catch error =>
    (logger (Err "Could not read test cases file") ;;
     ret []).

Definition log_error_response (error : Error) : Run unit :=
  match response error with
  | Some _ => logger (Err "Status Code") ;; logger (Err "Response")
  | None => ret tt
  end.

(** API-1: Initialize Pipeline Run. *)
Definition beforeAllTests : Run (option RespData) :=
  h <- get_this ;;
  if negb (isJenkins h) then
    logger (Info "Local run - Skipping API calls") ;;
    ret None
  else
    now <- Date_now ;;
    set_this (fun h => mkHelper (isJenkins h) (pipelineRunId h)
                                (Some now) (testStartTime h)) ;;
    clearTestCasesFile ;;
    logger Separator ;;
    logger (Info "API-1: Initializing Pipeline Run") ;;
    logger Separator ;;
    try
      (let buildNumber :=
         if truthy (jenkins_buildNumber config)
         then jenkins_buildNumber config else "local" in
       start_time <- getCurrentTimestamp ;;
       let payload :=
         mkRunPayload (jenkins_jobName config) buildNumber
           (jenkins_gitBranch config) (jenkins_gitCommit config)
           (jenkins_triggeredBy config) start_time "running"
           (environment config) "chrome" "latest" (process_platform config)
           "puppeteer" (api_orgId config) (api_createdBy config) in
       logger (Info "API Endpoint") ;;
       logger (Info "Payload") ;;
       resp <- axios o POST (api_baseURL config ++ "/api/pipeline-runs/")
                 (RunCreate payload) ;;
       let '(status, data) := resp in
       if ((200 <=? status) && (status <? 300))%Z then
         set_this (fun h => mkHelper (isJenkins h) (run_id data)
                                     (startTime h) (testStartTime h)) ;;
         setenv (match run_id data with
                 | Some id => id
                 | None => "undefined"
                 end) ;;
         logger (Info "") ;;
         logger (Info "API-1 SUCCESS: Pipeline Run Initialized") ;;
         logger SubSeparator ;;
         logger (Info "Pipeline Run ID") ;;
         logger (Info "Build Number") ;;
         logger (Info "Branch") ;;
         logger (Info "Browser") ;;
         logger (Info "Triggered By") ;;
         logger Separator ;;
         logger (Info "") ;;
         ret (Some data)
       else
         logger (Err "API-1 ERROR: Unexpected Response") ;;
         logger (Err "Status Code") ;;
         logger (Err "Response") ;;
         ret None)
    catch error =>
      (logger (Err "API-1 ERROR") ;;
       log_error_response error ;;
       ret None).

Definition markTestStart : Run unit :=
  now <- Date_now ;;
  set_this (fun h => mkHelper (isJenkins h) (pipelineRunId h)
                              (startTime h) (Some now)).

(** The duration [afterEachTest] computes; [testStartTime] is a [Date]
    object or [null], and an object is truthy. *)
Definition durationMs (h : Helper) (endTime : Z) : Z :=
  match testStartTime h with
  | Some t => endTime - t
  | None => 0
  end.

(** The [error_message] field of the payload of API-3. *)
Definition error_field (testStatus : string) (errorMessage : option string)
  : option string :=
  match errorMessage with
  | Some msg =>
      if truthy msg && (testStatus =? "failed")
      then Some (substring 0 500 msg)
      else None
  | None => None
  end.

Arguments error_field : simpl never.

(** API-3: Create Test Case. *)
Definition afterEachTest (testTitle testStatus : string) (errorMessage : Arg)
  : Run (option RespData) :=
  h <- get_this ;;
  if negb (isJenkins h) then ret None
  else
    pipelineRunId <- getPipelineRunId ;;
    match pipelineRunId with
    | None =>
        logger (Err "API-3 Skipped: No Pipeline Run ID available") ;;
        ret None
    | Some id =>
        if negb (truthy id) then
          logger (Err "API-3 Skipped: No Pipeline Run ID available") ;;
          ret None
        else
          endTime <- Date_now ;;
          h <- get_this ;;
          let durationMs := durationMs h endTime in
          let durationSeconds := Seconds durationMs in
          logger (Info "") ;;
          logger SubSeparator ;;
          logger (Info "API-3: Creating Test Case") ;;
          logger (Info "Duration | Status") ;;
          try
            (created_at <- getCurrentTimestamp ;;
             start_time <- match testStartTime h with
                           | Some t => ret t
                           | None => getCurrentTimestamp
                           end ;;
             let payload :=
               mkCasePayload testTitle testStatus id
                 (Fixed2 durationSeconds) created_at start_time
                 (error_field testStatus (arg_value errorMessage)) in
             resp <- axios o POST (api_baseURL config ++ "/api/test-cases/")
                       (CaseCreate payload) ;;
             let '(status, data) := resp in
             if ((200 <=? status) && (status <? 300))%Z then
               let testCaseId :=
                 match js_or (test_id data) None with
                 | Some id => id
                 | None => "N/A"
                 end in
               logger (Info "API-3 SUCCESS: Test Case Created") ;;
               logger (Info "Test Case ID") ;;
               saveTestCaseToFile testCaseId testTitle testStatus
                 durationSeconds ;;
               ret (Some data)
             else
               logger (Err "API-3 ERROR") ;;
               logger (Err "Response") ;;
               ret None)
          catch error =>
            (logger (Err "API-3 ERROR") ;;
             log_error_response error ;;
             ret None)
    end.

(** The aggregates [afterAllTests] computes from the records read back. *)
Definition aggregate (testCases : list TestCase) (end_time duration : Z)
  : FinalPayload :=
  let '(finalTotal, finalPassed, finalFailed, finalSkipped) :=
    if (0 <? List.length testCases)%nat then
      (List.length testCases,
       count_status tc_status "passed" testCases,
       count_status tc_status "failed" testCases,
       count_status tc_status "skipped" testCases)
    else (0, 0, 0, 0)%nat in
  let finalStatus := if (finalFailed =? 0)%nat then "passed" else "failed" in
  mkFinalPayload finalStatus end_time duration
    finalTotal finalPassed finalFailed finalSkipped.

(** API-4: Update Pipeline Run. *)
Definition afterAllTests : Run (option RespData) :=
  h <- get_this ;;
  if negb (isJenkins h) then
    logger (Info "Local run - Skipping API calls") ;;
    ret None
  else
    pipelineRunId <- getPipelineRunId ;;
    match pipelineRunId with
    | None =>
        logger (Err "API-4 Skipped: No Pipeline Run ID available") ;;
        ret None
    | Some id =>
        if negb (truthy id) then
          logger (Err "API-4 Skipped: No Pipeline Run ID available") ;;
          ret None
        else
          logger (Info "") ;;
          logger Separator ;;
          logger (Info "API-4: Updating Pipeline Run with Final Results") ;;
          logger Separator ;;
          try
            (testCases <- readTestCasesFromFile ;;
             endTime <- Date_now ;;
             h <- get_this ;;
             let durationSeconds :=
               match startTime h with
               | Some t => (endTime - t) / 1000
               | None => 0
               end in
             end_time <- getCurrentTimestamp ;;
             let payload := aggregate testCases end_time durationSeconds in
             logger (Info "API Endpoint") ;;
             logger (Info "Payload") ;;
             resp <- axios o PATCH
                       (api_baseURL config ++ "/api/pipeline-runs/" ++ id ++ "/")
                       (RunUpdate payload) ;;
             let '(status, data) := resp in
             if ((200 <=? status) && (status <? 300))%Z then
               logger (Info "") ;;
               logger (Info "API-4 SUCCESS: Pipeline Run Updated") ;;
               logger SubSeparator ;;
               logger (Info "Final Status") ;;
               logger (Info "Total Duration") ;;
               logger (Info "Test Summary:") ;;
               logger (Info "Total Tests") ;;
               logger (Info "Passed") ;;
               logger (Info "Failed") ;;
               logger (Info "Skipped") ;;
               logger Separator ;;
               logger (Info "") ;;
               ret (Some data)
             else
               logger (Err "API-4 ERROR") ;;
               logger (Err "Response") ;;
               ret None)
          catch error =>
            (logger (Err "API-4 ERROR") ;;
             log_error_response error ;;
             ret None)
    end.

End Methods.

End V1.

(** * Second variant *)

(** [String(n)] for an integer [n]. *)
Definition String_of_int (z : Z) : string :=
  NilZero.string_of_int (Z.to_int z).

Fixpoint repeat_char (c : ascii) (n : nat) : string :=
  match n with
  | O => ""
  | S n' => String c (repeat_char c n')
  end.

(** [s.padStart(targetLength, c)] for a pad string of one character. *)
Definition padStart (targetLength : nat) (c : ascii) (s : string) : string :=
  repeat_char c (targetLength - String.length s) ++ s.

Module V2.

(** A record of the persisted file, as [afterEachTest] builds it. *)
Record TestCase : Type := mkTestCase {
  tc_name : string;
  tc_feature : option string;
  tc_status : string;
  tc_duration : string
}.

(** Request body of API-1. [rp_build_number] holds the configured string;
    its conversion [Number(...) || 0] is not interpreted. *)
Record RunPayload : Type := mkRunPayload {
  rp_name : string;
  rp_repo_name : string;
  rp_environment : string;
  rp_org : string;
  rp_created_by : string;
  rp_build_number : string;
  rp_build_url : string;
  rp_branch : string;
  rp_git_commit : string;
  rp_status : string;
  rp_start_time : Z
}.

(** Request body of API-3. It has no [error_message] field. *)
Record CasePayload : Type := mkCasePayload {
  cp_run : string;
  cp_name : string;
  cp_feature : option string;
  cp_status : string;
  cp_duration : string;
  cp_start_time : Z;
  cp_end_time : Z;
  cp_report_link : string
}.

(** Request body of API-4. *)
Record FinalPayload : Type := mkFinalPayload {
  fp_status : string;
  fp_end_time : Z;
  fp_total_tests : nat;
  fp_passed : nat;
  fp_failed : nat;
  fp_aborted : nat
}.

Inductive Body : Type :=
| RunCreate (p : RunPayload)
| CaseCreate (p : CasePayload)
| RunUpdate (p : FinalPayload).

Abbreviation State := (St TestCase Body).
Abbreviation Run := (M TestCase Body).

(** [ms] is an integer; below 2^53 the arithmetic on doubles of the source
    is the arithmetic on integers: [Math.floor(a / b)] is the floor
    division and [%] the remainder with the sign of the dividend. *)
Definition formatDuration (ms : Z) : string :=
  let totalSeconds := ms / 1000 in
  let hours := padStart 2 "0" (String_of_int (totalSeconds / 3600)) in
  let minutes :=
    padStart 2 "0" (String_of_int (Z.rem totalSeconds 3600 / 60)) in
  let seconds := padStart 2 "0" (String_of_int (Z.rem totalSeconds 60)) in
  hours ++ ":" ++ minutes ++ ":" ++ seconds.

(** Truthiness of a number or [null]; [Date.now()] is never [NaN]. *)
Definition truthy_num (t : option Z) : bool :=
  match t with
  | Some n => negb (n =? 0)%Z
  | None => false
  end.

Section Methods.

Variable config : Config.
Variable o : Oracle.

Local Open Scope js_scope.

(** The state the constructor leaves. *)
Definition constructor : Helper :=
  mkHelper (api_enabled config) None None None.

Definition getCurrentTimestamp : Run Z := Date_now.

Definition getPipelineRunId : Run (option string) :=
  h <- get_this ;;
  (if negb (truthy_opt (pipelineRunId h)) then
     e <- getenv ;;
     set_this (fun h => mkHelper (isJenkins h) (js_or e None)
                                 (startTime h) (testStartTime h))
   else ret tt) ;;
  h <- get_this ;;
  ret (pipelineRunId h).

Definition clearTestCasesFile : Run unit :=
  ensureDirSync o ;;
  writeJsonSync o [].

Definition readTestCasesFromFile : Run (list TestCase) :=
  ex <- existsSync ;;
  if negb ex then ret [] else readJsonSync o.

Definition saveTestCaseToFile (testCase : TestCase) : Run unit :=
  cases <- readTestCasesFromFile ;;
  writeJsonSync o (cases ++ [testCase]).

(** API-1: Before All Tests. *)
Definition beforeAllTests : Run (option RespData) :=
  h <- get_this ;;
  if negb (isJenkins h) then ret None
  else
    now <- Date_now ;;
    set_this (fun h => mkHelper (isJenkins h) (pipelineRunId h)
                                (Some now) (testStartTime h)) ;;
    clearTestCasesFile ;;
    logger Separator ;;
    logger (Info "API-1: Creating Pipeline Run") ;;
    logger Separator ;;
    try
      (start_time <- getCurrentTimestamp ;;
       let payload :=
         mkRunPayload
           (jenkins_jobName config ++ " - Build #" ++ jenkins_buildNumber config)
           "Puppeteer-Jest-Web" (environment config) (api_orgId config)
           (api_createdBy config) (jenkins_buildNumber config)
           (jenkins_buildUrl config) (jenkins_gitBranch config)
           (jenkins_gitCommit config) "running" start_time in
       resp <- axios o POST (api_baseURL config ++ "/api/pipeline-runs/")
                 (RunCreate payload) ;;
       let '(status, data) := resp in
       set_this (fun h => mkHelper (isJenkins h) (pipeline_run_run_id data)
                                   (startTime h) (testStartTime h)) ;;
       match pipeline_run_run_id data with
       | None => throw (mkError "pipeline_run.run_id missing" None)
       | Some id =>
           if negb (truthy id)
           then throw (mkError "pipeline_run.run_id missing" None)
           else
             setenv id ;;
             logger (Info "Pipeline Run ID") ;;
             logger Separator ;;
             ret (Some data)
       end)
    catch error =>
      (logger (Err "API-1 ERROR") ;;
       ret None).

Definition markTestStart : Run unit :=
  now <- Date_now ;;
  set_this (fun h => mkHelper (isJenkins h) (pipelineRunId h)
                              (startTime h) (Some now)).

(** The duration [afterEachTest] computes; [testStartTime] is a number or
    [null], and the number 0 is falsy. *)
Definition durationMs (h : Helper) (endTime : Z) : Z :=
  if truthy_num (testStartTime h) then
    match testStartTime h with
    | Some t => endTime - t
    | None => 0
    end
  else 0.

(** API-3: After Each Test. *)
Definition afterEachTest (testTitle testStatus : string) (feature : Arg)
  : Run (option RespData) :=
  let feature := arg_default "General" feature in
  h <- get_this ;;
  if negb (isJenkins h) then ret None
  else
    pipelineRunId <- getPipelineRunId ;;
    match pipelineRunId with
    | None => ret None
    | Some id =>
        if negb (truthy id) then ret None
        else
          endTime <- Date_now ;;
          h <- get_this ;;
          let durationMs := durationMs h endTime in
          let payload :=
            mkCasePayload id testTitle feature testStatus
              (formatDuration durationMs)
              (match testStartTime h with Some t => t | None => 0 end)
              endTime (jenkins_buildUrl config) in
          logger (Info "API-3 Payload") ;;
          try
            (resp <- axios o POST (api_baseURL config ++ "/api/test-cases/")
                       (CaseCreate payload) ;;
             saveTestCaseToFile
               (mkTestCase testTitle feature testStatus (cp_duration payload)) ;;
             logger (Info "API-3 SUCCESS") ;;
             ret (Some (snd resp)))
          catch error =>
            (logger (Err "API-3 ERROR") ;;
             ret None)
    end.

(** The aggregates [afterAllTests] computes from the records read back. *)
Definition aggregate (tests : list TestCase) (end_time : Z) : FinalPayload :=
  let passed := count_status tc_status "passed" tests in
  let failed := count_status tc_status "failed" tests in
  let skipped := count_status tc_status "skipped" tests in
  mkFinalPayload (if (0 <? failed)%nat then "failed" else "passed")
    end_time (List.length tests) passed failed skipped.

(** API-4: After All Tests. *)
Definition afterAllTests : Run (option RespData) :=
  h <- get_this ;;
  if negb (isJenkins h) then ret None
  else
    pipelineRunId <- getPipelineRunId ;;
    match pipelineRunId with
    | None => ret None
    | Some id =>
        if negb (truthy id) then ret None
        else
          logger Separator ;;
          logger (Info "API-4: Updating Pipeline Run") ;;
          logger Separator ;;
          tests <- readTestCasesFromFile ;;
          end_time <- getCurrentTimestamp ;;
          let payload := aggregate tests end_time in
          try
            (resp <- axios o PATCH
                       (api_baseURL config ++ "/api/pipeline-runs/" ++ id ++ "/")
                       (RunUpdate payload) ;;
             logger (Info "API-4 SUCCESS: Pipeline Updated") ;;
             logger (Info "Total | passed | failed | skipped") ;;
             logger Separator ;;
             ret (Some (snd resp)))
          catch error =>
            (logger (Err "API-4 ERROR") ;;
             ret None)
    end.

End Methods.

End V2.

(** * The harness

    tests/login.test.js calls [beforeAllTests] once, [markTestStart] before
    each test, [afterEachTest] after each test and [afterAllTests] at the
    end. The specification names these operations start, markTestStart,
    recordTest and finish. *)

Inductive Call : Type :=
| Start
| MarkTestStart
| RecordTest (title status : string) (third : Arg)
| Finish.

(** What the caller of an operation observes: the value the promise
    resolves with ([None] is [null]; [markTestStart] returns nothing), or the
    exception it rejects with. *)
Abbreviation Outcome := (Res (option RespData)).

Definition returns_null (r : Outcome) : Prop := r = Ok None.

Definition propagates_exception (r : Outcome) : Prop :=
  exists e, r = Throw e.

Section Harness.

Context {R B : Type}.

(** Time passes before a call. *)
Definition advance (n : N) (s : St R B) : St R B :=
  mkSt (this s) (with_clock (world s) (clock (world s) + Z.of_N n)).

Definition forget {A} (r : Res A * St R B) : Outcome * St R B :=
  match r with
  | (Ok _, s) => (Ok None, s)
  | (Throw e, s) => (Throw e, s)
  end.

Variable call : Call -> Oracle -> St R B -> Outcome * St R B.

(** A sequence of calls, each with its oracle; the outcomes are collected
    oldest first. *)
Fixpoint run (cs : list (Call * Oracle)) (s : St R B)
  : list Outcome * St R B :=
  match cs with
  | [] => ([], s)
  | (c, o) :: cs' =>
      let (r, s') := call c o s in
      let (rs, s'') := run cs' s' in
      (r :: rs, s'')
  end.

Definition run_state (cs : list (Call * Oracle)) (s : St R B) : St R B :=
  snd (run cs s).

End Harness.

Definition call_v1 (config : Config) (c : Call) (o : Oracle) (s : V1.State)
  : Outcome * V1.State :=
  let s := advance (tick o) s in
  match c with
  | Start => V1.beforeAllTests config o s
  | MarkTestStart => forget (V1.markTestStart s)
  | RecordTest title status third =>
      V1.afterEachTest config o title status third s
  | Finish => V1.afterAllTests config o s
  end.

Definition call_v2 (config : Config) (c : Call) (o : Oracle) (s : V2.State)
  : Outcome * V2.State :=
  let s := advance (tick o) s in
  match c with
  | Start => V2.beforeAllTests config o s
  | MarkTestStart => forget (V2.markTestStart s)
  | RecordTest title status third =>
      V2.afterEachTest config o title status third s
  | Finish => V2.afterAllTests config o s
  end.

(** * Sample inputs *)

Definition ci_config : Config :=
  mkConfig true "https://tracker.example" "org-1" "user-1" "17"
    "https://ci.example/job/17/" "Puppeteer-Jest-Framework" "main" "abc123"
    "jenkins" "test" "linux".

Definition local_config : Config :=
  mkConfig false "https://tracker.example" "org-1" "user-1" "" ""
    "Puppeteer-Jest-Framework" "main" "" "jenkins" "test" "linux".

Definition no_data : RespData := mkRespData None None None.

(** The service answers 201 with a run identifier and a test identifier. *)
Definition created : NetOutcome :=
  Responds 201 (mkRespData (Some "run-42") (Some "run-42") (Some "tc-1")).

Definition server_error : NetOutcome := Responds 500 no_data.

Definition timed_out : NetOutcome := Fails "timeout of 10000ms exceeded".

(** An oracle with working file operations. *)
Definition after (ms : N) (n : NetOutcome) : Oracle :=
  mkOracle ms n true true true.

(** The file cannot be written. *)
Definition read_only_after (ms : N) (n : NetOutcome) : Oracle :=
  mkOracle ms n true true false.

(** The file cannot be read. *)
Definition unreadable_after (ms : N) (n : NetOutcome) : Oracle :=
  mkOracle ms n true false true.

(** A fresh process on a host without persisted file and without run
    identifier in the environment, at some instant of 2026. *)
Definition fresh_world {R B : Type} : World R B :=
  mkWorld None None 1793000000000 [] [].

Definition fresh_v1 (config : Config) : V1.State :=
  mkSt (V1.constructor config) fresh_world.

Definition fresh_v2 (config : Config) : V2.State :=
  mkSt (V2.constructor config) fresh_world.

Definition a_session : list (Call * Oracle) :=
  [ (Start, after 5 created);
    (MarkTestStart, after 10 created);
    (RecordTest "TC-001" "passed" Null, after 1500 created);
    (MarkTestStart, after 10 created);
    (RecordTest "TC-002" "failed" (Text "expected true"), after 900 timed_out);
    (Finish, after 20 created) ].

(** * Specification vocabulary *)

(** No request issued and the persisted file untouched between two states. *)
Definition inert {R B : Type} (s s' : St R B) : Prop :=
  sent (world s') = sent (world s) /\ file (world s') = file (world s).

(** The statuses the aggregation counts. *)
Definition known_status (s : string) : bool :=
  (s =? "passed") || (s =? "failed") || (s =? "skipped").

(** The number a string of decimal digits denotes; [None] when the string is
    empty or has another character. *)
Definition decimal_value (s : string) : option Z :=
  option_map Z.of_uint (NilZero.uint_of_string s).

Definition tests_with_unknown_status_v1 : list V1.TestCase :=
  [ V1.mkTestCase "tc-1" "TC-001" "passed" (Seconds 1500) 1793000001500;
    V1.mkTestCase "tc-2" "TC-002" "pending" (Seconds 20) 1793000002000;
    V1.mkTestCase "tc-3" "TC-003" "skipped" (Seconds 0) 1793000003000 ].

Definition tests_with_unknown_status_v2 : list V2.TestCase :=
  [ V2.mkTestCase "TC-001" None "passed" "00:00:01";
    V2.mkTestCase "TC-002" None "pending" "00:00:00";
    V2.mkTestCase "TC-003" None "skipped" "00:00:00" ].

Section Vocabulary.

Context {R B : Type}.

(** The run identifier [getPipelineRunId] resolves: the one cached in the
    helper if it is truthy, else the one of the environment if it is
    truthy, else none. *)
Definition resolve (s : St R B) : option string :=
  if truthy_opt (pipelineRunId (this s)) then pipelineRunId (this s)
  else js_or (env_PIPELINE_RUN_ID (world s)) None.

Definition resolvable (s : St R B) : bool := truthy_opt (resolve s).

(** The records of the persisted file; none when the file is absent. *)
Definition records (s : St R B) : list R :=
  match file (world s) with
  | Some l => l
  | None => []
  end.

(** The requests issued and the lines logged between two states. *)
Definition requests_between (s s' : St R B) (l : list (Request B)) : Prop :=
  sent (world s') = sent (world s) ++ l.

Definition logged_between (s s' : St R B) (l : list LogLine) : Prop :=
  logs (world s') = logs (world s) ++ l.

End Vocabulary.

(** The request of this call succeeds: the service answers with a 2xx
    status. *)
Definition net_ok (o : Oracle) : bool :=
  match net o with
  | Responds st _ => ((200 <=? st) && (st <? 300))%Z
  | Fails _ => false
  end.

(** The response body of this call, when the service answers. *)
Definition net_data (o : Oracle) : RespData :=
  match net o with
  | Responds _ d => d
  | Fails _ => no_data
  end.

(** The file operations of [saveTestCaseToFile] succeed: the write does, and
    the read does when there is a file to read. *)
Definition save_ok {R : Type} (o : Oracle) (f : option (list R)) : bool :=
  write_ok o && match f with Some _ => read_ok o | None => true end.

(** The calls that report a test or finish the run. *)
Definition reports (c : Call) : bool :=
  match c with
  | RecordTest _ _ _ | Finish => true
  | _ => false
  end.

(** A call was skipped and the omission logged: it returned null, issued no
    request, left the persisted file alone, and logged at least one line. *)
Definition logged_and_skipped {R B : Type} (s : St R B) (r : Outcome * St R B)
  : Prop :=
  returns_null (fst r) /\ inert s (snd r) /\
  exists l, l <> [] /\ logged_between s (snd r) l.

(** A call appended to the persisted sequence one record with the given
    name and status. *)
Definition appended_v1 (title status : string) (s s' : V1.State) : Prop :=
  exists t,
    file (world s') = Some (records s ++ [t]) /\
    V1.tc_name t = title /\ V1.tc_status t = status.

Definition appended_v2 (title status : string) (s s' : V2.State) : Prop :=
  exists t,
    file (world s') = Some (records s ++ [t]) /\
    V2.tc_name t = title /\ V2.tc_status t = status.

(** One test ran in a continuous-integration run whose start succeeded. *)
Definition a_started_run : list (Call * Oracle) :=
  [ (Start, after 5 created); (MarkTestStart, after 10 created) ].

Definition started_v1 : V1.State :=
  run_state (call_v1 ci_config) a_started_run (fresh_v1 ci_config).

Definition started_v2 : V2.State :=
  run_state (call_v2 ci_config) a_started_run (fresh_v2 ci_config).

(** A run of the second variant that has resolved its identifier, on a host
    whose persisted file already holds records. *)
Definition resumed_v2 : V2.State :=
  mkSt (mkHelper true (Some "run-42") None None)
       (mkWorld (Some [V2.mkTestCase "TC-001" None "passed" "00:00:01"])
          (Some "run-42") 1793000004000 [] []).

(** The calls made while the tests run. *)
Definition is_test_call (c : Call) : bool :=
  match c with
  | MarkTestStart | RecordTest _ _ _ => true
  | _ => false
  end.

(** A part of a session made of such calls, during which the file
    operations succeed. *)
Definition tests_session (cs : list (Call * Oracle)) : bool :=
  forallb (fun co => is_test_call (fst co) && io_ok (snd co)) cs.

(** Name and status of the recordTest calls of a session, in the order of
    the calls: all of them, and those whose request succeeded. *)
Definition recorded_calls (cs : list (Call * Oracle))
  : list (string * string) :=
  flat_map (fun co =>
              match fst co with
              | RecordTest title status _ => [(title, status)]
              | _ => []
              end) cs.

Definition persisted_calls (cs : list (Call * Oracle))
  : list (string * string) :=
  flat_map (fun co =>
              match fst co with
              | RecordTest title status _ =>
                  if net_ok (snd co) then [(title, status)] else []
              | _ => []
              end) cs.

(** Name and status of persisted records. *)
Definition keys_v1 (l : list V1.TestCase) : list (string * string) :=
  map (fun t => (V1.tc_name t, V1.tc_status t)) l.

Definition keys_v2 (l : list V2.TestCase) : list (string * string) :=
  map (fun t => (V2.tc_name t, V2.tc_status t)) l.

(** The aggregates of a payload are those of a list of names and statuses:
    the total is the number of entries, each count the number of entries of
    that status, and the overall status is failed when some entry has status
    failed and passed otherwise. *)
Definition summarises (ks : list (string * string)) (overall : string)
  (total passed failed aborted : nat) : Prop :=
  total = List.length ks /\
  passed = count_status snd "passed" ks /\
  failed = count_status snd "failed" ks /\
  aborted = count_status snd "skipped" ks /\
  overall = if existsb (fun k => snd k =? "failed") ks
            then "failed" else "passed".

(** A session in which the request of the second test times out. *)
Definition tests_with_timeout : list (Call * Oracle) :=
  [ (MarkTestStart, after 10 created);
    (RecordTest "TC-001" "passed" Null, after 1500 created);
    (MarkTestStart, after 10 created);
    (RecordTest "TC-002" "failed" (Text "expected true"), after 900 timed_out);
    (MarkTestStart, after 10 created);
    (RecordTest "TC-003" "skipped" Null, after 3 created) ].

(** A part of a session without markTestStart call. *)
Definition no_mark (cs : list (Call * Oracle)) : bool :=
  forallb (fun co =>
             match fst co with
             | MarkTestStart => false
             | _ => true
             end) cs.

(** The time that passes during a part of a session, in milliseconds. *)
Definition elapsed (cs : list (Call * Oracle)) : N :=
  fold_right (fun co n => (tick (snd co) + n)%N) 0%N cs.

(** The duration a recordTest call computes when it is made in state [s]
    with oracle [o]. *)
Definition computed_duration_v1 (o : Oracle) (s : V1.State) : Z :=
  V1.durationMs (this (advance (tick o) s))
    (clock (world (advance (tick o) s))).

Definition computed_duration_v2 (o : Oracle) (s : V2.State) : Z :=
  V2.durationMs (this (advance (tick o) s))
    (clock (world (advance (tick o) s))).

(** A part of a session without start call. *)
Definition no_start (cs : list (Call * Oracle)) : bool :=
  forallb (fun co =>
             match fst co with
             | Start => false
             | _ => true
             end) cs.

(** The calls that may issue a request: all but markTestStart. *)
Definition may_request (c : Call) : bool :=
  match c with
  | MarkTestStart => false
  | _ => true
  end.

Definition requesting_calls (cs : list (Call * Oracle))
  : list (Call * Oracle) :=
  filter (fun co => may_request (fst co)) cs.

(** A part of a session made of markTestStart and recordTest calls,
    whatever the environment does. *)
Definition only_test_calls (cs : list (Call * Oracle)) : bool :=
  forallb (fun co => is_test_call (fst co)) cs.

(** Name and status of the test cases a list of requests creates. *)
Definition reported_v1 (l : list (Request V1.Body)) : list (string * string) :=
  flat_map (fun q =>
              match body q with
              | V1.CaseCreate p => [(V1.cp_name p, V1.cp_status p)]
              | _ => []
              end) l.

Definition reported_v2 (l : list (Request V2.Body)) : list (string * string) :=
  flat_map (fun q =>
              match body q with
              | V2.CaseCreate p => [(V2.cp_name p, V2.cp_status p)]
              | _ => []
              end) l.

(** * The hooks of tests/login.test.js *)

(** The part of [expect.getState()] the afterEach hook reads. *)
Record TestState : Type := mkTestState {
  assertionCalls : nat;
  suppressedErrors : option (list Error)   (* [None]: undefined *)
}.

(** Status and error message the afterEach hook derives for the test that
    has just run. An array is truthy, also when it is empty. *)
Definition testOutcome (testState : TestState) : string * Arg :=
  if (assertionCalls testState =? 0)%nat then ("skipped", Null)
  else
    match suppressedErrors testState with
    | Some (e :: _) => ("failed", Text (message e))
    | _ => ("passed", Null)
    end.

(** The report the hook makes: [apiHelper.afterEachTest(testName,
    testStatus, errorMessage)]. *)
Definition afterEach_report (testName : string) (testState : TestState)
  : Call :=
  RecordTest testName (fst (testOutcome testState))
    (snd (testOutcome testState)).

(** [/[a-zA-Z0-9]/] on one character. *)
Definition is_alnum (c : ascii) : bool :=
  let n := nat_of_ascii c in
  ((48 <=? n) && (n <=? 57) || (65 <=? n) && (n <=? 90)
   || (97 <=? n) && (n <=? 122))%nat.

(** [testName.replace(/[^a-zA-Z0-9]/g, '_')]. *)
Fixpoint sanitize (testName : string) : string :=
  match testName with
  | "" => ""
  | String c rest =>
      String (if is_alnum c then c else "_"%char) (sanitize rest)
  end.

(** The name of the screenshot of a failed test; [timestamp] is
    [new Date().getTime()]. *)
Definition screenshotName (testName : string) (timestamp : Z) : string :=
  "FAILED_" ++ sanitize testName ++ "_" ++ String_of_int timestamp.

(** A test as the harness runs it: beforeEach marks its start, afterEach
    reports it. Each of the two calls has its oracle. *)
Definition harness_test (t : string * TestState * Oracle * Oracle)
  : list (Call * Oracle) :=
  let '(testName, testState, o_before, o_after) := t in
  [ (MarkTestStart, o_before);
    (afterEach_report testName testState, o_after) ].

(** The calls of a suite between beforeAll and afterAll. *)
Definition harness_session (ts : list (string * TestState * Oracle * Oracle))
  : list (Call * Oracle) :=
  flat_map harness_test ts.

Definition a_suite : list (string * TestState * Oracle * Oracle) :=
  [ ("TC-001: valid login", mkTestState 3 None,
     after 10 created, after 1500 created);
    ("TC-002: invalid login",
     mkTestState 2 (Some [mkError "expected true" None]),
     after 10 created, after 900 created);
    ("TC-003: pending", mkTestState 0 (Some [mkError "ignored" None]),
     after 10 created, after 3 created) ].

(** * config/config.js *)

(** [process.env], after dotenv has loaded the .env file. *)
Definition Env : Type := string -> option string.

(** [v !== undefined]. *)
Definition defined (v : option string) : bool :=
  match v with
  | Some _ => true
  | None => false
  end.

(** [v || d] for a default [d] that is a string. *)
Definition or_default (v : option string) (d : string) : string :=
  match js_or v (Some d) with
  | Some s => s
  | None => d
  end.

(** The defaults in which the two versions of the file differ. *)
Record Defaults : Type := mkDefaults {
  default_baseURL : string;
  default_orgId : string;
  default_createdBy : string;
  default_jobName : string
}.

Definition defaults_1 : Defaults :=
  mkDefaults "https://your-api-endpoint.com" "" "" "puppeteer-pom-framework".

Definition defaults_2 : Defaults :=
  mkDefaults "https://unsobering-maribeth-hokey.ngrok-free.dev"
    "374060a8-925c-49aa-8495-8a823949f3e0"
    "c9279b2d-701c-48eb-9122-fbeae465771c" "Puppeteer-Jest-Framework".

(** The [api], [jenkins] and [environment] entries of the exported object;
    [platform] is [process.platform], which the helper reads itself. *)
Definition load_config (d : Defaults) (env : Env) (platform : string)
  : Config :=
  mkConfig
    (defined (env "JENKINS_URL") || defined (env "BUILD_NUMBER"))
    (or_default (env "API_BASE_URL") (default_baseURL d))
    (or_default (env "ORG_ID") (default_orgId d))
    (or_default (env "CREATED_BY") (default_createdBy d))
    (or_default (env "BUILD_NUMBER") "")
    (or_default (env "BUILD_URL") "")
    (or_default (env "JOB_NAME") (default_jobName d))
    (or_default (js_or (env "GIT_BRANCH") (env "BRANCH_NAME")) "main")
    (or_default (env "GIT_COMMIT") "")
    (or_default (js_or (env "BUILD_USER") (env "BUILD_USER_ID")) "jenkins")
    (or_default (env "NODE_ENV") "test")
    platform.

(** A developer's machine, and a Jenkins agent whose BUILD_NUMBER is set to
    the empty string. *)
Definition developer_env : Env :=
  fun name => if name =? "BASE_URL" then Some "http://localhost:3000" else None.

Definition jenkins_env : Env :=
  fun name =>
    if name =? "BUILD_NUMBER" then Some ""
    else if name =? "BRANCH_NAME" then Some "release"
    else None.

(** The same for the first variant: a process other than the one that
    started the run, which has resolved the identifier and marked no test. *)
Definition resumed_v1 : V1.State :=
  mkSt (mkHelper true (Some "run-42") None None)
       (mkWorld (Some []) (Some "run-42") 1793000004000 [] []).

(** * Properties *)

(** Symbolic evaluation of a call: the combinators of the monad, the
    primitives and the methods are unfolded and the record projections
    reduced; arithmetic and string functions are left alone. *)
Ltac js_eval :=
  cbv beta iota zeta delta
    [call_v1 call_v2 forget advance
     V1.beforeAllTests V1.afterEachTest V1.afterAllTests V1.markTestStart
     V1.getPipelineRunId V1.clearTestCasesFile V1.saveTestCaseToFile
     V1.readTestCasesFromFile V1.log_error_response V1.getCurrentTimestamp
     V2.beforeAllTests V2.afterEachTest V2.afterAllTests V2.markTestStart
     V2.getPipelineRunId V2.clearTestCasesFile V2.saveTestCaseToFile
     V2.readTestCasesFromFile V2.getCurrentTimestamp
     axios getenv setenv existsSync ensureDirSync readJsonSync
     writeJsonSync try_catch throw
     bind ret get_this Date_now get_world set_this logger set_world
     with_file with_env with_clock with_sent with_logs
     this world file env_PIPELINE_RUN_ID clock sent logs
     isJenkins pipelineRunId startTime testStartTime
     fst snd negb andb orb
     tick net dir_ok read_ok write_ok].

(** ** Disabled mode *)

Section RunInvariant.

Context {R B : Type}.
Variable call : Call -> Oracle -> St R B -> Outcome * St R B.

Lemma run_cons c o cs s :
  run call ((c, o) :: cs) s =
  (fst (call c o s) :: fst (run call cs (snd (call c o s))),
   snd (run call cs (snd (call c o s)))).
Proof.
  simpl. destruct (call c o s) as [r s']. simpl.
  destruct (run call cs s') as [rs s'']. reflexivity.
Qed.

Lemma run_state_cons c o cs s :
  run_state call ((c, o) :: cs) s = run_state call cs (snd (call c o s)).
Proof. unfold run_state. rewrite run_cons. reflexivity. Qed.

Lemma run_state_app cs1 cs2 s :
  run_state call (cs1 ++ cs2) s = run_state call cs2 (run_state call cs1 s).
Proof.
  revert s. induction cs1 as [|[c o] cs1 IH]; intros s.
  - reflexivity.
  - simpl app. rewrite !run_state_cons. apply IH.
Qed.

(** A property of states every call keeps, and a relation between the
    states before and after that every call establishes, hold along a run. *)
Lemma run_preserves (I : St R B -> Prop) (Q : St R B -> St R B -> Prop)
  (P : Outcome -> Prop) :
  (forall s, Q s s) ->
  (forall s1 s2 s3, Q s1 s2 -> Q s2 s3 -> Q s1 s3) ->
  (forall c o s, I s ->
     P (fst (call c o s)) /\ I (snd (call c o s)) /\ Q s (snd (call c o s))) ->
  forall cs s, I s ->
    Forall P (fst (run call cs s)) /\ I (run_state call cs s)
    /\ Q s (run_state call cs s).
Proof.
  intros Qrefl Qtrans Hstep cs.
  induction cs as [|[c o] cs IH]; intros s Hs.
  - simpl. auto.
  - rewrite run_state_cons, run_cons. simpl fst.
    destruct (Hstep c o s Hs) as (Hp & Hi & Hq).
    destruct (IH _ Hi) as (Hps & His & Hqs).
    split; [constructor; assumption|]. split; [assumption|].
    eapply Qtrans; eassumption.
Qed.

End RunInvariant.

Lemma inert_refl {R B : Type} (s : St R B) : inert s s.
Proof. split; reflexivity. Qed.

Lemma inert_trans {R B : Type} (s1 s2 s3 : St R B) :
  inert s1 s2 -> inert s2 s3 -> inert s1 s3.
Proof. unfold inert. intros [-> ->] [-> ->]. split; reflexivity. Qed.

Lemma disabled_call_v1 config c o s :
  isJenkins (this s) = false ->
  returns_null (fst (call_v1 config c o s)) /\
  isJenkins (this (snd (call_v1 config c o s))) = false /\
  inert s (snd (call_v1 config c o s)).
Proof.
  intros H. unfold inert, returns_null.
  destruct s as [[en pid st0 tst] w]. simpl in H. subst en.
  destruct c; js_eval; auto.
Qed.

Lemma disabled_call_v2 config c o s :
  isJenkins (this s) = false ->
  returns_null (fst (call_v2 config c o s)) /\
  isJenkins (this (snd (call_v2 config c o s))) = false /\
  inert s (snd (call_v2 config c o s)).
Proof.
  intros H. unfold inert, returns_null.
  destruct s as [[en pid st0 tst] w]. simpl in H. subst en.
  destruct c; js_eval; auto.
Qed.

(** C5. With reporting disabled, any sequence of calls of the harness, with
    any arguments and whatever the environment does, issues no request,
    leaves the persisted file as it was, and every call returns null. This
    holds for both variants of the helper. *)
Theorem disabled_mode_is_inert (config : Config) (cs : list (Call * Oracle))
  (s1 : V1.State) (s2 : V2.State) :
  isJenkins (this s1) = false ->
  isJenkins (this s2) = false ->
  (Forall returns_null (fst (run (call_v1 config) cs s1)) /\
   inert s1 (run_state (call_v1 config) cs s1)) /\
  (Forall returns_null (fst (run (call_v2 config) cs s2)) /\
   inert s2 (run_state (call_v2 config) cs s2)).
Proof.
  intros H1 H2. split.
  - destruct (run_preserves (call_v1 config)
                (fun s => isJenkins (this s) = false) inert returns_null
                inert_refl inert_trans (disabled_call_v1 config) cs s1 H1)
      as (Hr & _ & Hi).
    split; assumption.
  - destruct (run_preserves (call_v2 config)
                (fun s => isJenkins (this s) = false) inert returns_null
                inert_refl inert_trans (disabled_call_v2 config) cs s2 H2)
      as (Hr & _ & Hi).
    split; assumption.
Qed.

Lemma disabled_mode_is_inert_witness :
  (Forall returns_null
     (fst (run (call_v1 local_config) a_session (fresh_v1 local_config)))
   /\ inert (fresh_v1 local_config)
        (run_state (call_v1 local_config) a_session
           (fresh_v1 local_config))) /\
  (Forall returns_null
     (fst (run (call_v2 local_config) a_session (fresh_v2 local_config)))
   /\ inert (fresh_v2 local_config)
        (run_state (call_v2 local_config) a_session
           (fresh_v2 local_config))).
Proof.
  apply (disabled_mode_is_inert local_config a_session
           (fresh_v1 local_config) (fresh_v2 local_config));
    reflexivity.
Defined.

(** ** The aggregates of finish *)

Section Counting.

Context {R : Type}.
Variable status_of : R -> string.

Lemma count_status_cons s t tests :
  count_status status_of s (t :: tests) =
  ((if (status_of t =? s)%string then 1 else 0)
   + count_status status_of s tests)%nat.
Proof.
  unfold count_status. simpl. destruct (status_of t =? s); reflexivity.
Qed.

Lemma count_status_app s l1 l2 :
  count_status status_of s (l1 ++ l2) =
  (count_status status_of s l1 + count_status status_of s l2)%nat.
Proof.
  unfold count_status. rewrite filter_app, length_app. reflexivity.
Qed.

Lemma count_status_le s tests :
  (count_status status_of s tests <= List.length tests)%nat.
Proof. unfold count_status. apply filter_length_le. Qed.

(** The three counts are counts of disjoint classes of records. *)
Lemma counted_known tests :
  counted status_of tests =
  List.length (filter (fun t => known_status (status_of t)) tests).
Proof.
  unfold counted. induction tests as [|t tests IH]; [reflexivity|].
  rewrite !count_status_cons. simpl filter. unfold known_status at 1.
  destruct (String.eqb_spec (status_of t) "passed") as [E|_];
    [rewrite E; simpl; lia|].
  destruct (String.eqb_spec (status_of t) "failed") as [E|_];
    [rewrite E; simpl; lia|].
  destruct (String.eqb_spec (status_of t) "skipped") as [E|_];
    simpl; lia.
Qed.

Lemma filter_length_all (f : R -> bool) tests :
  List.length (filter f tests) = List.length tests <->
  Forall (fun t => f t = true) tests.
Proof.
  induction tests as [|t tests IH]; simpl.
  - split; auto.
  - destruct (f t) eqn:E; simpl.
    + split.
      * intros H. constructor; [assumption|]. apply IH. lia.
      * intros H. inversion H; subst. f_equal. apply IH. assumption.
    + split.
      * intros H. pose proof (filter_length_le f tests). lia.
      * intros H. inversion H; subst. congruence.
  Qed.

Lemma counted_le tests : (counted status_of tests <= List.length tests)%nat.
Proof. rewrite counted_known. apply filter_length_le. Qed.

Lemma counted_all tests :
  counted status_of tests = List.length tests <->
  Forall (fun t => known_status (status_of t) = true) tests.
Proof. rewrite counted_known. apply filter_length_all. Qed.

Lemma count_status_unknown s t :
  known_status (status_of t) = false -> known_status s = true ->
  (status_of t =? s) = false.
Proof.
  intros Ht Hs. destruct (String.eqb_spec (status_of t) s) as [E|]; auto.
  congruence.
Qed.

Lemma count_status_skip s l1 t l2 :
  known_status (status_of t) = false -> known_status s = true ->
  count_status status_of s (l1 ++ t :: l2) =
  count_status status_of s (l1 ++ l2).
Proof.
  intros Ht Hs. rewrite !count_status_app, count_status_cons.
  rewrite (count_status_unknown s t Ht Hs). reflexivity.
Qed.

(** A record of status "failed" exists exactly when the count is not 0. *)
Lemma count_status_pos s tests :
  (0 < count_status status_of s tests)%nat <->
  Exists (fun t => status_of t = s) tests.
Proof.
  induction tests as [|t tests IH].
  - split; [inversion 1|inversion 1].
  - rewrite count_status_cons.
    destruct (String.eqb_spec (status_of t) s) as [E|N].
    + split; [intros _; left; assumption|intros _; lia].
    + split.
      * intros H. right. apply IH. lia.
      * intros H. inversion H; subst; [contradiction|]. apply IH in H1. lia.
Qed.

End Counting.

Lemma aggregate_v1_eq tests end_time duration :
  V1.aggregate tests end_time duration =
  V1.mkFinalPayload
    (if (count_status V1.tc_status "failed" tests =? 0)%nat
     then "passed" else "failed")
    end_time duration (List.length tests)
    (count_status V1.tc_status "passed" tests)
    (count_status V1.tc_status "failed" tests)
    (count_status V1.tc_status "skipped" tests).
Proof. destruct tests; reflexivity. Qed.

Lemma aggregate_v2_status tests end_time :
  V2.fp_status (V2.aggregate tests end_time) =
  if (count_status V2.tc_status "failed" tests =? 0)%nat
  then "passed" else "failed".
Proof.
  unfold V2.aggregate. simpl.
  destruct (count_status V2.tc_status "failed" tests); reflexivity.
Qed.

(** C9. In the payload finish computes from any list of persisted records,
    passed + failed + aborted is at most total_tests, with equality exactly
    when every record has one of the statuses passed, failed, skipped; a
    record of any other status adds one to total_tests, changes none of the
    three counts and does not change the overall status. Both variants. *)
Theorem finish_counts_partition :
  (forall tests end_time duration,
     let p := V1.aggregate tests end_time duration in
     (V1.fp_passed p + V1.fp_failed p + V1.fp_aborted p
        <= V1.fp_total_tests p)%nat /\
     ((V1.fp_passed p + V1.fp_failed p + V1.fp_aborted p)%nat
        = V1.fp_total_tests p <->
      Forall (fun t => known_status (V1.tc_status t) = true) tests)) /\
  (forall l1 t l2 end_time duration,
     known_status (V1.tc_status t) = false ->
     let p := V1.aggregate (l1 ++ t :: l2) end_time duration in
     let q := V1.aggregate (l1 ++ l2) end_time duration in
     V1.fp_total_tests p = S (V1.fp_total_tests q) /\
     V1.fp_passed p = V1.fp_passed q /\
     V1.fp_failed p = V1.fp_failed q /\
     V1.fp_aborted p = V1.fp_aborted q /\
     V1.fp_status p = V1.fp_status q) /\
  (forall tests end_time,
     let p := V2.aggregate tests end_time in
     (V2.fp_passed p + V2.fp_failed p + V2.fp_aborted p
        <= V2.fp_total_tests p)%nat /\
     ((V2.fp_passed p + V2.fp_failed p + V2.fp_aborted p)%nat
        = V2.fp_total_tests p <->
      Forall (fun t => known_status (V2.tc_status t) = true) tests)) /\
  (forall l1 t l2 end_time,
     known_status (V2.tc_status t) = false ->
     let p := V2.aggregate (l1 ++ t :: l2) end_time in
     let q := V2.aggregate (l1 ++ l2) end_time in
     V2.fp_total_tests p = S (V2.fp_total_tests q) /\
     V2.fp_passed p = V2.fp_passed q /\
     V2.fp_failed p = V2.fp_failed q /\
     V2.fp_aborted p = V2.fp_aborted q /\
     V2.fp_status p = V2.fp_status q).
Proof.
  split; [|split; [|split]].
  - intros tests e d p. subst p. rewrite aggregate_v1_eq. simpl.
    split; [apply (counted_le V1.tc_status)|apply (counted_all V1.tc_status)].
  - intros l1 t l2 e d Ht p q. subst p q. rewrite !aggregate_v1_eq. simpl.
    rewrite !(count_status_skip V1.tc_status _ l1 t l2 Ht) by reflexivity.
    rewrite !length_app. simpl. repeat split; lia.
  - intros tests e p. subst p. unfold V2.aggregate. simpl.
    split; [apply (counted_le V2.tc_status)|apply (counted_all V2.tc_status)].
  - intros l1 t l2 e Ht p q. subst p q.
    rewrite !aggregate_v2_status. unfold V2.aggregate. simpl.
    rewrite !(count_status_skip V2.tc_status _ l1 t l2 Ht) by reflexivity.
    rewrite !length_app. simpl. repeat split; lia.
Qed.

Lemma finish_counts_partition_witness :
  V1.fp_total_tests (V1.aggregate tests_with_unknown_status_v1 0 0) = 3%nat /\
  V1.fp_passed (V1.aggregate tests_with_unknown_status_v1 0 0) = 1%nat /\
  V1.fp_status (V1.aggregate tests_with_unknown_status_v1 0 0) = "passed" /\
  V2.fp_total_tests (V2.aggregate tests_with_unknown_status_v2 0) = 3%nat /\
  V2.fp_aborted (V2.aggregate tests_with_unknown_status_v2 0) = 1%nat /\
  V2.fp_status (V2.aggregate tests_with_unknown_status_v2 0) = "passed".
Proof.
  destruct finish_counts_partition as (_ & H1 & _ & H2).
  destruct (H1 [V1.mkTestCase "tc-1" "TC-001" "passed" (Seconds 1500)
                  1793000001500]
               (V1.mkTestCase "tc-2" "TC-002" "pending" (Seconds 20)
                  1793000002000)
               [V1.mkTestCase "tc-3" "TC-003" "skipped" (Seconds 0)
                  1793000003000] 0 0 eq_refl)
    as (T1 & P1 & _ & _ & S1).
  destruct (H2 [V2.mkTestCase "TC-001" None "passed" "00:00:01"]
               (V2.mkTestCase "TC-002" None "pending" "00:00:00")
               [V2.mkTestCase "TC-003" None "skipped" "00:00:00"] 0 eq_refl)
    as (T2 & _ & _ & A2 & S2).
  exact (conj T1 (conj P1 (conj S1 (conj T2 (conj A2 S2))))).
Defined.

(** ** What one call does *)

Ltac break_inner :=
  match goal with
  | |- context [match ?x with _ => _ end] =>
      lazymatch x with
      | context [match _ with _ => _ end] => fail
      | _ => destruct x eqn:?
      end
  end.

Ltac js_cases := js_eval; repeat (break_inner; js_eval).

Ltac js_intro s o :=
  destruct s as [[?en ?pid ?st0 ?tst] [?f ?e ?c ?sn ?lg]];
  destruct o as [?tk ?nt ?dk ?rk ?wk];
  unfold inert, resolvable, resolve, requests_between, logged_between,
    records, net_ok, net_data, save_ok, returns_null in *;
  cbn [this world isJenkins pipelineRunId env_PIPELINE_RUN_ID file clock sent
       logs startTime testStartTime net dir_ok read_ok write_ok tick] in *.

Ltac js_done :=
  repeat split; try reflexivity; try discriminate; try congruence;
  try (rewrite List.app_nil_r; reflexivity);
  try (cbn [truthy_opt] in *; congruence); eauto.

Lemma resolve_cases {R B} (s : St R B) :
  resolve s = None \/ exists id, resolve s = Some id /\ truthy id = true.
Proof.
  unfold resolve, js_or.
  destruct (truthy_opt (pipelineRunId (this s))) eqn:E.
  - destruct (pipelineRunId (this s)) as [id|]; [|discriminate].
    right. exists id. auto.
  - destruct (truthy_opt (env_PIPELINE_RUN_ID (world s))) eqn:E'; auto.
    destruct (env_PIPELINE_RUN_ID (world s)) as [id|]; [|discriminate].
    right. exists id. auto.
Qed.

Lemma resolvable_true {R B} (s : St R B) :
  resolvable s = true ->
  exists id, resolve s = Some id /\ truthy id = true.
Proof.
  unfold resolvable. destruct (resolve_cases s) as [E|E]; [|intros _; exact E].
  rewrite E. discriminate.
Qed.

Lemma resolvable_false {R B} (s : St R B) :
  resolvable s = false -> resolve s = None.
Proof.
  unfold resolvable. destruct (resolve_cases s) as [E|(id & E & T)]; [auto|].
  rewrite E. simpl. congruence.
Qed.

(** *** First variant *)

Lemma beforeAllTests_v1_effect config o (s : V1.State) :
  isJenkins (this s) = true ->
  let r := V1.beforeAllTests config o s in
  fst r = (if net_ok o then Ok (Some (net_data o)) else Ok None) /\
  (exists p,
     requests_between s (snd r)
       [mkRequest POST (api_baseURL config ++ "/api/pipeline-runs/")
          (V1.RunCreate p)]) /\
  file (world (snd r)) =
    (if dir_ok o && write_ok o then Some [] else file (world s)) /\
  isJenkins (this (snd r)) = true /\
  startTime (this (snd r)) = Some (clock (world s)).
Proof.
  intros He. js_intro s o. subst en.
  js_cases; js_done.
Qed.

Lemma afterEachTest_v1_effect config o title status third (s : V1.State) id :
  isJenkins (this s) = true ->
  resolve s = Some id -> truthy id = true ->
  let d := V1.durationMs (this s) (clock (world s)) in
  let payload :=
    V1.mkCasePayload title status id (Fixed2 (Seconds d)) (clock (world s))
      (match testStartTime (this s) with
       | Some t => t
       | None => clock (world s)
       end)
      (V1.error_field status (arg_value third)) in
  let testCaseId :=
    match js_or (test_id (net_data o)) None with
    | Some i => i
    | None => "N/A"
    end in
  let saved := net_ok o && save_ok o (file (world s)) in
  let r := V1.afterEachTest config o title status third s in
  fst r = (if net_ok o then Ok (Some (net_data o)) else Ok None) /\
  requests_between s (snd r)
    [mkRequest POST (api_baseURL config ++ "/api/test-cases/")
       (V1.CaseCreate payload)] /\
  file (world (snd r)) =
    (if saved
     then Some (records s ++
                [V1.mkTestCase testCaseId title status (Seconds d)
                   (clock (world s))])
     else file (world s)) /\
  this (snd r) =
    mkHelper true (Some id) (startTime (this s)) (testStartTime (this s)) /\
  env_PIPELINE_RUN_ID (world (snd r)) = env_PIPELINE_RUN_ID (world s).
Proof.
  intros He Hr Ht. js_intro s o. subst en. js_eval.
  destruct (truthy_opt pid) eqn:Hp; rewrite Hr, Ht; js_cases; js_done.
Qed.

Lemma afterEachTest_v1_skip config o title status third (s : V1.State) :
  isJenkins (this s) = true ->
  resolve s = None ->
  let r := V1.afterEachTest config o title status third s in
  fst r = Ok None /\ inert s (snd r) /\
  logged_between s (snd r)
    [Err "API-3 Skipped: No Pipeline Run ID available"] /\
  isJenkins (this (snd r)) = true /\ resolve (snd r) = None.
Proof.
  intros He Hr. js_intro s o. subst en. js_eval.
  destruct (truthy_opt pid) eqn:Hp; rewrite Hr; js_cases; js_done.
Qed.

Lemma afterAllTests_v1_effect config o (s : V1.State) id :
  isJenkins (this s) = true ->
  resolve s = Some id -> truthy id = true ->
  let tests :=
    match file (world s) with
    | Some l => if read_ok o then l else []
    | None => []
    end in
  let durationSeconds :=
    match startTime (this s) with
    | Some t => (clock (world s) - t) / 1000
    | None => 0
    end in
  let r := V1.afterAllTests config o s in
  fst r = (if net_ok o then Ok (Some (net_data o)) else Ok None) /\
  requests_between s (snd r)
    [mkRequest PATCH (api_baseURL config ++ "/api/pipeline-runs/" ++ id ++ "/")
       (V1.RunUpdate (V1.aggregate tests (clock (world s)) durationSeconds))] /\
  file (world (snd r)) = file (world s) /\
  this (snd r) =
    mkHelper true (Some id) (startTime (this s)) (testStartTime (this s)) /\
  env_PIPELINE_RUN_ID (world (snd r)) = env_PIPELINE_RUN_ID (world s).
Proof.
  intros He Hr Ht. js_intro s o. subst en. js_eval.
  destruct (truthy_opt pid) eqn:Hp; rewrite Hr, Ht; js_cases; js_done.
Qed.

Lemma afterAllTests_v1_skip config o (s : V1.State) :
  isJenkins (this s) = true ->
  resolve s = None ->
  let r := V1.afterAllTests config o s in
  fst r = Ok None /\ inert s (snd r) /\
  logged_between s (snd r)
    [Err "API-4 Skipped: No Pipeline Run ID available"] /\
  isJenkins (this (snd r)) = true /\ resolve (snd r) = None.
Proof.
  intros He Hr. js_intro s o. subst en. js_eval.
  destruct (truthy_opt pid) eqn:Hp; rewrite Hr; js_cases; js_done.
Qed.

(** *** Second variant *)

Lemma beforeAllTests_v2_effect config o (s : V2.State) :
  isJenkins (this s) = true ->
  let r := V2.beforeAllTests config o s in
  isJenkins (this (snd r)) = true /\
  startTime (this (snd r)) = Some (clock (world s)) /\
  if dir_ok o && write_ok o then
    fst r = (if net_ok o && truthy_opt (pipeline_run_run_id (net_data o))
             then Ok (Some (net_data o)) else Ok None) /\
    (exists p,
       requests_between s (snd r)
         [mkRequest POST (api_baseURL config ++ "/api/pipeline-runs/")
            (V2.RunCreate p)]) /\
    file (world (snd r)) = Some []
  else
    propagates_exception (fst r) /\ inert s (snd r).
Proof.
  intros He. js_intro s o. subst en. unfold propagates_exception.
  js_cases; js_done.
Qed.

Lemma afterEachTest_v2_effect config o title status third (s : V2.State) id :
  isJenkins (this s) = true ->
  resolve s = Some id -> truthy id = true ->
  let d := V2.durationMs (this s) (clock (world s)) in
  let feature := arg_default "General" third in
  let payload :=
    V2.mkCasePayload id title feature status (V2.formatDuration d)
      (match testStartTime (this s) with Some t => t | None => 0 end)
      (clock (world s)) (jenkins_buildUrl config) in
  let saved := net_ok o && save_ok o (file (world s)) in
  let r := V2.afterEachTest config o title status third s in
  fst r = (if saved then Ok (Some (net_data o)) else Ok None) /\
  requests_between s (snd r)
    [mkRequest POST (api_baseURL config ++ "/api/test-cases/")
       (V2.CaseCreate payload)] /\
  file (world (snd r)) =
    (if saved
     then Some (records s ++
                [V2.mkTestCase title feature status (V2.formatDuration d)])
     else file (world s)) /\
  this (snd r) =
    mkHelper true (Some id) (startTime (this s)) (testStartTime (this s)) /\
  env_PIPELINE_RUN_ID (world (snd r)) = env_PIPELINE_RUN_ID (world s).
Proof.
  intros He Hr Ht. js_intro s o. subst en. js_eval.
  destruct (truthy_opt pid) eqn:Hp; rewrite Hr, Ht; js_cases; js_done.
Qed.

Lemma afterEachTest_v2_skip config o title status third (s : V2.State) :
  isJenkins (this s) = true ->
  resolve s = None ->
  let r := V2.afterEachTest config o title status third s in
  fst r = Ok None /\ inert s (snd r) /\
  logged_between s (snd r) [] /\
  isJenkins (this (snd r)) = true /\ resolve (snd r) = None.
Proof.
  intros He Hr. js_intro s o. subst en. js_eval.
  destruct (truthy_opt pid) eqn:Hp; rewrite Hr; js_cases; js_done.
Qed.

Lemma afterAllTests_v2_effect config o (s : V2.State) id :
  isJenkins (this s) = true ->
  resolve s = Some id -> truthy id = true ->
  let r := V2.afterAllTests config o s in
  file (world (snd r)) = file (world s) /\
  this (snd r) =
    mkHelper true (Some id) (startTime (this s)) (testStartTime (this s)) /\
  env_PIPELINE_RUN_ID (world (snd r)) = env_PIPELINE_RUN_ID (world s) /\
  if match file (world s) with Some _ => read_ok o | None => true end then
    fst r = (if net_ok o then Ok (Some (net_data o)) else Ok None) /\
    requests_between s (snd r)
      [mkRequest PATCH
         (api_baseURL config ++ "/api/pipeline-runs/" ++ id ++ "/")
         (V2.RunUpdate (V2.aggregate (records s) (clock (world s))))]
  else
    propagates_exception (fst r) /\ requests_between s (snd r) [].
Proof.
  intros He Hr Ht. js_intro s o. subst en. unfold propagates_exception.
  js_eval.
  destruct (truthy_opt pid) eqn:Hp; rewrite Hr, Ht; js_cases; js_done.
Qed.

Lemma afterAllTests_v2_skip config o (s : V2.State) :
  isJenkins (this s) = true ->
  resolve s = None ->
  let r := V2.afterAllTests config o s in
  fst r = Ok None /\ inert s (snd r) /\
  logged_between s (snd r) [] /\
  isJenkins (this (snd r)) = true /\ resolve (snd r) = None.
Proof.
  intros He Hr. js_intro s o. subst en. js_eval.
  destruct (truthy_opt pid) eqn:Hp; rewrite Hr; js_cases; js_done.
Qed.

Lemma call_v1_never_throws config c o (s : V1.State) :
  exists v, fst (call_v1 config c o s) = Ok v.
Proof.
  js_intro s o. destruct c; js_cases; eauto.
Qed.

Lemma afterEachTest_v2_never_throws config o title status third (s : V2.State) :
  exists v, fst (V2.afterEachTest config o title status third s) = Ok v.
Proof.
  js_intro s o. js_cases; eauto.
Qed.

Lemma call_v1_frame config c o (s : V1.State) :
  let s' := snd (call_v1 config c o s) in
  clock (world s') = clock (world s) + Z.of_N (tick o) /\
  isJenkins (this s') = isJenkins (this s) /\
  testStartTime (this s') =
    match c with
    | MarkTestStart => Some (clock (world s) + Z.of_N (tick o))
    | _ => testStartTime (this s)
    end.
Proof.
  js_intro s o. destruct c; js_cases; auto.
Qed.

Lemma call_v2_frame config c o (s : V2.State) :
  let s' := snd (call_v2 config c o s) in
  clock (world s') = clock (world s) + Z.of_N (tick o) /\
  isJenkins (this s') = isJenkins (this s) /\
  testStartTime (this s') =
    match c with
    | MarkTestStart => Some (clock (world s) + Z.of_N (tick o))
    | _ => testStartTime (this s)
    end.
Proof.
  js_intro s o. destruct c; js_cases; auto.
Qed.

(** ** Calls without run identifier *)

Lemma advance_inert {R B : Type} n (s : St R B) : inert s (advance n s).
Proof. split; reflexivity. Qed.

Lemma advance_resolve {R B : Type} n (s : St R B) :
  resolve (advance n s) = resolve s.
Proof. reflexivity. Qed.

(** C6, as the claim states it, fails on the second variant: a recordTest
    call made while reporting is enabled and no run identifier is resolvable
    logs nothing. *)
Lemma missing_run_id_not_logged_v2 :
  isJenkins (this (fresh_v2 ci_config)) = true /\
  resolvable (fresh_v2 ci_config) = false /\
  ~ logged_and_skipped (fresh_v2 ci_config)
      (call_v2 ci_config (RecordTest "TC-001" "passed" Null)
         (after 1500 created) (fresh_v2 ci_config)).
Proof.
  split; [reflexivity|]. split; [reflexivity|].
  intros (_ & _ & l & Hl & Hlog). apply Hl.
  unfold logged_between in Hlog. vm_compute in Hlog.
  destruct l; [reflexivity|discriminate].
Qed.

(** C6, amended. A recordTest or finish call made while reporting is enabled
    and no run identifier is resolvable is skipped: it issues no request,
    leaves the persisted file as it was and returns null. The first variant
    logs the omission as one error line; the second variant logs nothing. *)
Theorem missing_run_id_skips (config : Config) (c : Call) (o : Oracle)
  (s1 : V1.State) (s2 : V2.State) :
  reports c = true ->
  isJenkins (this s1) = true -> resolvable s1 = false ->
  isJenkins (this s2) = true -> resolvable s2 = false ->
  (returns_null (fst (call_v1 config c o s1)) /\
   inert s1 (snd (call_v1 config c o s1)) /\
   exists line,
     logged_between s1 (snd (call_v1 config c o s1)) [Err line]) /\
  (returns_null (fst (call_v2 config c o s2)) /\
   inert s2 (snd (call_v2 config c o s2)) /\
   logged_between s2 (snd (call_v2 config c o s2)) []).
Proof.
  intros Hc He1 Hr1 He2 Hr2.
  apply resolvable_false in Hr1. apply resolvable_false in Hr2.
  destruct c; try discriminate; unfold call_v1, call_v2.
  - destruct (afterEachTest_v1_skip config o title status third
                (advance (tick o) s1) He1 Hr1) as (A1 & A2 & A3 & _).
    destruct (afterEachTest_v2_skip config o title status third
                (advance (tick o) s2) He2 Hr2) as (B1 & B2 & B3 & _).
    repeat split; try assumption; try (apply A2); try (apply B2).
    eexists. exact A3.
  - destruct (afterAllTests_v1_skip config o (advance (tick o) s1) He1 Hr1)
      as (A1 & A2 & A3 & _).
    destruct (afterAllTests_v2_skip config o (advance (tick o) s2) He2 Hr2)
      as (B1 & B2 & B3 & _).
    repeat split; try assumption; try (apply A2); try (apply B2).
    eexists. exact A3.
Qed.

Lemma missing_run_id_skips_witness :
  (returns_null
     (fst (call_v1 ci_config Finish (after 20 created) (fresh_v1 ci_config)))
   /\ inert (fresh_v1 ci_config)
        (snd (call_v1 ci_config Finish (after 20 created)
                (fresh_v1 ci_config)))
   /\ exists line,
        logged_between (fresh_v1 ci_config)
          (snd (call_v1 ci_config Finish (after 20 created)
                  (fresh_v1 ci_config))) [Err line]) /\
  (returns_null
     (fst (call_v2 ci_config Finish (after 20 created) (fresh_v2 ci_config)))
   /\ inert (fresh_v2 ci_config)
        (snd (call_v2 ci_config Finish (after 20 created)
                (fresh_v2 ci_config)))
   /\ logged_between (fresh_v2 ci_config)
        (snd (call_v2 ci_config Finish (after 20 created)
                (fresh_v2 ci_config))) []).
Proof.
  apply (missing_run_id_skips ci_config Finish (after 20 created)
           (fresh_v1 ci_config) (fresh_v2 ci_config));
    reflexivity.
Defined.

(** ** Absorption of failures *)

(** The first variant absorbs every failure: whatever the state and the
    environment, no call propagates an exception. *)
Lemma first_variant_absorbs_failures config c o (s : V1.State) :
  ~ propagates_exception (fst (call_v1 config c o s)).
Proof.
  destruct (call_v1_never_throws config c o s) as [v Hv].
  rewrite Hv. intros [e He]. discriminate.
Qed.

(** So does recordTest in the second variant. *)
Lemma recordTest_v2_absorbs_failures config o title status third
  (s : V2.State) :
  ~ propagates_exception
      (fst (call_v2 config (RecordTest title status third) o s)).
Proof.
  destruct (afterEachTest_v2_never_throws config o title status third
              (advance (tick o) s)) as [v Hv].
  intros [e He]. pose proof (eq_trans (eq_sym Hv) He) as H. discriminate H.
Qed.

(** In the second variant start propagates the failure of clearing the
    persisted file, and finish that of reading it. *)
Lemma start_v2_propagates_write_failure config o (s : V2.State) :
  isJenkins (this s) = true ->
  dir_ok o && write_ok o = false ->
  propagates_exception (fst (call_v2 config Start o s)) /\
  inert s (snd (call_v2 config Start o s)).
Proof.
  intros He Hio. unfold call_v2.
  destruct (beforeAllTests_v2_effect config o (advance (tick o) s) He)
    as (_ & _ & H).
  rewrite Hio in H. exact H.
Qed.

Lemma finish_v2_propagates_read_failure config o (s : V2.State) id l :
  isJenkins (this s) = true ->
  resolve s = Some id -> truthy id = true ->
  file (world s) = Some l -> read_ok o = false ->
  propagates_exception (fst (call_v2 config Finish o s)) /\
  requests_between s (snd (call_v2 config Finish o s)) [].
Proof.
  intros He Hr Ht Hf Hio. unfold call_v2.
  destruct (afterAllTests_v2_effect config o (advance (tick o) s) id He Hr Ht)
    as (_ & _ & _ & H).
  change (file (world (advance (tick o) s))) with (file (world s)) in H.
  rewrite Hf, Hio in H. exact H.
Qed.

(** C3 fails on the second variant. With reporting enabled, start() rejects
    when the persisted file cannot be written, and finish() rejects when the
    persisted file cannot be read: neither returns null. *)
Theorem second_variant_propagates_file_errors :
  propagates_exception
    (fst (call_v2 ci_config Start (read_only_after 5 created)
            (fresh_v2 ci_config))) /\
  propagates_exception
    (fst (call_v2 ci_config Finish (unreadable_after 20 created)
            resumed_v2)).
Proof.
  split.
  - apply start_v2_propagates_write_failure; reflexivity.
  - apply (finish_v2_propagates_read_failure ci_config
             (unreadable_after 20 created) resumed_v2 "run-42"
             [V2.mkTestCase "TC-001" None "passed" "00:00:01"]);
      reflexivity.
Qed.

(** ** The local append of recordTest *)

Lemma io_ok_save_ok {R : Type} o (f : option (list R)) :
  io_ok o = true -> save_ok o f = true.
Proof.
  unfold io_ok, save_ok. intros H.
  apply andb_prop in H. destruct H as [H Hw].
  apply andb_prop in H. destruct H as [_ Hr].
  rewrite Hw, Hr. destruct f; reflexivity.
Qed.

Lemma recordTest_v1_file config o title status third (s : V1.State) :
  isJenkins (this s) = true -> resolvable s = true ->
  let s' := snd (call_v1 config (RecordTest title status third) o s) in
  (net_ok o && save_ok o (file (world s)) = true ->
   appended_v1 title status s s') /\
  (net_ok o && save_ok o (file (world s)) = false ->
   file (world s') = file (world s)) /\
  (net_ok o = false ->
   returns_null (fst (call_v1 config (RecordTest title status third) o s))).
Proof.
  intros He Hr. destruct (resolvable_true _ Hr) as (id & Hid & Ht).
  destruct (afterEachTest_v1_effect config o title status third
              (advance (tick o) s) id He Hid Ht) as (A & _ & F & _).
  change (file (world (advance (tick o) s))) with (file (world s)) in F.
  change (records (advance (tick o) s)) with (records s) in F.
  split; [|split].
  - intros Hs. rewrite Hs in F. eexists. split; [exact F|]. split; reflexivity.
  - intros Hs. rewrite Hs in F. exact F.
  - intros Hn. rewrite Hn in A. exact A.
Qed.

Lemma recordTest_v2_file config o title status third (s : V2.State) :
  isJenkins (this s) = true -> resolvable s = true ->
  let s' := snd (call_v2 config (RecordTest title status third) o s) in
  (net_ok o && save_ok o (file (world s)) = true ->
   appended_v2 title status s s') /\
  (net_ok o && save_ok o (file (world s)) = false ->
   file (world s') = file (world s)) /\
  (net_ok o = false ->
   returns_null (fst (call_v2 config (RecordTest title status third) o s))).
Proof.
  intros He Hr. destruct (resolvable_true _ Hr) as (id & Hid & Ht).
  destruct (afterEachTest_v2_effect config o title status third
              (advance (tick o) s) id He Hid Ht) as (A & _ & F & _).
  change (file (world (advance (tick o) s))) with (file (world s)) in F, A.
  change (records (advance (tick o) s)) with (records s) in F.
  split; [|split].
  - intros Hs. rewrite Hs in F. eexists. split; [exact F|]. split; reflexivity.
  - intros Hs. rewrite Hs in F. exact F.
  - intros Hn. rewrite Hn in A. exact A.
Qed.

(** C4, as the claim states it, fails on both variants: with a resolvable
    run identifier and a request that times out, recordTest appends no
    record. *)
Lemma failed_request_loses_record :
  (resolvable started_v1 = true /\
   ~ appended_v1 "TC-002" "failed" started_v1
       (snd (call_v1 ci_config
               (RecordTest "TC-002" "failed" (Text "expected true"))
               (after 900 timed_out) started_v1))) /\
  (resolvable started_v2 = true /\
   ~ appended_v2 "TC-002" "failed" started_v2
       (snd (call_v2 ci_config
               (RecordTest "TC-002" "failed" (Text "expected true"))
               (after 900 timed_out) started_v2))).
Proof.
  split; (split; [reflexivity|]); intros (t & Hf & _);
    vm_compute in Hf; discriminate.
Qed.

(** C4, amended. For a recordTest call made with reporting enabled and a
    resolvable run identifier, the local record is appended to the persisted
    sequence when the request of that call succeeds and the file operations
    do; when the request fails (no response, or a response that is not 2xx)
    the persisted file is left as it was and the call returns null. Both
    variants. *)
Theorem record_appended_when_request_succeeds (config : Config) (o : Oracle)
  (title status : string) (third : Arg) (s1 : V1.State) (s2 : V2.State) :
  isJenkins (this s1) = true -> resolvable s1 = true ->
  isJenkins (this s2) = true -> resolvable s2 = true ->
  let r1 := call_v1 config (RecordTest title status third) o s1 in
  let r2 := call_v2 config (RecordTest title status third) o s2 in
  (net_ok o = true -> io_ok o = true ->
   appended_v1 title status s1 (snd r1) /\
   appended_v2 title status s2 (snd r2)) /\
  (net_ok o = false ->
   file (world (snd r1)) = file (world s1) /\ returns_null (fst r1) /\
   file (world (snd r2)) = file (world s2) /\ returns_null (fst r2)).
Proof.
  intros He1 Hr1 He2 Hr2 r1 r2. subst r1 r2.
  destruct (recordTest_v1_file config o title status third s1 He1 Hr1)
    as (A1 & A2 & A3).
  destruct (recordTest_v2_file config o title status third s2 He2 Hr2)
    as (B1 & B2 & B3).
  split.
  - intros Hn Hio. split.
    + apply A1. rewrite Hn, (io_ok_save_ok o _ Hio). reflexivity.
    + apply B1. rewrite Hn, (io_ok_save_ok o _ Hio). reflexivity.
  - intros Hn. repeat split.
    + apply A2. rewrite Hn. reflexivity.
    + apply A3. exact Hn.
    + apply B2. rewrite Hn. reflexivity.
    + apply B3. exact Hn.
Qed.

Lemma record_appended_when_request_succeeds_witness :
  appended_v1 "TC-001" "passed" started_v1
    (snd (call_v1 ci_config (RecordTest "TC-001" "passed" Null)
            (after 1500 created) started_v1)) /\
  appended_v2 "TC-001" "passed" started_v2
    (snd (call_v2 ci_config (RecordTest "TC-001" "passed" Null)
            (after 1500 created) started_v2)).
Proof.
  apply (record_appended_when_request_succeeds ci_config (after 1500 created)
           "TC-001" "passed" Null started_v1 started_v2);
    reflexivity.
Defined.

(** ** The persisted sequence along a session *)

Lemma resolvable_of_resolve {R B : Type} (s : St R B) id :
  resolve s = Some id -> truthy id = true -> resolvable s = true.
Proof. unfold resolvable. intros -> H. exact H. Qed.

Lemma resolve_cached {R B : Type} (s : St R B) en id st tst :
  this s = mkHelper en (Some id) st tst -> truthy id = true ->
  resolve s = Some id.
Proof. unfold resolve. intros -> H. simpl. rewrite H. reflexivity. Qed.

Lemma test_call_v1 config c o (s : V1.State) :
  isJenkins (this s) = true ->
  is_test_call c = true -> io_ok o = true ->
  let s' := snd (call_v1 config c o s) in
  isJenkins (this s') = true /\
  resolvable s' = resolvable s /\
  keys_v1 (records s') =
    keys_v1 (records s)
    ++ (if resolvable s then persisted_calls [(c, o)] else []).
Proof.
  intros He Hc Hio. destruct c; try discriminate.
  - js_intro s o. js_eval. split; [exact He|]. split; [reflexivity|].
    unfold persisted_calls. simpl flat_map.
    match goal with |- context [if ?b then _ else _] => destruct b end;
      rewrite List.app_nil_r; reflexivity.
  - change (call_v1 config (RecordTest title status third) o s)
      with (V1.afterEachTest config o title status third (advance (tick o) s)).
    destruct (resolvable s) eqn:Hr.
    + destruct (resolvable_true _ Hr) as (id & Hid & Ht).
      destruct (afterEachTest_v1_effect config o title status third
                  (advance (tick o) s) id He Hid Ht) as (_ & _ & F & T & E).
      cbv zeta. split; [rewrite T; reflexivity|].
      split; [apply (resolvable_of_resolve _ id);
              [eapply resolve_cached; eassumption|exact Ht]|].
      unfold records at 1. rewrite F.
      change (file (world (advance (tick o) s))) with (file (world s)).
      change (records (advance (tick o) s)) with (records s).
      rewrite (io_ok_save_ok o _ Hio), andb_true_r.
      unfold persisted_calls. simpl.
      destruct (net_ok o).
      * unfold keys_v1. rewrite map_app. reflexivity.
      * rewrite List.app_nil_r. reflexivity.
    + pose proof (resolvable_false _ Hr) as Hn.
      destruct (afterEachTest_v1_skip config o title status third
                  (advance (tick o) s) He Hn) as (_ & (_ & F) & _ & E & N).
      cbv zeta. split; [exact E|]. split.
      * unfold resolvable. rewrite N. reflexivity.
      * unfold records. rewrite F. rewrite List.app_nil_r. reflexivity.
Qed.

Lemma test_call_v2 config c o (s : V2.State) :
  isJenkins (this s) = true ->
  is_test_call c = true -> io_ok o = true ->
  let s' := snd (call_v2 config c o s) in
  isJenkins (this s') = true /\
  resolvable s' = resolvable s /\
  keys_v2 (records s') =
    keys_v2 (records s)
    ++ (if resolvable s then persisted_calls [(c, o)] else []).
Proof.
  intros He Hc Hio. destruct c; try discriminate.
  - js_intro s o. js_eval. split; [exact He|]. split; [reflexivity|].
    unfold persisted_calls. simpl flat_map.
    match goal with |- context [if ?b then _ else _] => destruct b end;
      rewrite List.app_nil_r; reflexivity.
  - change (call_v2 config (RecordTest title status third) o s)
      with (V2.afterEachTest config o title status third (advance (tick o) s)).
    destruct (resolvable s) eqn:Hr.
    + destruct (resolvable_true _ Hr) as (id & Hid & Ht).
      destruct (afterEachTest_v2_effect config o title status third
                  (advance (tick o) s) id He Hid Ht) as (_ & _ & F & T & E).
      cbv zeta. split; [rewrite T; reflexivity|].
      split; [apply (resolvable_of_resolve _ id);
              [eapply resolve_cached; eassumption|exact Ht]|].
      unfold records at 1. rewrite F.
      change (file (world (advance (tick o) s))) with (file (world s)).
      change (records (advance (tick o) s)) with (records s).
      rewrite (io_ok_save_ok o _ Hio), andb_true_r.
      unfold persisted_calls. simpl.
      destruct (net_ok o).
      * unfold keys_v2. rewrite map_app. reflexivity.
      * rewrite List.app_nil_r. reflexivity.
    + pose proof (resolvable_false _ Hr) as Hn.
      destruct (afterEachTest_v2_skip config o title status third
                  (advance (tick o) s) He Hn) as (_ & (_ & F) & _ & E & N).
      cbv zeta. split; [exact E|]. split.
      * unfold resolvable. rewrite N. reflexivity.
      * unfold records. rewrite F. rewrite List.app_nil_r. reflexivity.
Qed.

Lemma persisted_calls_cons c o cs :
  persisted_calls ((c, o) :: cs) = persisted_calls [(c, o)] ++ persisted_calls cs.
Proof. unfold persisted_calls. simpl. rewrite List.app_nil_r. reflexivity. Qed.

Section Sessions.

Context {R B : Type}.
Variable call : Call -> Oracle -> St R B -> Outcome * St R B.
Variable keys : list R -> list (string * string).

Hypothesis test_call : forall c o s,
  isJenkins (this s) = true ->
  is_test_call c = true -> io_ok o = true ->
  isJenkins (this (snd (call c o s))) = true /\
  resolvable (snd (call c o s)) = resolvable s /\
  keys (records (snd (call c o s))) =
    keys (records s) ++ (if resolvable s then persisted_calls [(c, o)] else []).

(** Along the calls made while the tests run, the persisted sequence grows
    by the recordTest calls whose request succeeds, provided a run
    identifier is resolvable, and by nothing else. *)
Lemma tests_session_records cs : forall s,
  isJenkins (this s) = true ->
  tests_session cs = true ->
  isJenkins (this (run_state call cs s)) = true /\
  resolvable (run_state call cs s) = resolvable s /\
  keys (records (run_state call cs s)) =
    keys (records s) ++ (if resolvable s then persisted_calls cs else []).
Proof.
  induction cs as [|[c o] cs IH]; intros s He Hs.
  - unfold run_state. simpl. split; [exact He|]. split; [reflexivity|].
    destruct (resolvable s); simpl; rewrite List.app_nil_r; reflexivity.
  - simpl in Hs. apply andb_prop in Hs. destruct Hs as [Hco Hs].
    apply andb_prop in Hco. destruct Hco as [Hc Hio].
    rewrite run_state_cons.
    destruct (test_call c o s He Hc Hio) as (E1 & R1 & K1).
    destruct (IH _ E1 Hs) as (E2 & R2 & K2).
    split; [exact E2|]. split; [congruence|].
    rewrite (persisted_calls_cons c o cs), K2, R1, K1.
    destruct (resolvable s); rewrite <- ?app_assoc; reflexivity.
Qed.

End Sessions.

Lemma io_ok_clear o : io_ok o = true -> dir_ok o && write_ok o = true.
Proof.
  unfold io_ok. intros H.
  apply andb_prop in H. destruct H as [H Hw].
  apply andb_prop in H. destruct H as [Hd _].
  rewrite Hd, Hw. reflexivity.
Qed.

Lemma io_ok_read o : io_ok o = true -> read_ok o = true.
Proof.
  unfold io_ok. intros H.
  apply andb_prop in H. destruct H as [H _].
  apply andb_prop in H. destruct H as [_ Hr]. exact Hr.
Qed.

(** start resets the persisted sequence. *)
Lemma start_v1_clears config o (s : V1.State) :
  isJenkins (this s) = true -> io_ok o = true ->
  isJenkins (this (snd (call_v1 config Start o s))) = true /\
  file (world (snd (call_v1 config Start o s))) = Some [].
Proof.
  intros He Hio.
  destruct (beforeAllTests_v1_effect config o (advance (tick o) s) He)
    as (_ & _ & F & E & _).
  rewrite (io_ok_clear o Hio) in F. split; assumption.
Qed.

Lemma start_v2_clears config o (s : V2.State) :
  isJenkins (this s) = true -> io_ok o = true ->
  isJenkins (this (snd (call_v2 config Start o s))) = true /\
  file (world (snd (call_v2 config Start o s))) = Some [].
Proof.
  intros He Hio.
  destruct (beforeAllTests_v2_effect config o (advance (tick o) s) He)
    as (E & _ & F).
  rewrite (io_ok_clear o Hio) in F. destruct F as (_ & _ & F).
  split; assumption.
Qed.

(** finish does not write the persisted file. *)
Lemma finish_v1_keeps_file config o (s : V1.State) :
  isJenkins (this s) = true ->
  file (world (snd (call_v1 config Finish o s))) = file (world s).
Proof.
  intros He. destruct (resolve_cases (advance (tick o) s)) as [N|(id & I & T)].
  - destruct (afterAllTests_v1_skip config o (advance (tick o) s) He N)
      as (_ & (_ & F) & _). exact F.
  - destruct (afterAllTests_v1_effect config o (advance (tick o) s) id He I T)
      as (_ & _ & F & _). exact F.
Qed.

Lemma finish_v2_keeps_file config o (s : V2.State) :
  isJenkins (this s) = true ->
  file (world (snd (call_v2 config Finish o s))) = file (world s).
Proof.
  intros He. destruct (resolve_cases (advance (tick o) s)) as [N|(id & I & T)].
  - destruct (afterAllTests_v2_skip config o (advance (tick o) s) He N)
      as (_ & (_ & F) & _). exact F.
  - destruct (afterAllTests_v2_effect config o (advance (tick o) s) id He I T)
      as (F & _). exact F.
Qed.

(** C2, as the claim states it, fails on both variants: after a start and
    three recordTest calls of which the second has its request time out,
    the persisted sequence holds two records, not the three calls made. *)
Lemma persisted_sequence_misses_failed_call :
  keys_v1 (records (run_state (call_v1 ci_config)
                      ((Start, after 5 created) :: tests_with_timeout)
                      (fresh_v1 ci_config)))
    <> recorded_calls tests_with_timeout /\
  keys_v2 (records (run_state (call_v2 ci_config)
                      ((Start, after 5 created) :: tests_with_timeout)
                      (fresh_v2 ci_config)))
    <> recorded_calls tests_with_timeout.
Proof. split; vm_compute; discriminate. Qed.

(** C2, amended. With reporting enabled and working file operations, start
    resets the persisted sequence to empty, and after any sequence of
    markTestStart and recordTest calls the records of the persisted file
    are, in the order of the calls, those of the recordTest calls whose
    request succeeded (none of them when no run identifier is resolvable);
    a call whose request fails appends nothing, and finish leaves the file
    as it is. Both variants. *)
Theorem persisted_sequence_is_successful_calls (config : Config)
  (o0 oF : Oracle) (tests : list (Call * Oracle))
  (s1 : V1.State) (s2 : V2.State) :
  isJenkins (this s1) = true -> isJenkins (this s2) = true ->
  io_ok o0 = true -> tests_session tests = true ->
  let a1 := snd (call_v1 config Start o0 s1) in
  let b1 := run_state (call_v1 config) tests a1 in
  let a2 := snd (call_v2 config Start o0 s2) in
  let b2 := run_state (call_v2 config) tests a2 in
  (file (world a1) = Some [] /\
   keys_v1 (records b1) =
     (if resolvable a1 then persisted_calls tests else []) /\
   file (world (snd (call_v1 config Finish oF b1))) = file (world b1)) /\
  (file (world a2) = Some [] /\
   keys_v2 (records b2) =
     (if resolvable a2 then persisted_calls tests else []) /\
   file (world (snd (call_v2 config Finish oF b2))) = file (world b2)).
Proof.
  intros He1 He2 Hio Hs a1 b1 a2 b2. split.
  - destruct (start_v1_clears config o0 s1 He1 Hio) as (E & F).
    fold a1 in E, F.
    destruct (tests_session_records (call_v1 config) keys_v1
                (test_call_v1 config) tests a1 E Hs) as (E' & _ & K).
    fold b1 in E', K. unfold records at 2 in K. rewrite F in K.
    split; [exact F|]. split; [exact K|].
    apply finish_v1_keeps_file. exact E'.
  - destruct (start_v2_clears config o0 s2 He2 Hio) as (E & F).
    fold a2 in E, F.
    destruct (tests_session_records (call_v2 config) keys_v2
                (test_call_v2 config) tests a2 E Hs) as (E' & _ & K).
    fold b2 in E', K. unfold records at 2 in K. rewrite F in K.
    split; [exact F|]. split; [exact K|].
    apply finish_v2_keeps_file. exact E'.
Qed.

Lemma persisted_sequence_is_successful_calls_witness :
  keys_v1 (records (run_state (call_v1 ci_config) tests_with_timeout
                      (snd (call_v1 ci_config Start (after 5 created)
                              (fresh_v1 ci_config)))))
    = [("TC-001", "passed"); ("TC-003", "skipped")] /\
  keys_v2 (records (run_state (call_v2 ci_config) tests_with_timeout
                      (snd (call_v2 ci_config Start (after 5 created)
                              (fresh_v2 ci_config)))))
    = [("TC-001", "passed"); ("TC-003", "skipped")].
Proof.
  destruct (persisted_sequence_is_successful_calls ci_config
              (after 5 created) (after 20 created) tests_with_timeout
              (fresh_v1 ci_config) (fresh_v2 ci_config)
              eq_refl eq_refl eq_refl eq_refl)
    as ((_ & K1 & _) & (_ & K2 & _)).
  split; [exact K1|exact K2].
Defined.

(** ** The payload of finish along a session *)

Lemma count_status_keys_v1 st l :
  count_status V1.tc_status st l = count_status snd st (keys_v1 l).
Proof.
  induction l as [|t l IH]; [reflexivity|].
  unfold keys_v1 in *. simpl map. rewrite !count_status_cons, IH. reflexivity.
Qed.

Lemma count_status_keys_v2 st l :
  count_status V2.tc_status st l = count_status snd st (keys_v2 l).
Proof.
  induction l as [|t l IH]; [reflexivity|].
  unfold keys_v2 in *. simpl map. rewrite !count_status_cons, IH. reflexivity.
Qed.

Lemma count_status_existsb {R : Type} (status_of : R -> string) st l :
  (count_status status_of st l =? 0)%nat =
  negb (existsb (fun t => status_of t =? st) l).
Proof.
  induction l as [|t l IH]; [reflexivity|].
  rewrite count_status_cons. simpl existsb.
  destruct (status_of t =? st); [reflexivity|]. simpl. exact IH.
Qed.

Lemma summarises_v1 tests end_time duration :
  summarises (keys_v1 tests)
    (V1.fp_status (V1.aggregate tests end_time duration))
    (V1.fp_total_tests (V1.aggregate tests end_time duration))
    (V1.fp_passed (V1.aggregate tests end_time duration))
    (V1.fp_failed (V1.aggregate tests end_time duration))
    (V1.fp_aborted (V1.aggregate tests end_time duration)).
Proof.
  rewrite aggregate_v1_eq. simpl. unfold summarises.
  rewrite !count_status_keys_v1, count_status_existsb.
  unfold keys_v1 at 1. rewrite length_map.
  repeat split.
  destruct (existsb _ _); reflexivity.
Qed.

Lemma summarises_v2 tests end_time :
  summarises (keys_v2 tests)
    (V2.fp_status (V2.aggregate tests end_time))
    (V2.fp_total_tests (V2.aggregate tests end_time))
    (V2.fp_passed (V2.aggregate tests end_time))
    (V2.fp_failed (V2.aggregate tests end_time))
    (V2.fp_aborted (V2.aggregate tests end_time)).
Proof.
  rewrite aggregate_v2_status. unfold V2.aggregate. simpl. unfold summarises.
  rewrite !count_status_keys_v2, count_status_existsb.
  unfold keys_v2 at 1. rewrite length_map.
  repeat split.
  destruct (existsb _ _); reflexivity.
Qed.

Lemma no_recorded_no_persisted cs :
  recorded_calls cs = [] -> persisted_calls cs = [].
Proof.
  induction cs as [|[c o] cs IH]; [reflexivity|].
  unfold recorded_calls, persisted_calls in *. simpl.
  destruct c; simpl; auto. discriminate.
Qed.

Lemma summarises_nothing overall total passed failed aborted :
  summarises [] overall total passed failed aborted ->
  overall = "passed" /\ total = 0%nat /\ passed = 0%nat /\ failed = 0%nat
  /\ aborted = 0%nat.
Proof. unfold summarises. simpl. intros (-> & -> & -> & -> & ->). auto. Qed.

Lemma finish_v1_payload config o (s : V1.State) :
  isJenkins (this s) = true -> resolvable s = true -> read_ok o = true ->
  exists u end_time duration,
    requests_between s (snd (call_v1 config Finish o s))
      [mkRequest PATCH u
         (V1.RunUpdate (V1.aggregate (records s) end_time duration))].
Proof.
  intros He Hr Hio. destruct (resolvable_true _ Hr) as (id & Hid & Ht).
  destruct (afterAllTests_v1_effect config o (advance (tick o) s) id He Hid Ht)
    as (_ & Q & _).
  change (file (world (advance (tick o) s))) with (file (world s)) in Q.
  rewrite Hio in Q.
  replace (match file (world s) with Some l => l | None => [] end)
    with (records s) in Q by (unfold records; destruct (file (world s)); reflexivity).
  eexists _, _, _. exact Q.
Qed.

Lemma finish_v2_payload config o (s : V2.State) :
  isJenkins (this s) = true -> resolvable s = true -> read_ok o = true ->
  exists u end_time,
    requests_between s (snd (call_v2 config Finish o s))
      [mkRequest PATCH u (V2.RunUpdate (V2.aggregate (records s) end_time))].
Proof.
  intros He Hr Hio. destruct (resolvable_true _ Hr) as (id & Hid & Ht).
  destruct (afterAllTests_v2_effect config o (advance (tick o) s) id He Hid Ht)
    as (_ & _ & _ & Q).
  change (file (world (advance (tick o) s))) with (file (world s)) in Q.
  rewrite Hio in Q.
  replace (match file (world s) with Some _ => true | None => true end)
    with true in Q by (destruct (file (world s)); reflexivity).
  destruct Q as (_ & Q). eexists _, _. exact Q.
Qed.

(** C1. With reporting enabled, working file operations and a resolvable run
    identifier, after a start and any sequence of markTestStart and
    recordTest calls, finish sends one PATCH request whose payload has
    total_tests equal to the number of persisted records, which are the
    recordTest calls whose request succeeded; passed, failed and aborted
    equal to the numbers of those calls of status passed, failed and
    skipped; and overall status failed when one of them has status failed,
    passed otherwise. When no test was recorded the payload has total 0,
    passed 0, failed 0, aborted 0 and status passed. Both variants. *)
Theorem finish_payload_counts_persisted (config : Config) (o0 oF : Oracle)
  (tests : list (Call * Oracle)) (s1 : V1.State) (s2 : V2.State) :
  isJenkins (this s1) = true -> isJenkins (this s2) = true ->
  io_ok o0 = true -> tests_session tests = true -> io_ok oF = true ->
  resolvable (snd (call_v1 config Start o0 s1)) = true ->
  resolvable (snd (call_v2 config Start o0 s2)) = true ->
  let b1 := run_state (call_v1 config) tests
              (snd (call_v1 config Start o0 s1)) in
  let b2 := run_state (call_v2 config) tests
              (snd (call_v2 config Start o0 s2)) in
  (exists u p,
     requests_between b1 (snd (call_v1 config Finish oF b1))
       [mkRequest PATCH u (V1.RunUpdate p)] /\
     V1.fp_total_tests p = List.length (records b1) /\
     summarises (persisted_calls tests) (V1.fp_status p)
       (V1.fp_total_tests p) (V1.fp_passed p) (V1.fp_failed p)
       (V1.fp_aborted p) /\
     (recorded_calls tests = [] ->
      V1.fp_status p = "passed" /\ V1.fp_total_tests p = 0%nat /\
      V1.fp_passed p = 0%nat /\ V1.fp_failed p = 0%nat /\
      V1.fp_aborted p = 0%nat)) /\
  (exists u p,
     requests_between b2 (snd (call_v2 config Finish oF b2))
       [mkRequest PATCH u (V2.RunUpdate p)] /\
     V2.fp_total_tests p = List.length (records b2) /\
     summarises (persisted_calls tests) (V2.fp_status p)
       (V2.fp_total_tests p) (V2.fp_passed p) (V2.fp_failed p)
       (V2.fp_aborted p) /\
     (recorded_calls tests = [] ->
      V2.fp_status p = "passed" /\ V2.fp_total_tests p = 0%nat /\
      V2.fp_passed p = 0%nat /\ V2.fp_failed p = 0%nat /\
      V2.fp_aborted p = 0%nat)).
Proof.
  intros He1 He2 Hio Hs HioF Hr1 Hr2 b1 b2. split.
  - destruct (start_v1_clears config o0 s1 He1 Hio) as (E & F).
    destruct (tests_session_records (call_v1 config) keys_v1
                (test_call_v1 config) tests _ E Hs) as (E' & R' & K).
    fold b1 in E', R', K. unfold records at 2 in K. rewrite F, Hr1 in K.
    simpl in K. rewrite Hr1 in R'.
    destruct (finish_v1_payload config oF b1 E' R' (io_ok_read _ HioF))
      as (u & e & d & Q).
    exists u, (V1.aggregate (records b1) e d).
    pose proof (summarises_v1 (records b1) e d) as S. rewrite K in S.
    split; [exact Q|]. split; [rewrite aggregate_v1_eq; reflexivity|].
    split; [exact S|].
    intros Hn. rewrite (no_recorded_no_persisted _ Hn) in S.
    apply summarises_nothing. exact S.
  - destruct (start_v2_clears config o0 s2 He2 Hio) as (E & F).
    destruct (tests_session_records (call_v2 config) keys_v2
                (test_call_v2 config) tests _ E Hs) as (E' & R' & K).
    fold b2 in E', R', K. unfold records at 2 in K. rewrite F, Hr2 in K.
    simpl in K. rewrite Hr2 in R'.
    destruct (finish_v2_payload config oF b2 E' R' (io_ok_read _ HioF))
      as (u & e & Q).
    exists u, (V2.aggregate (records b2) e).
    pose proof (summarises_v2 (records b2) e) as S. rewrite K in S.
    split; [exact Q|]. split; [reflexivity|].
    split; [exact S|].
    intros Hn. rewrite (no_recorded_no_persisted _ Hn) in S.
    apply summarises_nothing. exact S.
Qed.

Lemma finish_payload_counts_persisted_witness :
  (exists u p,
     requests_between
       (run_state (call_v1 ci_config) tests_with_timeout
          (snd (call_v1 ci_config Start (after 5 created)
                  (fresh_v1 ci_config))))
       (snd (call_v1 ci_config Finish (after 20 created)
               (run_state (call_v1 ci_config) tests_with_timeout
                  (snd (call_v1 ci_config Start (after 5 created)
                          (fresh_v1 ci_config))))))
       [mkRequest PATCH u (V1.RunUpdate p)] /\
     summarises [("TC-001", "passed"); ("TC-003", "skipped")]
       (V1.fp_status p) (V1.fp_total_tests p) (V1.fp_passed p)
       (V1.fp_failed p) (V1.fp_aborted p)) /\
  (exists u p,
     requests_between
       (run_state (call_v2 ci_config) tests_with_timeout
          (snd (call_v2 ci_config Start (after 5 created)
                  (fresh_v2 ci_config))))
       (snd (call_v2 ci_config Finish (after 20 created)
               (run_state (call_v2 ci_config) tests_with_timeout
                  (snd (call_v2 ci_config Start (after 5 created)
                          (fresh_v2 ci_config))))))
       [mkRequest PATCH u (V2.RunUpdate p)] /\
     summarises [("TC-001", "passed"); ("TC-003", "skipped")]
       (V2.fp_status p) (V2.fp_total_tests p) (V2.fp_passed p)
       (V2.fp_failed p) (V2.fp_aborted p)).
Proof.
  destruct (finish_payload_counts_persisted ci_config (after 5 created)
              (after 20 created) tests_with_timeout
              (fresh_v1 ci_config) (fresh_v2 ci_config)
              eq_refl eq_refl eq_refl eq_refl eq_refl eq_refl eq_refl)
    as ((u1 & p1 & Q1 & _ & S1 & _) & (u2 & p2 & Q2 & _ & S2 & _)).
  split.
  - exists u1, p1. split; [exact Q1|exact S1].
  - exists u2, p2. split; [exact Q2|exact S2].
Defined.

(** ** Durations *)

Section Timing.

Context {R B : Type}.
Variable call : Call -> Oracle -> St R B -> Outcome * St R B.

Hypothesis call_frame : forall c o s,
  clock (world (snd (call c o s))) = clock (world s) + Z.of_N (tick o) /\
  isJenkins (this (snd (call c o s))) = isJenkins (this s) /\
  testStartTime (this (snd (call c o s))) =
    match c with
    | MarkTestStart => Some (clock (world s) + Z.of_N (tick o))
    | _ => testStartTime (this s)
    end.

(** The clock advances by the time that passes, and only markTestStart
    moves the mark. *)
Lemma run_clock cs : forall s,
  clock (world (run_state call cs s)) = clock (world s) + Z.of_N (elapsed cs).
Proof.
  induction cs as [|[c o] cs IH]; intros s.
  - unfold run_state. simpl. lia.
  - rewrite run_state_cons, IH.
    destruct (call_frame c o s) as (C & _). rewrite C. simpl elapsed. lia.
Qed.

Lemma run_no_mark cs : forall s,
  no_mark cs = true ->
  testStartTime (this (run_state call cs s)) = testStartTime (this s).
Proof.
  induction cs as [|[c o] cs IH]; intros s Hn.
  - reflexivity.
  - simpl in Hn. apply andb_prop in Hn. destruct Hn as [Hc Hn].
    rewrite run_state_cons, (IH _ Hn).
    destruct (call_frame c o s) as (_ & _ & T). rewrite T.
    destruct c; try reflexivity. discriminate.
Qed.

(** The mark, when there is one, is an instant the clock has reached, and
    an instant at or after the one the run began with. *)
Lemma run_mark_in_past cs : forall s t0,
  t0 <= clock (world s) ->
  (forall t, testStartTime (this s) = Some t -> t0 <= t <= clock (world s)) ->
  forall t, testStartTime (this (run_state call cs s)) = Some t ->
    t0 <= t <= clock (world (run_state call cs s)).
Proof.
  induction cs as [|[c o] cs IH]; intros s t0 H0 Hs t Ht.
  - apply Hs. exact Ht.
  - rewrite run_state_cons in *.
    destruct (call_frame c o s) as (C & _ & T).
    apply (IH (snd (call c o s)) t0); [rewrite C; lia| |exact Ht].
    intros t' Ht'. rewrite C. rewrite T in Ht'.
    destruct c; try (specialize (Hs t' Ht'); lia).
    injection Ht' as <-. lia.
Qed.

Lemma run_after_mark pre om post s :
  no_mark post = true ->
  let s' := run_state call (pre ++ (MarkTestStart, om) :: post) s in
  exists t,
    testStartTime (this s') = Some t /\
    clock (world s) <= t /\
    clock (world s') = t + Z.of_N (elapsed post).
Proof.
  intros Hn s'. subst s'.
  rewrite run_state_app, run_state_cons.
  set (s1 := run_state call pre s).
  destruct (call_frame MarkTestStart om s1) as (C & _ & T).
  exists (clock (world s1) + Z.of_N (tick om)).
  rewrite (run_no_mark post _ Hn), run_clock, C. split; [exact T|].
  split; [|reflexivity].
  unfold s1. rewrite run_clock. lia.
Qed.

End Timing.

Lemma durationMs_v1_request config o title status third (s : V1.State) :
  isJenkins (this s) = true -> resolvable s = true ->
  exists u p,
    requests_between s
      (snd (call_v1 config (RecordTest title status third) o s))
      [mkRequest POST u (V1.CaseCreate p)] /\
    V1.cp_duration p = Fixed2 (Seconds (computed_duration_v1 o s)).
Proof.
  intros He Hr. destruct (resolvable_true _ Hr) as (id & Hid & Ht).
  destruct (afterEachTest_v1_effect config o title status third
              (advance (tick o) s) id He Hid Ht) as (_ & Q & _).
  eexists _, _. split; [exact Q|reflexivity].
Qed.

Lemma durationMs_v2_request config o title status third (s : V2.State) :
  isJenkins (this s) = true -> resolvable s = true ->
  exists u p,
    requests_between s
      (snd (call_v2 config (RecordTest title status third) o s))
      [mkRequest POST u (V2.CaseCreate p)] /\
    V2.cp_duration p = V2.formatDuration (computed_duration_v2 o s).
Proof.
  intros He Hr. destruct (resolvable_true _ Hr) as (id & Hid & Ht).
  destruct (afterEachTest_v2_effect config o title status third
              (advance (tick o) s) id He Hid Ht) as (_ & Q & _).
  eexists _, _. split; [exact Q|reflexivity].
Qed.

(** C7. In a process whose helper was just constructed, after any sequence
    of calls, the duration a recordTest call computes is never negative, is
    zero when markTestStart was never called, and otherwise is the time
    that passed since the most recent markTestStart call; the request of
    the call carries that duration (as seconds rounded to two decimals in
    the first variant, formatted by formatDuration in the second). The
    clock is that of the model: it does not run backwards, and for the
    second variant it starts after the epoch. Both variants. *)
Theorem duration_is_time_since_mark (config : Config)
  (w1 : World V1.TestCase V1.Body) (w2 : World V2.TestCase V2.Body)
  (cs : list (Call * Oracle)) (o : Oracle) :
  0 < clock w2 ->
  let s1 := run_state (call_v1 config) cs (mkSt (V1.constructor config) w1) in
  let s2 := run_state (call_v2 config) cs (mkSt (V2.constructor config) w2) in
  (0 <= computed_duration_v1 o s1 /\ 0 <= computed_duration_v2 o s2) /\
  (no_mark cs = true ->
   computed_duration_v1 o s1 = 0 /\ computed_duration_v2 o s2 = 0) /\
  (forall pre om post,
     cs = pre ++ (MarkTestStart, om) :: post -> no_mark post = true ->
     computed_duration_v1 o s1 = Z.of_N (elapsed post + tick o) /\
     computed_duration_v2 o s2 = Z.of_N (elapsed post + tick o)) /\
  (forall title status third,
     isJenkins (this s1) = true -> resolvable s1 = true ->
     exists u p,
       requests_between s1
         (snd (call_v1 config (RecordTest title status third) o s1))
         [mkRequest POST u (V1.CaseCreate p)] /\
       V1.cp_duration p = Fixed2 (Seconds (computed_duration_v1 o s1))) /\
  (forall title status third,
     isJenkins (this s2) = true -> resolvable s2 = true ->
     exists u p,
       requests_between s2
         (snd (call_v2 config (RecordTest title status third) o s2))
         [mkRequest POST u (V2.CaseCreate p)] /\
       V2.cp_duration p = V2.formatDuration (computed_duration_v2 o s2)).
Proof.
  intros Hw s1 s2.
  unfold computed_duration_v1, computed_duration_v2, V1.durationMs,
    V2.durationMs, V2.truthy_num.
  change (testStartTime (this (advance (tick o) s1)))
    with (testStartTime (this s1)).
  change (testStartTime (this (advance (tick o) s2)))
    with (testStartTime (this s2)).
  change (clock (world (advance (tick o) s1)))
    with (clock (world s1) + Z.of_N (tick o)).
  change (clock (world (advance (tick o) s2)))
    with (clock (world s2) + Z.of_N (tick o)).
  split; [|split; [|split; [|split]]].
  - split.
    + destruct (testStartTime (this s1)) as [t|] eqn:E; [|lia].
      pose proof (run_mark_in_past (call_v1 config) (call_v1_frame config) cs
                    (mkSt (V1.constructor config) w1) (clock w1)
                    (Z.le_refl _) (fun t H => ltac:(discriminate H)) t E).
      fold s1 in H. lia.
    + destruct (testStartTime (this s2)) as [t|] eqn:E; [|lia].
      pose proof (run_mark_in_past (call_v2 config) (call_v2_frame config) cs
                    (mkSt (V2.constructor config) w2) (clock w2)
                    (Z.le_refl _) (fun t H => ltac:(discriminate H)) t E).
      fold s2 in H. destruct (t =? 0)%Z; simpl; lia.
  - intros Hn. subst s1 s2.
    rewrite (run_no_mark (call_v1 config) (call_v1_frame config) cs _ Hn).
    rewrite (run_no_mark (call_v2 config) (call_v2_frame config) cs _ Hn).
    split; reflexivity.
  - intros pre om post Hcs Hn. subst s1 s2. rewrite Hcs.
    destruct (run_after_mark (call_v1 config) (call_v1_frame config)
                pre om post (mkSt (V1.constructor config) w1) Hn)
      as (t1 & T1 & _ & C1).
    destruct (run_after_mark (call_v2 config) (call_v2_frame config)
                pre om post (mkSt (V2.constructor config) w2) Hn)
      as (t2 & T2 & L2 & C2).
    rewrite T1, T2, C1, C2. simpl in L2.
    replace (t2 =? 0)%Z with false by (symmetry; apply Z.eqb_neq; lia).
    simpl. split; lia.
  - intros title status third He Hr.
    apply durationMs_v1_request; assumption.
  - intros title status third He Hr.
    apply durationMs_v2_request; assumption.
Qed.

Lemma duration_is_time_since_mark_witness :
  computed_duration_v1 (after 1500 created)
    (run_state (call_v1 ci_config) a_started_run (fresh_v1 ci_config)) = 1500
  /\
  computed_duration_v2 (after 1500 created)
    (run_state (call_v2 ci_config) a_started_run (fresh_v2 ci_config)) = 1500.
Proof.
  destruct (duration_is_time_since_mark ci_config fresh_world fresh_world
              a_started_run (after 1500 created) eq_refl)
    as (_ & _ & H & _).
  exact (H [(Start, after 5 created)] (after 10 created) [] eq_refl eq_refl).
Defined.

(** ** The error message of a failed test *)

Lemma substring_prefix_length n : forall s,
  (String.length (substring 0 n s) <= n)%nat /\
  prefix (substring 0 n s) s = true /\
  ((String.length s <= n)%nat -> substring 0 n s = s).
Proof.
  induction n as [|n IH]; intros s.
  - destruct s; simpl; repeat split; auto. intros H. lia.
  - destruct s as [|c s]; simpl.
    + repeat split; auto; lia.
    + destruct (IH s) as (L & P & E). repeat split.
      * lia.
      * destruct (ascii_dec c c); [exact P|contradiction].
      * intros H. rewrite E by lia. reflexivity.
Qed.

Lemma error_field_spec status errorMessage :
  (forall msg, status = "failed" -> errorMessage = Some msg -> msg <> "" ->
     V1.error_field status errorMessage = Some (substring 0 500 msg)) /\
  (status <> "failed" \/ errorMessage = None \/ errorMessage = Some "" ->
   V1.error_field status errorMessage = None).
Proof.
  unfold V1.error_field, truthy. split.
  - intros msg -> -> Hm.
    destruct (String.eqb_spec msg "") as [E|_]; [contradiction|].
    reflexivity.
  - intros [H|[H|H]].
    + destruct errorMessage as [msg|]; [|reflexivity].
      destruct (String.eqb_spec status "failed") as [E|_]; [contradiction|].
      rewrite andb_false_r. reflexivity.
    + rewrite H. reflexivity.
    + rewrite H. reflexivity.
Qed.

(** C8, as the claim states it, fails: in the first variant a recordTest
    call with status failed and the empty string as error message, which is
    not null, sends a payload without error-message field. *)
Lemma empty_error_message_not_sent :
  exists u p,
    requests_between started_v1
      (snd (call_v1 ci_config (RecordTest "TC-002" "failed" (Text ""))
              (after 900 created) started_v1))
      [mkRequest POST u (V1.CaseCreate p)] /\
    V1.cp_status p = "failed" /\
    V1.cp_error_message p = None.
Proof.
  eexists _, _. split; [vm_compute; reflexivity|]. split; reflexivity.
Qed.

(** C8, amended, for the first variant. The payload of the request of a
    recordTest call with status failed and a non-empty error message has
    the first 500 characters of the message as error message (the whole
    message when it has at most 500); the payload of a call whose status
    is not failed, or whose error message is absent or empty, has no
    error-message field. *)
Theorem error_message_truncated (config : Config) (o : Oracle)
  (title status : string) (third : Arg) (s : V1.State) :
  isJenkins (this s) = true -> resolvable s = true ->
  exists u p,
    requests_between s
      (snd (call_v1 config (RecordTest title status third) o s))
      [mkRequest POST u (V1.CaseCreate p)] /\
    (forall msg, status = "failed" -> third = Text msg -> msg <> "" ->
       V1.cp_error_message p = Some (substring 0 500 msg) /\
       (String.length (substring 0 500 msg) <= 500)%nat /\
       prefix (substring 0 500 msg) msg = true /\
       ((String.length msg <= 500)%nat -> substring 0 500 msg = msg)) /\
    (status <> "failed" \/ arg_value third = None \/ third = Text "" ->
     V1.cp_error_message p = None).
Proof.
  intros He Hr. destruct (resolvable_true _ Hr) as (id & Hid & Ht).
  destruct (afterEachTest_v1_effect config o title status third
              (advance (tick o) s) id He Hid Ht) as (_ & Q & _).
  eexists _, _. split; [exact Q|].
  cbn [V1.cp_error_message].
  destruct (error_field_spec status (arg_value third)) as (A & B).
  split.
  - intros msg Hs Hm Hne. split.
    + apply A; [exact Hs|rewrite Hm; reflexivity|exact Hne].
    + apply substring_prefix_length.
  - intros [H|[H|H]]; apply B; auto.
    right. right. rewrite H. reflexivity.
Qed.

Lemma error_message_truncated_witness :
  exists u p,
    requests_between started_v1
      (snd (call_v1 ci_config
              (RecordTest "TC-002" "failed" (Text "expected true"))
              (after 900 created) started_v1))
      [mkRequest POST u (V1.CaseCreate p)] /\
    V1.cp_error_message p = Some "expected true".
Proof.
  destruct (error_message_truncated ci_config (after 900 created)
              "TC-002" "failed" (Text "expected true") started_v1
              eq_refl eq_refl) as (u & p & Q & A & _).
  exists u, p. split; [exact Q|].
  destruct (A "expected true" eq_refl eq_refl) as (E & _).
  - discriminate.
  - exact E.
Defined.

(** The second variant has no error message: its third parameter is the
    feature, sent whole in the [feature] field, also when the harness passes
    the error message of a failed test there. *)
Lemma third_argument_is_feature_v2 (config : Config) (o : Oracle)
  (title status msg : string) (s : V2.State) :
  isJenkins (this s) = true -> resolvable s = true ->
  exists u p,
    requests_between s
      (snd (call_v2 config (RecordTest title status (Text msg)) o s))
      [mkRequest POST u (V2.CaseCreate p)] /\
    V2.cp_feature p = Some msg.
Proof.
  intros He Hr. destruct (resolvable_true _ Hr) as (id & Hid & Ht).
  destruct (afterEachTest_v2_effect config o title status (Text msg)
              (advance (tick o) s) id He Hid Ht) as (_ & Q & _).
  eexists _, _. split; [exact Q|reflexivity].
Qed.

(** ** formatDuration *)


Lemma String_of_int_nonneg z :
  0 <= z ->
  exists d, d <> Decimal.Nil /\
    String_of_int z = NilZero.string_of_uint d /\ Z.of_uint d = z.
Proof.
  intros Hz. unfold String_of_int. destruct z as [|p|p]; [| |lia].
  - exists (Decimal.D0 Decimal.Nil). repeat split. discriminate.
  - exists (Pos.to_uint p). split; [apply DecimalPos.Unsigned.to_uint_nonnil|].
    split; [reflexivity|].
    unfold Z.of_uint. rewrite DecimalPos.Unsigned.of_to. reflexivity.
Qed.

Lemma decimal_value_String_of_int z :
  0 <= z -> decimal_value (String_of_int z) = Some z.
Proof.
  intros Hz. destruct (String_of_int_nonneg z Hz) as (d & Hd & -> & Hv).
  unfold decimal_value. rewrite NilZero.usu by assumption. simpl. congruence.
Qed.

Lemma decimal_value_nonempty s v : decimal_value s = Some v -> s <> "".
Proof. intros H ->. discriminate. Qed.

Lemma decimal_value_zero_prefix s v :
  decimal_value s = Some v -> decimal_value (String "0" s) = Some v.
Proof.
  unfold decimal_value. destruct s as [|c s]; [discriminate|].
  unfold NilZero.uint_of_string.
  change (NilEmpty.uint_of_string (String "0" (String c s)))
    with (option_map Decimal.D0 (NilEmpty.uint_of_string (String c s))).
  destruct (NilEmpty.uint_of_string (String c s)); [|discriminate].
  simpl. intros H. exact H.
Qed.

Lemma padStart_decimal s v :
  decimal_value s = Some v ->
  decimal_value (padStart 2 "0" s) = Some v /\
  (2 <= String.length (padStart 2 "0" s))%nat.
Proof.
  intros H. unfold padStart.
  destruct s as [|c [|c' s]]; [discriminate| |].
  - simpl. split; [apply (decimal_value_zero_prefix _ _ H)|lia].
  - simpl. split; [assumption|lia].
Qed.

Lemma hms_arithmetic total :
  0 <= total ->
  0 <= total / 3600 /\
  0 <= Z.rem total 3600 / 60 < 60 /\
  0 <= Z.rem total 60 < 60 /\
  total / 3600 * 3600 + Z.rem total 3600 / 60 * 60 + Z.rem total 60 = total.
Proof.
  intros H.
  rewrite !Z.rem_mod_nonneg by lia.
  Z.to_euclidean_division_equations. lia.
Qed.

(** C10. For every non-negative count of milliseconds, formatDuration
    returns hours, minutes and seconds separated by colons, each written in
    decimal with at least two digits, with minutes and seconds below 60 and
    hours * 3600 + minutes * 60 + seconds = floor(ms / 1000). The second
    variant sends this string as the duration of the test case and persists
    the same string in the record. *)
Theorem formatDuration_hms (ms : Z) :
  0 <= ms ->
  (exists (hh mm ss : string) (h m s : Z),
     V2.formatDuration ms = (hh ++ ":" ++ mm ++ ":" ++ ss)%string /\
     decimal_value hh = Some h /\ decimal_value mm = Some m /\
     decimal_value ss = Some s /\
     (2 <= String.length hh)%nat /\ (2 <= String.length mm)%nat /\
     (2 <= String.length ss)%nat /\
     0 <= h /\ 0 <= m < 60 /\ 0 <= s < 60 /\
     h * 3600 + m * 60 + s = ms / 1000) /\
  (forall config o title status third (st : V2.State),
     isJenkins (this st) = true -> resolvable st = true ->
     computed_duration_v2 o st = ms ->
     net_ok o = true -> io_ok o = true ->
     let st' := snd (call_v2 config (RecordTest title status third) o st) in
     exists u p t,
       requests_between st st' [mkRequest POST u (V2.CaseCreate p)] /\
       V2.cp_duration p = V2.formatDuration ms /\
       file (world st') = Some (records st ++ [t]) /\
       V2.tc_duration t = V2.formatDuration ms).
Proof.
  intros Hms. split.
  - assert (Ht : 0 <= ms / 1000) by (apply Z.div_pos; lia).
    destruct (hms_arithmetic (ms / 1000) Ht) as (Hh & Hm & Hs & E).
    destruct (padStart_decimal _ _ (decimal_value_String_of_int _ Hh))
      as (V1 & L1).
    destruct (padStart_decimal _ _
                (decimal_value_String_of_int _ (proj1 Hm))) as (V2 & L2).
    destruct (padStart_decimal _ _
                (decimal_value_String_of_int _ (proj1 Hs))) as (V3 & L3).
    eexists _, _, _, _, _, _.
    split; [reflexivity|].
    split; [exact V1|]. split; [exact V2|]. split; [exact V3|].
    repeat split; try assumption; try lia.
  - intros config o title status third st He Hr Hd Hn Hio st'.
    destruct (resolvable_true _ Hr) as (id & Hid & Ht).
    destruct (afterEachTest_v2_effect config o title status third
                (advance (tick o) st) id He Hid Ht) as (_ & Q & F & _).
    change (file (world (advance (tick o) st))) with (file (world st)) in F.
    change (records (advance (tick o) st)) with (records st) in F.
    unfold computed_duration_v2 in Hd. rewrite Hd in Q, F.
    rewrite Hn, (io_ok_save_ok o _ Hio) in F. cbn [andb] in F.
    eexists _, _, _. split; [exact Q|]. split; [reflexivity|].
    split; [exact F|reflexivity].
Qed.

Lemma formatDuration_hms_witness :
  exists (hh mm ss : string) (h m s : Z),
    V2.formatDuration 3723004 = (hh ++ ":" ++ mm ++ ":" ++ ss)%string /\
    decimal_value hh = Some h /\ decimal_value mm = Some m /\
    decimal_value ss = Some s /\
    (2 <= String.length hh)%nat /\ (2 <= String.length mm)%nat /\
    (2 <= String.length ss)%nat /\
    0 <= h /\ 0 <= m < 60 /\ 0 <= s < 60 /\
    h * 3600 + m * 60 + s = 3723004 / 1000.
Proof.
  apply (proj1 (formatDuration_hms 3723004 ltac:(lia))).
Defined.

(** * Further properties of the helpers *)

(** ** The run identifier *)

Lemma start_v1_run_id config o (s : V1.State) :
  isJenkins (this s) = true ->
  let s' := snd (V1.beforeAllTests config o s) in
  pipelineRunId (this s') =
    (if net_ok o then run_id (net_data o) else pipelineRunId (this s)) /\
  env_PIPELINE_RUN_ID (world s') =
    (if net_ok o
     then Some (match run_id (net_data o) with
                | Some id => id
                | None => "undefined"
                end)
     else env_PIPELINE_RUN_ID (world s)).
Proof.
  intros He. js_intro s o. subst en. js_cases; js_done.
Qed.

Lemma start_v2_run_id config o (s : V2.State) :
  isJenkins (this s) = true ->
  let s' := snd (V2.beforeAllTests config o s) in
  let answered := dir_ok o && write_ok o && net_ok o in
  pipelineRunId (this s') =
    (if answered then pipeline_run_run_id (net_data o)
     else pipelineRunId (this s)) /\
  env_PIPELINE_RUN_ID (world s') =
    (if answered && truthy_opt (pipeline_run_run_id (net_data o))
     then pipeline_run_run_id (net_data o)
     else env_PIPELINE_RUN_ID (world s)).
Proof.
  intros He. js_intro s o. subst en. js_cases; js_done.
Qed.

Lemma getPipelineRunId_v1_spec (s : V1.State) :
  fst (V1.getPipelineRunId s) = Ok (resolve s) /\
  world (snd (V1.getPipelineRunId s)) = world s /\
  pipelineRunId (this (snd (V1.getPipelineRunId s))) = resolve s /\
  isJenkins (this (snd (V1.getPipelineRunId s))) = isJenkins (this s) /\
  startTime (this (snd (V1.getPipelineRunId s))) = startTime (this s) /\
  testStartTime (this (snd (V1.getPipelineRunId s))) = testStartTime (this s).
Proof.
  destruct s as [[en pid st0 tst] w]. unfold resolve. js_eval.
  destruct (truthy_opt pid); js_eval; repeat split; reflexivity.
Qed.

Lemma getPipelineRunId_v2_spec (s : V2.State) :
  fst (V2.getPipelineRunId s) = Ok (resolve s) /\
  world (snd (V2.getPipelineRunId s)) = world s /\
  pipelineRunId (this (snd (V2.getPipelineRunId s))) = resolve s /\
  isJenkins (this (snd (V2.getPipelineRunId s))) = isJenkins (this s) /\
  startTime (this (snd (V2.getPipelineRunId s))) = startTime (this s) /\
  testStartTime (this (snd (V2.getPipelineRunId s))) = testStartTime (this s).
Proof.
  destruct s as [[en pid st0 tst] w]. unfold resolve. js_eval.
  destruct (truthy_opt pid); js_eval; repeat split; reflexivity.
Qed.

Lemma resolve_pinned {R B : Type} (s : St R B) id e :
  pipelineRunId (this s) = Some id -> truthy id = true ->
  resolve (mkSt (this s) (with_env (world s) e)) = Some id.
Proof.
  intros H T. unfold resolve. cbn [this world]. rewrite H. simpl.
  rewrite T. reflexivity.
Qed.

(** X1. getPipelineRunId returns the cached identifier when it is truthy,
    else the identifier of the environment when that is truthy, else null:
    never the empty string. It touches nothing outside the helper, and it
    caches what it returns: once an identifier has been returned, later
    calls return the same one even if the environment variable is changed
    or removed in between. Both variants. *)
Theorem run_id_is_resolved_once (s1 : V1.State) (s2 : V2.State)
  (e : option string) :
  (fst (V1.getPipelineRunId s1) = Ok (resolve s1) /\
   world (snd (V1.getPipelineRunId s1)) = world s1 /\
   (resolve s1 = None \/
    exists id, resolve s1 = Some id /\ id <> "" /\
      fst (V1.getPipelineRunId
             (mkSt (this (snd (V1.getPipelineRunId s1)))
                   (with_env (world s1) e))) = Ok (Some id))) /\
  (fst (V2.getPipelineRunId s2) = Ok (resolve s2) /\
   world (snd (V2.getPipelineRunId s2)) = world s2 /\
   (resolve s2 = None \/
    exists id, resolve s2 = Some id /\ id <> "" /\
      fst (V2.getPipelineRunId
             (mkSt (this (snd (V2.getPipelineRunId s2)))
                   (with_env (world s2) e))) = Ok (Some id))).
Proof.
  split.
  - destruct (getPipelineRunId_v1_spec s1) as (A & W & P & _).
    split; [exact A|]. split; [exact W|].
    destruct (resolve_cases s1) as [N|(id & I & T)]; [left; exact N|].
    right. exists id. split; [exact I|]. split.
    + intros ->. discriminate.
    + destruct (getPipelineRunId_v1_spec
                  (mkSt (this (snd (V1.getPipelineRunId s1)))
                        (with_env (world s1) e))) as (A' & _).
      rewrite A'. f_equal.
      apply (resolve_pinned (mkSt (this (snd (V1.getPipelineRunId s1)))
                                  (world s1)) id e); [|exact T].
      cbn [this]. rewrite P. exact I.
  - destruct (getPipelineRunId_v2_spec s2) as (A & W & P & _).
    split; [exact A|]. split; [exact W|].
    destruct (resolve_cases s2) as [N|(id & I & T)]; [left; exact N|].
    right. exists id. split; [exact I|]. split.
    + intros ->. discriminate.
    + destruct (getPipelineRunId_v2_spec
                  (mkSt (this (snd (V2.getPipelineRunId s2)))
                        (with_env (world s2) e))) as (A' & _).
      rewrite A'. f_equal.
      apply (resolve_pinned (mkSt (this (snd (V2.getPipelineRunId s2)))
                                  (world s2)) id e); [|exact T].
      cbn [this]. rewrite P. exact I.
Qed.


Lemma truthy_nonempty id : id <> "" -> truthy id = true.
Proof.
  unfold truthy. intros H. destruct (String.eqb_spec id ""); [contradiction|].
  reflexivity.
Qed.

Lemma resolve_of_fields {R B : Type} (s : St R B) id :
  pipelineRunId (this s) = Some id -> truthy id = true ->
  resolve s = Some id.
Proof. unfold resolve. intros -> T. simpl. rewrite T. reflexivity. Qed.

Lemma resolve_of_env {R B : Type} (s : St R B) id :
  pipelineRunId (this s) = None ->
  env_PIPELINE_RUN_ID (world s) = Some id -> truthy id = true ->
  resolve s = Some id.
Proof.
  unfold resolve, js_or. intros -> -> T. simpl. rewrite T. reflexivity.
Qed.



(** X3. A start whose request fails (no response, or a response that is
    not 2xx) changes neither the cached run identifier nor the environment
    variable: the calls that follow resolve the identifier they would have
    resolved before, a stale one included. The first variant returns null;
    the second returns null or, when clearing the file failed, rejects. *)
Theorem failed_start_keeps_run_id (config : Config) (o : Oracle)
  (s1 : V1.State) (s2 : V2.State) :
  isJenkins (this s1) = true -> isJenkins (this s2) = true ->
  net_ok o = false ->
  (returns_null (fst (call_v1 config Start o s1)) /\
   resolve (snd (call_v1 config Start o s1)) = resolve s1 /\
   env_PIPELINE_RUN_ID (world (snd (call_v1 config Start o s1)))
     = env_PIPELINE_RUN_ID (world s1)) /\
  ((returns_null (fst (call_v2 config Start o s2)) \/
    propagates_exception (fst (call_v2 config Start o s2))) /\
   resolve (snd (call_v2 config Start o s2)) = resolve s2 /\
   env_PIPELINE_RUN_ID (world (snd (call_v2 config Start o s2)))
     = env_PIPELINE_RUN_ID (world s2)).
Proof.
  intros He1 He2 Hn. split.
  - destruct (beforeAllTests_v1_effect config o (advance (tick o) s1) He1)
      as (A & _).
    destruct (start_v1_run_id config o (advance (tick o) s1) He1) as (P & E).
    rewrite Hn in A, P, E.
    split; [exact A|]. split; [|exact E].
    change (call_v1 config Start o s1)
      with (V1.beforeAllTests config o (advance (tick o) s1)).
    unfold resolve. rewrite P, E. reflexivity.
  - destruct (beforeAllTests_v2_effect config o (advance (tick o) s2) He2)
      as (_ & _ & A).
    destruct (start_v2_run_id config o (advance (tick o) s2) He2) as (P & E).
    rewrite Hn, andb_false_r in P, E. cbn [andb] in E.
    split; [|split; [|exact E]].
    + destruct (dir_ok o && write_ok o).
      * left. destruct A as (A & _). rewrite Hn in A. exact A.
      * right. apply A.
    + change (call_v2 config Start o s2)
        with (V2.beforeAllTests config o (advance (tick o) s2)).
      unfold resolve. rewrite P, E. reflexivity.
Qed.

Lemma failed_start_keeps_run_id_witness :
  resolve (snd (call_v1 ci_config Start (after 5 timed_out) started_v1))
    = Some "run-42" /\
  resolve (snd (call_v2 ci_config Start (after 5 server_error) started_v2))
    = Some "run-42".
Proof.
  split.
  - apply (proj1 (failed_start_keeps_run_id ci_config (after 5 timed_out)
                    started_v1 started_v2 eq_refl eq_refl eq_refl)).
  - apply (proj2 (failed_start_keeps_run_id ci_config (after 5 server_error)
                    started_v1 started_v2 eq_refl eq_refl eq_refl)).
Defined.

(** X4. A 2xx answer to start that carries no run identifier. The first
    variant returns the body as for a success and stores the string
    "undefined" in the environment variable, which the recordTest calls
    that follow resolve and send as run identifier. The second variant
    returns null, leaves the environment variable alone and forgets the
    identifier it had cached. *)
Theorem start_without_run_id (config : Config) (o o' : Oracle)
  (title status : string) (third : Arg) (s1 : V1.State) (s2 : V2.State) :
  isJenkins (this s1) = true -> isJenkins (this s2) = true ->
  net_ok o = true ->
  run_id (net_data o) = None -> pipeline_run_run_id (net_data o) = None ->
  dir_ok o && write_ok o = true ->
  (fst (call_v1 config Start o s1) = Ok (Some (net_data o)) /\
   env_PIPELINE_RUN_ID (world (snd (call_v1 config Start o s1)))
     = Some "undefined" /\
   exists u p,
     requests_between (snd (call_v1 config Start o s1))
       (snd (call_v1 config (RecordTest title status third) o'
               (snd (call_v1 config Start o s1))))
       [mkRequest POST u (V1.CaseCreate p)] /\
     V1.cp_run p = "undefined") /\
  (returns_null (fst (call_v2 config Start o s2)) /\
   env_PIPELINE_RUN_ID (world (snd (call_v2 config Start o s2)))
     = env_PIPELINE_RUN_ID (world s2) /\
   pipelineRunId (this (snd (call_v2 config Start o s2))) = None).
Proof.
  intros He1 He2 Hn Hr1 Hr2 Hio. split.
  - destruct (beforeAllTests_v1_effect config o (advance (tick o) s1) He1)
      as (A & _ & _ & E1 & _).
    destruct (start_v1_run_id config o (advance (tick o) s1) He1) as (P & E).
    rewrite Hn in A, P, E. rewrite Hr1 in P, E.
    split; [exact A|]. split; [exact E|].
    set (a1 := snd (call_v1 config Start o s1)).
    assert (Hres : resolve (advance (tick o') a1) = Some "undefined").
    { apply resolve_of_env; [exact P|exact E|reflexivity]. }
    destruct (afterEachTest_v1_effect config o' title status third
                (advance (tick o') a1) "undefined" E1 Hres eq_refl)
      as (_ & Q & _).
    eexists _, _. split; [exact Q|reflexivity].
  - destruct (beforeAllTests_v2_effect config o (advance (tick o) s2) He2)
      as (_ & _ & A).
    destruct (start_v2_run_id config o (advance (tick o) s2) He2) as (P & E).
    rewrite Hio in A. destruct A as (A & _).
    rewrite Hio, Hn in P, E. cbn [andb] in P, E.
    rewrite Hn, Hr2 in A. rewrite Hr2 in P, E.
    cbn [truthy_opt andb] in A, E.
    split; [exact A|]. split; [exact E|exact P].
Qed.

Lemma start_without_run_id_witness :
  env_PIPELINE_RUN_ID
    (world (snd (call_v1 ci_config Start (after 5 (Responds 200 no_data))
                   (fresh_v1 ci_config)))) = Some "undefined" /\
  returns_null
    (fst (call_v2 ci_config Start (after 5 (Responds 200 no_data))
            (fresh_v2 ci_config))).
Proof.
  destruct (start_without_run_id ci_config (after 5 (Responds 200 no_data))
              (after 10 created) "TC-001" "passed" Null
              (fresh_v1 ci_config) (fresh_v2 ci_config)
              eq_refl eq_refl eq_refl eq_refl eq_refl eq_refl)
    as ((_ & A & _) & (C & _)).
  split; [exact A|exact C].
Defined.

(** ** What a call may do to the file and to the network *)

Ltac at_most_one :=
  first
    [ exists []; split; [rewrite List.app_nil_r; reflexivity|simpl; lia]
    | eexists [_]; split; [reflexivity|simpl; lia] ].

Lemma recorded_calls_cons c o cs :
  recorded_calls ((c, o) :: cs) = recorded_calls [(c, o)] ++ recorded_calls cs.
Proof. unfold recorded_calls. simpl. rewrite List.app_nil_r. reflexivity. Qed.

Lemma call_v1_bounded config c o (s : V1.State) :
  (exists l, sent (world (snd (call_v1 config c o s))) = sent (world s) ++ l
             /\ (List.length l <= if may_request c then 1 else 0)%nat) /\
  (c <> Start ->
   exists l, records (snd (call_v1 config c o s)) = records s ++ l
             /\ (List.length l <= List.length (recorded_calls [(c, o)]))%nat).
Proof.
  js_intro s o. unfold recorded_calls.
  destruct c; cbn [may_request flat_map fst app List.length];
    (split; [|intros Hc; try contradiction]);
    js_cases; at_most_one.
Qed.

Lemma call_v2_bounded config c o (s : V2.State) :
  (exists l, sent (world (snd (call_v2 config c o s))) = sent (world s) ++ l
             /\ (List.length l <= if may_request c then 1 else 0)%nat) /\
  (c <> Start ->
   exists l, records (snd (call_v2 config c o s)) = records s ++ l
             /\ (List.length l <= List.length (recorded_calls [(c, o)]))%nat).
Proof.
  js_intro s o. unfold recorded_calls.
  destruct c; cbn [may_request flat_map fst app List.length];
    (split; [|intros Hc; try contradiction]);
    js_cases; at_most_one.
Qed.

Section Bounded.

Context {R B : Type}.
Variable call : Call -> Oracle -> St R B -> Outcome * St R B.

Hypothesis call_bounded : forall c o s,
  (exists l, sent (world (snd (call c o s))) = sent (world s) ++ l
             /\ (List.length l <= if may_request c then 1 else 0)%nat) /\
  (c <> Start ->
   exists l, records (snd (call c o s)) = records s ++ l
             /\ (List.length l <= List.length (recorded_calls [(c, o)]))%nat).

Lemma run_sent_bounded cs : forall s,
  exists l, sent (world (run_state call cs s)) = sent (world s) ++ l
            /\ (List.length l <= List.length (requesting_calls cs))%nat.
Proof.
  induction cs as [|[c o] cs IH]; intros s.
  - exists []. split; [rewrite List.app_nil_r; reflexivity|simpl; lia].
  - rewrite run_state_cons.
    destruct (call_bounded c o s) as ((l1 & E1 & L1) & _).
    destruct (IH (snd (call c o s))) as (l2 & E2 & L2).
    exists (l1 ++ l2). split.
    + rewrite E2, E1, app_assoc. reflexivity.
    + rewrite length_app. unfold requesting_calls in *. simpl.
      destruct (may_request c); simpl; lia.
Qed.

Lemma run_records_bounded cs : forall s,
  no_start cs = true ->
  exists l, records (run_state call cs s) = records s ++ l
            /\ (List.length l <= List.length (recorded_calls cs))%nat.
Proof.
  induction cs as [|[c o] cs IH]; intros s Hn.
  - exists []. split; [rewrite List.app_nil_r; reflexivity|simpl; lia].
  - simpl in Hn. apply andb_prop in Hn. destruct Hn as [Hc Hn].
    rewrite run_state_cons.
    assert (Hc' : c <> Start) by (intros ->; discriminate).
    destruct (call_bounded c o s) as (_ & H). destruct (H Hc') as (l1 & E1 & L1).
    destruct (IH (snd (call c o s)) Hn) as (l2 & E2 & L2).
    exists (l1 ++ l2). split.
    + rewrite E2, E1, app_assoc. reflexivity.
    + rewrite (recorded_calls_cons c o cs), !length_app. lia.
Qed.

End Bounded.

(** X5. Between two starts the persisted sequence is append-only, whatever
    the state of the helper and whatever the network and the file system
    do: after any sequence of markTestStart, recordTest and finish calls
    the records that were in the file are still there, unchanged and in
    the same order, followed by at most one new record per recordTest
    call. Both variants. *)
Theorem persisted_file_is_append_only (config : Config)
  (cs : list (Call * Oracle)) (s1 : V1.State) (s2 : V2.State) :
  no_start cs = true ->
  (exists l,
     records (run_state (call_v1 config) cs s1) = records s1 ++ l /\
     (List.length l <= List.length (recorded_calls cs))%nat) /\
  (exists l,
     records (run_state (call_v2 config) cs s2) = records s2 ++ l /\
     (List.length l <= List.length (recorded_calls cs))%nat).
Proof.
  intros Hn. split.
  - apply (run_records_bounded (call_v1 config) (call_v1_bounded config));
      exact Hn.
  - apply (run_records_bounded (call_v2 config) (call_v2_bounded config));
      exact Hn.
Qed.

Lemma persisted_file_is_append_only_witness :
  (exists l,
     records (run_state (call_v1 ci_config) tests_with_timeout started_v1)
       = records started_v1 ++ l /\ (List.length l <= 3)%nat) /\
  (exists l,
     records (run_state (call_v2 ci_config) tests_with_timeout resumed_v2)
       = records resumed_v2 ++ l /\ (List.length l <= 3)%nat).
Proof.
  apply (persisted_file_is_append_only ci_config tests_with_timeout
           started_v1 resumed_v2 eq_refl).
Defined.

(** X6. No call retries or withdraws a request: along any sequence of calls,
    whatever the state and the environment, the requests already issued
    stay issued, and at most one request is added per start, recordTest or
    finish call and none by markTestStart. Both variants. *)
Theorem at_most_one_request_per_call (config : Config)
  (cs : list (Call * Oracle)) (s1 : V1.State) (s2 : V2.State) :
  (exists l,
     requests_between s1 (run_state (call_v1 config) cs s1) l /\
     (List.length l <= List.length (requesting_calls cs))%nat) /\
  (exists l,
     requests_between s2 (run_state (call_v2 config) cs s2) l /\
     (List.length l <= List.length (requesting_calls cs))%nat).
Proof.
  split.
  - apply (run_sent_bounded (call_v1 config) (call_v1_bounded config)).
  - apply (run_sent_bounded (call_v2 config) (call_v2_bounded config)).
Qed.

(** ** File failures at finish and at recordTest *)

(** X7. In the first variant, a finish that finds the persisted file absent
    or cannot read it does not fail: it sends the update of the run with
    total 0, passed 0, failed 0, aborted 0 and status passed, whatever
    records the file holds, and leaves the file as it is. *)
Theorem finish_v1_reports_zero_without_file (config : Config) (o : Oracle)
  (s : V1.State) :
  isJenkins (this s) = true -> resolvable s = true ->
  file (world s) = None \/ read_ok o = false ->
  (exists u p,
     requests_between s (snd (call_v1 config Finish o s))
       [mkRequest PATCH u (V1.RunUpdate p)] /\
     V1.fp_status p = "passed" /\ V1.fp_total_tests p = 0%nat /\
     V1.fp_passed p = 0%nat /\ V1.fp_failed p = 0%nat /\
     V1.fp_aborted p = 0%nat) /\
  file (world (snd (call_v1 config Finish o s))) = file (world s) /\
  fst (call_v1 config Finish o s)
    = (if net_ok o then Ok (Some (net_data o)) else Ok None).
Proof.
  intros He Hr Hf. destruct (resolvable_true _ Hr) as (id & Hid & Ht).
  destruct (afterAllTests_v1_effect config o (advance (tick o) s) id He Hid Ht)
    as (A & Q & F & _).
  change (file (world (advance (tick o) s))) with (file (world s)) in Q.
  assert (E : match file (world s) with
              | Some l => if read_ok o then l else []
              | None => []
              end = []).
  { destruct Hf as [-> | ->]; [reflexivity|].
    destruct (file (world s)); reflexivity. }
  rewrite E in Q. split; [|split; [exact F|exact A]].
  eexists _, _. split; [exact Q|]. repeat split.
Qed.

Lemma finish_v1_reports_zero_without_file_witness :
  exists u p,
    requests_between
      (run_state (call_v1 ci_config) tests_with_timeout started_v1)
      (snd (call_v1 ci_config Finish (unreadable_after 20 created)
              (run_state (call_v1 ci_config) tests_with_timeout started_v1)))
      [mkRequest PATCH u (V1.RunUpdate p)] /\
    V1.fp_status p = "passed" /\ V1.fp_total_tests p = 0%nat.
Proof.
  destruct (finish_v1_reports_zero_without_file ci_config
              (unreadable_after 20 created)
              (run_state (call_v1 ci_config) tests_with_timeout started_v1)
              eq_refl eq_refl (or_intror eq_refl))
    as ((u & p & Q & S & T & _) & _).
  exists u, p. split; [exact Q|]. split; [exact S|exact T].
Defined.

(** X8. A recordTest call whose request succeeds but whose record cannot be
    saved (the file cannot be written, or exists and cannot be read) leaves
    the persisted file as it was although the service has the test case.
    The first variant still returns the response body; the second returns
    null. Neither propagates the failure. *)
Theorem save_failure_after_successful_request (config : Config) (o : Oracle)
  (title status : string) (third : Arg) (s1 : V1.State) (s2 : V2.State) :
  isJenkins (this s1) = true -> resolvable s1 = true ->
  isJenkins (this s2) = true -> resolvable s2 = true ->
  net_ok o = true ->
  save_ok o (file (world s1)) = false ->
  save_ok o (file (world s2)) = false ->
  let r1 := call_v1 config (RecordTest title status third) o s1 in
  let r2 := call_v2 config (RecordTest title status third) o s2 in
  (fst r1 = Ok (Some (net_data o)) /\
   file (world (snd r1)) = file (world s1) /\
   exists u p, requests_between s1 (snd r1)
                 [mkRequest POST u (V1.CaseCreate p)]) /\
  (returns_null (fst r2) /\
   file (world (snd r2)) = file (world s2) /\
   exists u p, requests_between s2 (snd r2)
                 [mkRequest POST u (V2.CaseCreate p)]).
Proof.
  intros He1 Hr1 He2 Hr2 Hn Hs1 Hs2 r1 r2. subst r1 r2.
  destruct (resolvable_true _ Hr1) as (id1 & Hid1 & Ht1).
  destruct (resolvable_true _ Hr2) as (id2 & Hid2 & Ht2).
  destruct (afterEachTest_v1_effect config o title status third
              (advance (tick o) s1) id1 He1 Hid1 Ht1) as (A1 & Q1 & F1 & _).
  destruct (afterEachTest_v2_effect config o title status third
              (advance (tick o) s2) id2 He2 Hid2 Ht2) as (A2 & Q2 & F2 & _).
  change (file (world (advance (tick o) s1))) with (file (world s1)) in F1.
  change (file (world (advance (tick o) s2))) with (file (world s2)) in F2, A2.
  rewrite Hn in A1. rewrite Hn, Hs1 in F1. rewrite Hn, Hs2 in F2, A2.
  split.
  - split; [exact A1|]. split; [exact F1|]. eexists _, _. exact Q1.
  - split; [exact A2|]. split; [exact F2|]. eexists _, _. exact Q2.
Qed.

Lemma save_failure_after_successful_request_witness :
  fst (call_v1 ci_config (RecordTest "TC-001" "passed" Null)
         (read_only_after 1500 created) started_v1)
    = Ok (Some (net_data (read_only_after 1500 created))) /\
  returns_null
    (fst (call_v2 ci_config (RecordTest "TC-001" "passed" Null)
            (read_only_after 1500 created) started_v2)).
Proof.
  destruct (save_failure_after_successful_request ci_config
              (read_only_after 1500 created) "TC-001" "passed" Null
              started_v1 started_v2
              eq_refl eq_refl eq_refl eq_refl eq_refl eq_refl eq_refl)
    as ((A & _) & (C & _)).
  split; [exact A|exact C].
Defined.

(** X9. The run a session reports to is the run finish updates. With a
    resolvable identifier [id], the request of recordTest carries [id] as
    run and goes to [<base>/api/test-cases/]; afterwards finish sends its
    update to [<base>/api/pipeline-runs/<id>/], also when the environment
    variable has been changed or removed in between. Both variants. *)
Theorem finish_updates_the_reported_run (config : Config) (o oF : Oracle)
  (title status : string) (third : Arg) (e : option string)
  (s1 : V1.State) (s2 : V2.State) (id : string) :
  isJenkins (this s1) = true -> resolve s1 = Some id ->
  isJenkins (this s2) = true -> resolve s2 = Some id ->
  read_ok oF = true ->
  let a1 := snd (call_v1 config (RecordTest title status third) o s1) in
  let a2 := snd (call_v2 config (RecordTest title status third) o s2) in
  let b1 := mkSt (this a1) (with_env (world a1) e) in
  let b2 := mkSt (this a2) (with_env (world a2) e) in
  ((exists p,
      requests_between s1 a1
        [mkRequest POST (api_baseURL config ++ "/api/test-cases/")
           (V1.CaseCreate p)] /\ V1.cp_run p = id) /\
   (exists p,
      requests_between b1 (snd (call_v1 config Finish oF b1))
        [mkRequest PATCH
           (api_baseURL config ++ "/api/pipeline-runs/" ++ id ++ "/")
           (V1.RunUpdate p)])) /\
  ((exists p,
      requests_between s2 a2
        [mkRequest POST (api_baseURL config ++ "/api/test-cases/")
           (V2.CaseCreate p)] /\ V2.cp_run p = id) /\
   (exists p,
      requests_between b2 (snd (call_v2 config Finish oF b2))
        [mkRequest PATCH
           (api_baseURL config ++ "/api/pipeline-runs/" ++ id ++ "/")
           (V2.RunUpdate p)])).
Proof.
  intros He1 Hr1 He2 Hr2 Hio a1 a2 b1 b2.
  assert (Ht : truthy id = true).
  { destruct (resolve_cases s1) as [N|(i & I & T)]; congruence. }
  split.
  - destruct (afterEachTest_v1_effect config o title status third
                (advance (tick o) s1) id He1 Hr1 Ht) as (_ & Q & _ & T & _).
    assert (Ta : this a1 = mkHelper true (Some id)
                   (startTime (this s1)) (testStartTime (this s1)))
      by exact T.
    split; [eexists; split; [exact Q|reflexivity]|].
    assert (Hb : resolve (advance (tick oF) b1) = Some id).
    { apply resolve_of_fields; [|exact Ht].
      unfold b1. cbn [this advance]. rewrite Ta. reflexivity. }
    assert (Eb : isJenkins (this (advance (tick oF) b1)) = true).
    { unfold b1. cbn [this advance]. rewrite Ta. reflexivity. }
    destruct (afterAllTests_v1_effect config oF (advance (tick oF) b1) id
                Eb Hb Ht) as (_ & Q' & _).
    eexists. exact Q'.
  - destruct (afterEachTest_v2_effect config o title status third
                (advance (tick o) s2) id He2 Hr2 Ht) as (_ & Q & _ & T & _).
    assert (Ta : this a2 = mkHelper true (Some id)
                   (startTime (this s2)) (testStartTime (this s2)))
      by exact T.
    split; [eexists; split; [exact Q|reflexivity]|].
    assert (Hb : resolve (advance (tick oF) b2) = Some id).
    { apply resolve_of_fields; [|exact Ht].
      unfold b2. cbn [this advance]. rewrite Ta. reflexivity. }
    assert (Eb : isJenkins (this (advance (tick oF) b2)) = true).
    { unfold b2. cbn [this advance]. rewrite Ta. reflexivity. }
    destruct (afterAllTests_v2_effect config oF (advance (tick oF) b2) id
                Eb Hb Ht) as (_ & _ & _ & Q').
    rewrite Hio in Q'.
    replace (match file (world (advance (tick oF) b2)) with
             | Some _ => true
             | None => true
             end) with true in Q'
      by (destruct (file (world (advance (tick oF) b2))); reflexivity).
    destruct Q' as (_ & Q'). eexists. exact Q'.
Qed.

Lemma finish_updates_the_reported_run_witness :
  exists p,
    requests_between
      (mkSt (this (snd (call_v2 ci_config (RecordTest "TC-001" "passed" Null)
                          (after 1500 created) started_v2)))
            (with_env (world (snd (call_v2 ci_config
                                     (RecordTest "TC-001" "passed" Null)
                                     (after 1500 created) started_v2)))
               None))
      (snd (call_v2 ci_config Finish (after 20 created)
              (mkSt (this (snd (call_v2 ci_config
                                  (RecordTest "TC-001" "passed" Null)
                                  (after 1500 created) started_v2)))
                    (with_env (world (snd (call_v2 ci_config
                                             (RecordTest "TC-001" "passed" Null)
                                             (after 1500 created) started_v2)))
                       None))))
      [mkRequest PATCH "https://tracker.example/api/pipeline-runs/run-42/"
         (V2.RunUpdate p)].
Proof.
  apply (proj2 (proj2 (finish_updates_the_reported_run ci_config
           (after 1500 created) (after 20 created) "TC-001" "passed" Null None
           started_v1 started_v2 "run-42"
           eq_refl eq_refl eq_refl eq_refl eq_refl))).
Defined.

(** ** The duration of the run *)

Lemma call_v1_startTime config c o (s : V1.State) :
  startTime (this (snd (call_v1 config c o s))) =
    match c with
    | Start =>
        if isJenkins (this s)
        then Some (clock (world s) + Z.of_N (tick o))
        else startTime (this s)
    | _ => startTime (this s)
    end.
Proof.
  js_intro s o. destruct c; js_cases; reflexivity.
Qed.

Lemma run_v1_startTime config cs : forall s : V1.State,
  no_start cs = true ->
  startTime (this (run_state (call_v1 config) cs s)) = startTime (this s) /\
  isJenkins (this (run_state (call_v1 config) cs s)) = isJenkins (this s).
Proof.
  induction cs as [|[c o] cs IH]; intros s Hn.
  - split; reflexivity.
  - simpl in Hn. apply andb_prop in Hn. destruct Hn as [Hc Hn].
    rewrite run_state_cons. destruct (IH (snd (call_v1 config c o s)) Hn)
      as (A & E).
    rewrite A, E, call_v1_startTime.
    destruct (call_v1_frame config c o s) as (_ & E' & _).
    split; [|exact E']. destruct c; try reflexivity. discriminate.
Qed.

(** X10. In the first variant the duration finish reports is the whole
    number of seconds between the start call of the same helper and the
    finish call, never negative; a helper that never ran start, as in a
    process other than the one that started the run, reports 0. *)
Theorem finish_v1_duration (config : Config) (o0 oF : Oracle)
  (cs : list (Call * Oracle)) (s : V1.State)
  (w : World V1.TestCase V1.Body) :
  isJenkins (this s) = true -> api_enabled config = true ->
  no_start cs = true ->
  let b := run_state (call_v1 config) cs (snd (call_v1 config Start o0 s)) in
  let c := run_state (call_v1 config) cs (mkSt (V1.constructor config) w) in
  (resolvable b = true ->
   exists u p,
     requests_between b (snd (call_v1 config Finish oF b))
       [mkRequest PATCH u (V1.RunUpdate p)] /\
     V1.fp_duration p = Z.of_N (elapsed cs + tick oF) / 1000 /\
     0 <= V1.fp_duration p) /\
  (resolvable c = true ->
   exists u p,
     requests_between c (snd (call_v1 config Finish oF c))
       [mkRequest PATCH u (V1.RunUpdate p)] /\
     V1.fp_duration p = 0).
Proof.
  intros He Hcfg Hn b c. split.
  - intros Hr. destruct (resolvable_true _ Hr) as (id & Hid & Ht).
    destruct (run_v1_startTime config cs (snd (call_v1 config Start o0 s)) Hn)
      as (S & E).
    fold b in S, E. rewrite call_v1_startTime, He in S.
    destruct (call_v1_frame config Start o0 s) as (C0 & E0 & _).
    rewrite E0, He in E.
    pose proof (run_clock (call_v1 config) (call_v1_frame config) cs
                  (snd (call_v1 config Start o0 s))) as C.
    fold b in C. rewrite C0 in C.
    destruct (afterAllTests_v1_effect config oF (advance (tick oF) b) id
                E Hid Ht) as (_ & Q & _).
    change (startTime (this (advance (tick oF) b))) with (startTime (this b))
      in Q.
    change (clock (world (advance (tick oF) b)))
      with (clock (world b) + Z.of_N (tick oF)) in Q.
    rewrite S, C in Q.
    eexists _, _. split; [exact Q|].
    rewrite aggregate_v1_eq. cbn [V1.fp_duration].
    replace (clock (world s) + Z.of_N (tick o0) + Z.of_N (elapsed cs)
             + Z.of_N (tick oF) - (clock (world s) + Z.of_N (tick o0)))
      with (Z.of_N (elapsed cs + tick oF)) by lia.
    split; [reflexivity|]. apply Z.div_pos; lia.
  - intros Hr. destruct (resolvable_true _ Hr) as (id & Hid & Ht).
    destruct (run_v1_startTime config cs (mkSt (V1.constructor config) w) Hn)
      as (S & E).
    fold c in S, E. cbn [this V1.constructor startTime isJenkins] in S, E.
    rewrite Hcfg in E.
    destruct (afterAllTests_v1_effect config oF (advance (tick oF) c) id
                E Hid Ht) as (_ & Q & _).
    change (startTime (this (advance (tick oF) c))) with (startTime (this c))
      in Q.
    rewrite S in Q.
    eexists _, _. split; [exact Q|].
    rewrite aggregate_v1_eq. reflexivity.
Qed.

Lemma finish_v1_duration_witness :
  exists u p,
    requests_between
      (run_state (call_v1 ci_config) tests_with_timeout
         (snd (call_v1 ci_config Start (after 5 created)
                 (fresh_v1 ci_config))))
      (snd (call_v1 ci_config Finish (after 20 created)
              (run_state (call_v1 ci_config) tests_with_timeout
                 (snd (call_v1 ci_config Start (after 5 created)
                         (fresh_v1 ci_config))))))
      [mkRequest PATCH u (V1.RunUpdate p)] /\
    V1.fp_duration p = 2.
Proof.
  destruct (finish_v1_duration ci_config (after 5 created) (after 20 created)
              tests_with_timeout (fresh_v1 ci_config) fresh_world
              eq_refl eq_refl eq_refl) as (H & _).
  destruct (H eq_refl) as (u & p & Q & D & _).
  exists u, p. split; [exact Q|exact D].
Defined.

(** ** What is reported along a session *)

Lemma test_call_v1_reported config c o (s : V1.State) :
  isJenkins (this s) = true -> resolvable s = true ->
  is_test_call c = true ->
  let s' := snd (call_v1 config c o s) in
  isJenkins (this s') = true /\ resolvable s' = true /\
  exists l, requests_between s s' l /\
            reported_v1 l = recorded_calls [(c, o)] /\
            List.length l = List.length (recorded_calls [(c, o)]).
Proof.
  intros He Hr Hc. destruct c; try discriminate.
  - js_intro s o. js_eval. split; [exact He|]. split; [exact Hr|].
    exists []. rewrite List.app_nil_r. repeat split.
  - destruct (resolvable_true _ Hr) as (id & Hid & Ht).
    destruct (afterEachTest_v1_effect config o title status third
                (advance (tick o) s) id He Hid Ht) as (_ & Q & _ & T & _).
    cbv zeta.
    change (call_v1 config (RecordTest title status third) o s)
      with (V1.afterEachTest config o title status third (advance (tick o) s)).
    split; [rewrite T; reflexivity|].
    split; [apply (resolvable_of_resolve _ id);
            [eapply resolve_cached; eassumption|exact Ht]|].
    eexists. split; [exact Q|]. split; reflexivity.
Qed.

Lemma test_call_v2_reported config c o (s : V2.State) :
  isJenkins (this s) = true -> resolvable s = true ->
  is_test_call c = true ->
  let s' := snd (call_v2 config c o s) in
  isJenkins (this s') = true /\ resolvable s' = true /\
  exists l, requests_between s s' l /\
            reported_v2 l = recorded_calls [(c, o)] /\
            List.length l = List.length (recorded_calls [(c, o)]).
Proof.
  intros He Hr Hc. destruct c; try discriminate.
  - js_intro s o. js_eval. split; [exact He|]. split; [exact Hr|].
    exists []. rewrite List.app_nil_r. repeat split.
  - destruct (resolvable_true _ Hr) as (id & Hid & Ht).
    destruct (afterEachTest_v2_effect config o title status third
                (advance (tick o) s) id He Hid Ht) as (_ & Q & _ & T & _).
    cbv zeta.
    change (call_v2 config (RecordTest title status third) o s)
      with (V2.afterEachTest config o title status third (advance (tick o) s)).
    split; [rewrite T; reflexivity|].
    split; [apply (resolvable_of_resolve _ id);
            [eapply resolve_cached; eassumption|exact Ht]|].
    eexists. split; [exact Q|]. split; reflexivity.
Qed.

Section Reported.

Context {R B : Type}.
Variable call : Call -> Oracle -> St R B -> Outcome * St R B.
Variable reported : list (Request B) -> list (string * string).

Hypothesis reported_app : forall l1 l2,
  reported (l1 ++ l2) = reported l1 ++ reported l2.

Hypothesis test_call_reported : forall c o s,
  isJenkins (this s) = true -> resolvable s = true ->
  is_test_call c = true ->
  isJenkins (this (snd (call c o s))) = true /\
  resolvable (snd (call c o s)) = true /\
  exists l, requests_between s (snd (call c o s)) l /\
            reported l = recorded_calls [(c, o)] /\
            List.length l = List.length (recorded_calls [(c, o)]).

Lemma run_reported cs : forall s,
  isJenkins (this s) = true -> resolvable s = true ->
  only_test_calls cs = true ->
  exists l, requests_between s (run_state call cs s) l /\
            reported l = recorded_calls cs /\
            List.length l = List.length (recorded_calls cs).
Proof.
  induction cs as [|[c o] cs IH]; intros s He Hr Hs.
  - exists []. unfold requests_between. rewrite List.app_nil_r.
    repeat split. rewrite <- (List.app_nil_r []) at 1.
    rewrite reported_app.
    destruct (reported []) eqn:E; [reflexivity|].
    pose proof (f_equal (@List.length _) (reported_app [] [])) as L.
    simpl in L. rewrite E, length_app in L. simpl in L. lia.
  - simpl in Hs. apply andb_prop in Hs. destruct Hs as [Hc Hs].
    rewrite run_state_cons.
    destruct (test_call_reported c o s He Hr Hc)
      as (E1 & R1 & l1 & Q1 & P1 & L1).
    destruct (IH _ E1 R1 Hs) as (l2 & Q2 & P2 & L2).
    exists (l1 ++ l2). unfold requests_between in *. split.
    + rewrite Q2, Q1, app_assoc. reflexivity.
    + rewrite reported_app, P1, P2, (recorded_calls_cons c o cs), !length_app.
      split; [reflexivity|lia].
Qed.

End Reported.

(** X11. With reporting enabled and a resolvable run identifier, along any
    sequence of markTestStart and recordTest calls every recordTest call is
    reported to the service exactly once, in the order of the calls and
    with its name and status, whether or not the requests before it
    succeeded and whatever the file system does; nothing else is sent.
    Both variants. *)
Theorem every_test_is_reported_once (config : Config)
  (cs : list (Call * Oracle)) (s1 : V1.State) (s2 : V2.State) :
  isJenkins (this s1) = true -> resolvable s1 = true ->
  isJenkins (this s2) = true -> resolvable s2 = true ->
  only_test_calls cs = true ->
  (exists l,
     requests_between s1 (run_state (call_v1 config) cs s1) l /\
     reported_v1 l = recorded_calls cs /\
     List.length l = List.length (recorded_calls cs)) /\
  (exists l,
     requests_between s2 (run_state (call_v2 config) cs s2) l /\
     reported_v2 l = recorded_calls cs /\
     List.length l = List.length (recorded_calls cs)).
Proof.
  intros He1 Hr1 He2 Hr2 Hs. split.
  - apply (run_reported (call_v1 config) reported_v1); try assumption.
    + intros l1 l2. unfold reported_v1. apply flat_map_app.
    + apply test_call_v1_reported.
  - apply (run_reported (call_v2 config) reported_v2); try assumption.
    + intros l1 l2. unfold reported_v2. apply flat_map_app.
    + apply test_call_v2_reported.
Qed.

Lemma every_test_is_reported_once_witness :
  (exists l,
     requests_between started_v1
       (run_state (call_v1 ci_config) tests_with_timeout started_v1) l /\
     reported_v1 l =
       [("TC-001", "passed"); ("TC-002", "failed"); ("TC-003", "skipped")]) /\
  (exists l,
     requests_between started_v2
       (run_state (call_v2 ci_config) tests_with_timeout started_v2) l /\
     reported_v2 l =
       [("TC-001", "passed"); ("TC-002", "failed"); ("TC-003", "skipped")]).
Proof.
  destruct (every_test_is_reported_once ci_config tests_with_timeout
              started_v1 started_v2 eq_refl eq_refl eq_refl eq_refl eq_refl)
    as ((l1 & Q1 & P1 & _) & (l2 & Q2 & P2 & _)).
  split; [exists l1|exists l2]; split; assumption.
Defined.

(** ** The harness *)

Lemma testOutcome_cases testState :
  known_status (fst (testOutcome testState)) = true /\
  ((assertionCalls testState = 0)%nat ->
   testOutcome testState = ("skipped", Null)) /\
  (fst (testOutcome testState) = "failed" <->
   exists msg, snd (testOutcome testState) = Text msg) /\
  (fst (testOutcome testState) <> "failed" ->
   snd (testOutcome testState) = Null).
Proof.
  unfold testOutcome.
  destruct (assertionCalls testState) as [|n]; simpl.
  - split; [reflexivity|]. split; [reflexivity|]. split; [|reflexivity].
    split; [discriminate|intros [msg H]; discriminate].
  - assert (P : forall A : Prop, (S n = 0)%nat -> A) by (intros A H; discriminate).
    destruct (suppressedErrors testState) as [[|e l]|]; simpl.
    + split; [reflexivity|]. split; [apply P|]. split; [|reflexivity].
      split; [discriminate|intros [msg H]; discriminate].
    + split; [reflexivity|]. split; [apply P|]. split.
      * split; [intros _; eexists; reflexivity|reflexivity].
      * intros H. contradiction H. reflexivity.
    + split; [reflexivity|]. split; [apply P|]. split; [|reflexivity].
      split; [discriminate|intros [msg H]; discriminate].
Qed.

Lemma harness_persisted_known ts :
  Forall (fun k => known_status (snd k) = true)
    (persisted_calls (harness_session ts)).
Proof.
  induction ts as [|[[[name st] ob] oa] ts IH]; [constructor|].
  unfold harness_session, persisted_calls in *. simpl.
  destruct (net_ok oa); simpl; [|exact IH].
  constructor; [|exact IH]. apply testOutcome_cases.
Qed.

Lemma summarises_known ks overall total passed failed aborted :
  summarises ks overall total passed failed aborted ->
  Forall (fun k => known_status (snd k) = true) ks ->
  (passed + failed + aborted)%nat = total.
Proof.
  intros (-> & -> & -> & -> & _) H.
  apply (counted_all snd). exact H.
Qed.

(** X12. The afterEach hook reports a test as skipped when it made no
    assertion (whatever errors were suppressed), as failed with the message
    of the first suppressed error when there is one, and as passed
    otherwise: always one of the three statuses finish counts, with an
    error message exactly when the status is failed. Hence at the end of a
    suite driven by these hooks the payload of finish has
    passed + failed + aborted = total_tests. Both variants. *)
Theorem harness_counts_add_up (config : Config) (o0 oF : Oracle)
  (ts : list (string * TestState * Oracle * Oracle))
  (s1 : V1.State) (s2 : V2.State) :
  isJenkins (this s1) = true -> isJenkins (this s2) = true ->
  io_ok o0 = true -> tests_session (harness_session ts) = true ->
  io_ok oF = true ->
  resolvable (snd (call_v1 config Start o0 s1)) = true ->
  resolvable (snd (call_v2 config Start o0 s2)) = true ->
  let b1 := run_state (call_v1 config) (harness_session ts)
              (snd (call_v1 config Start o0 s1)) in
  let b2 := run_state (call_v2 config) (harness_session ts)
              (snd (call_v2 config Start o0 s2)) in
  (forall testState,
     known_status (fst (testOutcome testState)) = true /\
     (fst (testOutcome testState) = "failed" <->
      exists msg, snd (testOutcome testState) = Text msg)) /\
  (exists u p,
     requests_between b1 (snd (call_v1 config Finish oF b1))
       [mkRequest PATCH u (V1.RunUpdate p)] /\
     (V1.fp_passed p + V1.fp_failed p + V1.fp_aborted p)%nat
       = V1.fp_total_tests p) /\
  (exists u p,
     requests_between b2 (snd (call_v2 config Finish oF b2))
       [mkRequest PATCH u (V2.RunUpdate p)] /\
     (V2.fp_passed p + V2.fp_failed p + V2.fp_aborted p)%nat
       = V2.fp_total_tests p).
Proof.
  intros He1 He2 Hio Hs HioF Hr1 Hr2 b1 b2.
  split; [|split].
  - intros testState. destruct (testOutcome_cases testState) as (A & _ & C & _).
    split; assumption.
  - destruct (start_v1_clears config o0 s1 He1 Hio) as (E & F).
    destruct (tests_session_records (call_v1 config) keys_v1
                (test_call_v1 config) _ _ E Hs) as (E' & R' & K).
    fold b1 in E', R', K. unfold records at 2 in K. rewrite F, Hr1 in K.
    simpl in K. rewrite Hr1 in R'.
    destruct (finish_v1_payload config oF b1 E' R' (io_ok_read _ HioF))
      as (u & e & d & Q).
    exists u, (V1.aggregate (records b1) e d). split; [exact Q|].
    pose proof (summarises_v1 (records b1) e d) as S. rewrite K in S.
    apply (summarises_known _ _ _ _ _ _ S), harness_persisted_known.
  - destruct (start_v2_clears config o0 s2 He2 Hio) as (E & F).
    destruct (tests_session_records (call_v2 config) keys_v2
                (test_call_v2 config) _ _ E Hs) as (E' & R' & K).
    fold b2 in E', R', K. unfold records at 2 in K. rewrite F, Hr2 in K.
    simpl in K. rewrite Hr2 in R'.
    destruct (finish_v2_payload config oF b2 E' R' (io_ok_read _ HioF))
      as (u & e & Q).
    exists u, (V2.aggregate (records b2) e). split; [exact Q|].
    pose proof (summarises_v2 (records b2) e) as S. rewrite K in S.
    apply (summarises_known _ _ _ _ _ _ S), harness_persisted_known.
Qed.

Lemma harness_counts_add_up_witness :
  exists u p,
    requests_between
      (run_state (call_v1 ci_config) (harness_session a_suite)
         (snd (call_v1 ci_config Start (after 5 created)
                 (fresh_v1 ci_config))))
      (snd (call_v1 ci_config Finish (after 20 created)
              (run_state (call_v1 ci_config) (harness_session a_suite)
                 (snd (call_v1 ci_config Start (after 5 created)
                         (fresh_v1 ci_config))))))
      [mkRequest PATCH u (V1.RunUpdate p)] /\
    (V1.fp_passed p + V1.fp_failed p + V1.fp_aborted p)%nat
      = V1.fp_total_tests p.
Proof.
  apply (proj1 (proj2 (harness_counts_add_up ci_config (after 5 created)
           (after 20 created) a_suite (fresh_v1 ci_config)
           (fresh_v2 ci_config)
           eq_refl eq_refl eq_refl eq_refl eq_refl eq_refl eq_refl))).
Defined.

(** ** Screenshot names *)

Lemma sanitize_char c :
  is_alnum (if is_alnum c then c else "_"%char) = is_alnum c.
Proof. destruct (is_alnum c) eqn:E; [exact E|reflexivity]. Qed.

(** X13. The name under which the afterEach hook saves the screenshot of a
    failed test: sanitizing keeps the length of the test name, leaves
    letters and digits where they are, turns every other character into an
    underscore (so that no path separator or dot survives), and changes
    nothing when applied again. *)
Theorem sanitize_spec (testName : string) :
  String.length (sanitize testName) = String.length testName /\
  (forall n c, get n (sanitize testName) = Some c ->
     (is_alnum c = true \/ c = "_"%char) /\ c <> "/"%char /\ c <> "."%char) /\
  (forall n c, get n testName = Some c -> is_alnum c = true ->
     get n (sanitize testName) = Some c) /\
  sanitize (sanitize testName) = sanitize testName.
Proof.
  induction testName as [|a rest (L & A & K & I)]; simpl.
  - repeat split; try discriminate.
  - split; [rewrite L; reflexivity|]. split; [|split].
    + intros [|n] c H.
      * injection H as <-. destruct (is_alnum a) eqn:E.
        -- split; [left; exact E|].
           split; intros ->; discriminate.
        -- split; [right; reflexivity|]. split; discriminate.
      * apply (A n c H).
    + intros [|n] c H Hc.
      * injection H as <-. rewrite Hc. reflexivity.
      * apply (K n c H Hc).
    + rewrite I. f_equal.
      destruct (is_alnum a) eqn:E; [rewrite E; reflexivity|reflexivity].
Qed.

(** ** The configuration *)

Lemma start_v1_payload config o (s : V1.State) :
  isJenkins (this s) = true ->
  exists p,
    requests_between s (snd (call_v1 config Start o s))
      [mkRequest POST (api_baseURL config ++ "/api/pipeline-runs/")
         (V1.RunCreate p)] /\
    V1.rp_status p = "running" /\
    V1.rp_start_time p = clock (world s) + Z.of_N (tick o) /\
    V1.rp_build_number p =
      (if truthy (jenkins_buildNumber config)
       then jenkins_buildNumber config else "local") /\
    V1.rp_branch p = jenkins_gitBranch config.
Proof.
  intros He. js_intro s o. subst en.
  js_cases; eexists; repeat split; reflexivity.
Qed.

Lemma or_default_nonempty v d : d <> "" -> or_default v d <> "".
Proof.
  unfold or_default, js_or. intros Hd.
  destruct v as [s|]; simpl; [|exact Hd].
  unfold truthy. destruct (String.eqb_spec s ""); simpl; auto.
Qed.

(** X14. Reporting is enabled exactly when JENKINS_URL or BUILD_NUMBER is
    defined in the environment, whatever its value. When neither is
    defined, a helper constructed from the configuration issues no request,
    leaves the persisted file alone and returns null, whatever calls are
    made; when one is defined, start issues the request that creates the
    run. Both versions of the configuration, both variants of the
    helper. *)
Theorem reporting_follows_environment (d : Defaults) (env : Env)
  (platform : string) (cs : list (Call * Oracle)) (o : Oracle)
  (w1 : World V1.TestCase V1.Body) (w2 : World V2.TestCase V2.Body) :
  let config := load_config d env platform in
  let s1 := mkSt (V1.constructor config) w1 in
  let s2 := mkSt (V2.constructor config) w2 in
  (api_enabled config = true <->
   env "JENKINS_URL" <> None \/ env "BUILD_NUMBER" <> None) /\
  (env "JENKINS_URL" = None -> env "BUILD_NUMBER" = None ->
   (Forall returns_null (fst (run (call_v1 config) cs s1)) /\
    inert s1 (run_state (call_v1 config) cs s1)) /\
   (Forall returns_null (fst (run (call_v2 config) cs s2)) /\
    inert s2 (run_state (call_v2 config) cs s2))) /\
  (env "JENKINS_URL" <> None \/ env "BUILD_NUMBER" <> None ->
   exists p,
     requests_between s1 (snd (call_v1 config Start o s1))
       [mkRequest POST (api_baseURL config ++ "/api/pipeline-runs/")
          (V1.RunCreate p)]).
Proof.
  intros config s1 s2.
  assert (En : api_enabled config = true <->
               env "JENKINS_URL" <> None \/ env "BUILD_NUMBER" <> None).
  { unfold config, load_config. cbn [api_enabled]. unfold defined.
    destruct (env "JENKINS_URL"), (env "BUILD_NUMBER"); simpl; split;
      try reflexivity; try discriminate; intros H;
      try (left; discriminate); try (right; discriminate).
    destruct H as [H|H]; contradiction H; reflexivity. }
  split; [exact En|]. split.
  - intros H1 H2.
    assert (Hd : api_enabled config = false).
    { unfold config, load_config. cbn [api_enabled]. rewrite H1, H2.
      reflexivity. }
    split.
    + destruct (run_preserves (call_v1 config)
                  (fun s => isJenkins (this s) = false) inert returns_null
                  inert_refl inert_trans (disabled_call_v1 config) cs s1 Hd)
        as (Hr & _ & Hi).
      split; assumption.
    + destruct (run_preserves (call_v2 config)
                  (fun s => isJenkins (this s) = false) inert returns_null
                  inert_refl inert_trans (disabled_call_v2 config) cs s2 Hd)
        as (Hr & _ & Hi).
      split; assumption.
  - intros H. apply En in H.
    destruct (start_v1_payload config o s1 H) as (p & Q & _).
    exists p. exact Q.
Qed.

Lemma reporting_follows_environment_witness :
  inert (mkSt (V1.constructor (load_config defaults_1 developer_env "linux"))
              fresh_world)
    (run_state (call_v1 (load_config defaults_1 developer_env "linux"))
       a_session
       (mkSt (V1.constructor (load_config defaults_1 developer_env "linux"))
             fresh_world)).
Proof.
  apply (proj1 (proj1 (proj2 (reporting_follows_environment defaults_1
           developer_env "linux" a_session (after 5 created)
           fresh_world fresh_world)) eq_refl eq_refl)).
Defined.

(** X15. What start tells the service about the build. The payload has
    status running and the instant of the call as start time. In the first
    variant its build number is BUILD_NUMBER, or "local" when that is
    undefined or empty, also when the empty BUILD_NUMBER is what enabled
    reporting; its branch is GIT_BRANCH when that is non-empty, else
    BRANCH_NAME when that is non-empty, else "main": neither is ever
    empty. *)
Theorem start_payload_from_environment (d : Defaults) (env : Env)
  (platform : string) (o : Oracle) (w : World V1.TestCase V1.Body) :
  env "JENKINS_URL" <> None \/ env "BUILD_NUMBER" <> None ->
  let config := load_config d env platform in
  let s := mkSt (V1.constructor config) w in
  exists p,
    requests_between s (snd (call_v1 config Start o s))
      [mkRequest POST (api_baseURL config ++ "/api/pipeline-runs/")
         (V1.RunCreate p)] /\
    V1.rp_status p = "running" /\
    V1.rp_start_time p = clock w + Z.of_N (tick o) /\
    V1.rp_build_number p <> "" /\ V1.rp_branch p <> "" /\
    (truthy_opt (env "BUILD_NUMBER") = false ->
     V1.rp_build_number p = "local") /\
    (forall n, env "BUILD_NUMBER" = Some n -> n <> "" ->
     V1.rp_build_number p = n) /\
    (forall b, env "GIT_BRANCH" = Some b -> b <> "" -> V1.rp_branch p = b) /\
    (truthy_opt (env "GIT_BRANCH") = false ->
     forall b, env "BRANCH_NAME" = Some b -> b <> "" -> V1.rp_branch p = b) /\
    (truthy_opt (env "GIT_BRANCH") = false ->
     truthy_opt (env "BRANCH_NAME") = false -> V1.rp_branch p = "main").
Proof.
  intros H config s.
  assert (He : isJenkins (this s) = true).
  { unfold s, config, load_config. cbn [this V1.constructor isJenkins api_enabled].
    unfold defined.
    destruct (env "JENKINS_URL"), (env "BUILD_NUMBER"); try reflexivity.
    destruct H as [H|H]; contradiction H; reflexivity. }
  destruct (start_v1_payload config o s He) as (p & Q & S & T & N & Br).
  exists p. split; [exact Q|]. split; [exact S|]. split; [exact T|].
  rewrite N, Br. unfold config, load_config.
  cbn [jenkins_buildNumber jenkins_gitBranch].
  split; [|split; [|split; [|split; [|split; [|split]]]]].
  - destruct (truthy (or_default (env "BUILD_NUMBER") "")) eqn:E;
      [|discriminate].
    intros E'. rewrite E' in E. discriminate.
  - apply or_default_nonempty. discriminate.
  - intros Hn. unfold or_default, js_or. rewrite Hn. reflexivity.
  - intros n Hn Hne. unfold or_default, js_or. rewrite Hn. simpl.
    rewrite (truthy_nonempty n Hne). rewrite (truthy_nonempty n Hne).
    reflexivity.
  - intros b Hb Hne. unfold or_default, js_or. rewrite Hb. simpl.
    rewrite (truthy_nonempty b Hne). simpl.
    rewrite (truthy_nonempty b Hne). reflexivity.
  - intros Hg b Hb Hne. unfold or_default, js_or. rewrite Hg, Hb. simpl.
    rewrite (truthy_nonempty b Hne). reflexivity.
  - intros Hg Hb. unfold or_default, js_or. rewrite Hg, Hb. reflexivity.
Qed.

Lemma start_payload_from_environment_witness :
  exists p,
    requests_between
      (mkSt (V1.constructor (load_config defaults_2 jenkins_env "linux"))
            fresh_world)
      (snd (call_v1 (load_config defaults_2 jenkins_env "linux") Start
              (after 5 created)
              (mkSt (V1.constructor (load_config defaults_2 jenkins_env "linux"))
                    fresh_world)))
      [mkRequest POST
         (api_baseURL (load_config defaults_2 jenkins_env "linux")
          ++ "/api/pipeline-runs/")
         (V1.RunCreate p)] /\
    V1.rp_build_number p = "local" /\ V1.rp_branch p = "release".
Proof.
  destruct (start_payload_from_environment defaults_2 jenkins_env "linux"
              (after 5 created) fresh_world)
    as (p & Q & _ & _ & _ & _ & L & _ & _ & B & _).
  - right. discriminate.
  - exists p. split; [exact Q|]. split.
    + apply L. reflexivity.
    + apply (B eq_refl "release" eq_refl). discriminate.
Defined.

(** ** Records, start times and the width of durations *)

(** X16. The record the first variant appends after a successful request
    has the name and the status of the call, the instant of the call as
    timestamp, the computed duration in seconds, and as test identifier the
    one of the response, or "N/A" when the response has none or an empty
    one: never the empty string. *)
Theorem record_v1_fields (config : Config) (o : Oracle)
  (title status : string) (third : Arg) (s : V1.State) :
  isJenkins (this s) = true -> resolvable s = true ->
  net_ok o = true -> save_ok o (file (world s)) = true ->
  exists t,
    file (world (snd (call_v1 config (RecordTest title status third) o s)))
      = Some (records s ++ [t]) /\
    V1.tc_name t = title /\ V1.tc_status t = status /\
    V1.tc_timestamp t = clock (world s) + Z.of_N (tick o) /\
    V1.tc_duration t = Seconds (computed_duration_v1 o s) /\
    V1.tc_test_id t <> "" /\
    (truthy_opt (test_id (net_data o)) = false -> V1.tc_test_id t = "N/A") /\
    (forall i, test_id (net_data o) = Some i -> i <> "" ->
     V1.tc_test_id t = i).
Proof.
  intros He Hr Hn Hs. destruct (resolvable_true _ Hr) as (id & Hid & Ht).
  destruct (afterEachTest_v1_effect config o title status third
              (advance (tick o) s) id He Hid Ht) as (_ & _ & F & _).
  change (file (world (advance (tick o) s))) with (file (world s)) in F.
  change (records (advance (tick o) s)) with (records s) in F.
  rewrite Hn, Hs in F. cbn [andb] in F.
  eexists. split; [exact F|]. cbn [V1.tc_name V1.tc_status V1.tc_timestamp
                                   V1.tc_duration V1.tc_test_id].
  split; [reflexivity|]. split; [reflexivity|]. split; [reflexivity|].
  split; [reflexivity|]. unfold js_or.
  split; [|split].
  - destruct (truthy_opt (test_id (net_data o))) eqn:E; [|discriminate].
    destruct (test_id (net_data o)) as [i|]; [|discriminate].
    intros ->. discriminate.
  - intros E. rewrite E. reflexivity.
  - intros i Hi Hne. rewrite Hi. simpl. rewrite (truthy_nonempty i Hne).
    reflexivity.
Qed.

Lemma record_v1_fields_witness :
  exists t,
    file (world (snd (call_v1 ci_config (RecordTest "TC-001" "passed" Null)
                        (after 1500 created) started_v1)))
      = Some (records started_v1 ++ [t]) /\
    V1.tc_test_id t = "tc-1" /\ V1.tc_duration t = Seconds 1500.
Proof.
  destruct (record_v1_fields ci_config (after 1500 created) "TC-001" "passed"
              Null started_v1 eq_refl eq_refl eq_refl eq_refl)
    as (t & F & _ & _ & _ & D & _ & _ & I).
  exists t. split; [exact F|]. split; [|exact D].
  apply (I "tc-1" eq_refl). discriminate.
Defined.

(** X17. A test reported without markTestStart having been called by the
    same helper: the first variant sends the instant of the call as start
    time and a duration of 0; the second sends the epoch (instant 0) as
    start time and the duration "00:00:00". *)
Theorem unmarked_test_start_time (config : Config) (o : Oracle)
  (title status : string) (third : Arg) (s1 : V1.State) (s2 : V2.State) :
  isJenkins (this s1) = true -> resolvable s1 = true ->
  isJenkins (this s2) = true -> resolvable s2 = true ->
  testStartTime (this s1) = None -> testStartTime (this s2) = None ->
  (exists u p,
     requests_between s1
       (snd (call_v1 config (RecordTest title status third) o s1))
       [mkRequest POST u (V1.CaseCreate p)] /\
     V1.cp_start_time p = clock (world s1) + Z.of_N (tick o) /\
     V1.cp_duration p = Fixed2 (Seconds 0)) /\
  (exists u p,
     requests_between s2
       (snd (call_v2 config (RecordTest title status third) o s2))
       [mkRequest POST u (V2.CaseCreate p)] /\
     V2.cp_start_time p = 0 /\
     V2.cp_end_time p = clock (world s2) + Z.of_N (tick o) /\
     V2.cp_duration p = "00:00:00").
Proof.
  intros He1 Hr1 He2 Hr2 Hm1 Hm2.
  destruct (resolvable_true _ Hr1) as (id1 & Hid1 & Ht1).
  destruct (resolvable_true _ Hr2) as (id2 & Hid2 & Ht2).
  destruct (afterEachTest_v1_effect config o title status third
              (advance (tick o) s1) id1 He1 Hid1 Ht1) as (_ & Q1 & _).
  destruct (afterEachTest_v2_effect config o title status third
              (advance (tick o) s2) id2 He2 Hid2 Ht2) as (_ & Q2 & _).
  unfold V1.durationMs in Q1. unfold V2.durationMs, V2.truthy_num in Q2.
  change (testStartTime (this (advance (tick o) s1)))
    with (testStartTime (this s1)) in Q1.
  change (testStartTime (this (advance (tick o) s2)))
    with (testStartTime (this s2)) in Q2.
  rewrite Hm1 in Q1. rewrite Hm2 in Q2.
  split.
  - eexists _, _. split; [exact Q1|]. split; reflexivity.
  - eexists _, _. split; [exact Q2|]. repeat split.
Qed.

Lemma unmarked_test_start_time_witness :
  (exists u p,
     requests_between resumed_v1
       (snd (call_v1 ci_config (RecordTest "TC-002" "passed" Null)
               (after 700 created) resumed_v1))
       [mkRequest POST u (V1.CaseCreate p)] /\
     V1.cp_start_time p = 1793000004700) /\
  (exists u p,
     requests_between resumed_v2
       (snd (call_v2 ci_config (RecordTest "TC-002" "passed" Null)
               (after 700 created) resumed_v2))
       [mkRequest POST u (V2.CaseCreate p)] /\
     V2.cp_start_time p = 0 /\ V2.cp_duration p = "00:00:00").
Proof.
  destruct (unmarked_test_start_time ci_config (after 700 created) "TC-002"
              "passed" Null resumed_v1 resumed_v2
              eq_refl eq_refl eq_refl eq_refl eq_refl eq_refl)
    as ((u1 & p1 & Q1 & S1 & _) & (u2 & p2 & Q2 & S2 & _ & D2)).
  split.
  - exists u1, p1. split; [exact Q1|exact S1].
  - exists u2, p2. split; [exact Q2|]. split; [exact S2|exact D2].
Defined.

Lemma two_digits z :
  0 <= z < 100 -> String.length (padStart 2 "0" (String_of_int z)) = 2%nat.
Proof.
  intros H.
  assert (A : forallb (fun n => (String.length
                (padStart 2 "0" (String_of_int (Z.of_nat n))) =? 2)%nat)
                (seq 0 100) = true) by (vm_compute; reflexivity).
  rewrite forallb_forall in A.
  specialize (A (Z.to_nat z)). rewrite Z2Nat.id in A by lia.
  apply Nat.eqb_eq, A, in_seq. lia.
Qed.

Lemma String_of_int_length_ge z :
  100 <= z -> (3 <= String.length (padStart 2 "0" (String_of_int z)))%nat.
Proof.
  intros H.
  destruct (String_of_int_nonneg z ltac:(lia)) as (d & Hd & E & V).
  rewrite E. clear E.
  destruct d; [contradiction| ..];
    (destruct d; [exfalso; cbv in V; lia| ..]);
    (destruct d; [exfalso; cbv in V; lia| ..]);
    unfold padStart; simpl; lia.
Qed.

Lemma string_length_append (s1 s2 : string) :
  String.length (s1 ++ s2) = (String.length s1 + String.length s2)%nat.
Proof. induction s1 as [|c s1 IH]; simpl; [reflexivity|rewrite IH; reflexivity]. Qed.

(** X18. For a duration under one hundred hours formatDuration returns
    exactly eight characters, two digits for each of hours, minutes and
    seconds; from one hundred hours on the hours take more digits and the
    string is longer. *)
Theorem formatDuration_width (ms : Z) :
  0 <= ms ->
  (ms < 360000000 -> String.length (V2.formatDuration ms) = 8%nat) /\
  (360000000 <= ms -> (9 <= String.length (V2.formatDuration ms))%nat).
Proof.
  intros H. unfold V2.formatDuration. cbv zeta.
  assert (Ht : 0 <= ms / 1000) by (apply Z.div_pos; lia).
  destruct (hms_arithmetic (ms / 1000) Ht) as (Hh & Hm & Hs & E).
  rewrite !string_length_append.
  rewrite (two_digits (Z.rem (ms / 1000) 3600 / 60)) by lia.
  rewrite (two_digits (Z.rem (ms / 1000) 60)) by lia.
  split.
  - intros Hlt. rewrite two_digits; [reflexivity|].
    split; [exact Hh|]. apply Z.div_lt_upper_bound; [lia|].
    apply Z.div_lt_upper_bound; lia.
  - intros Hge.
    assert (100 <= ms / 1000 / 3600).
    { apply Z.div_le_lower_bound; [lia|].
      apply Z.div_le_lower_bound; lia. }
    pose proof (String_of_int_length_ge _ H0). simpl. lia.
Qed.

Lemma formatDuration_width_witness :
  String.length (V2.formatDuration 359999999) = 8%nat.
Proof.
  apply (proj1 (formatDuration_width 359999999 ltac:(lia))). lia.
Defined.

(** ** What start does to the records of the previous run *)

(** X19. In the first variant a start that cannot clear the persisted file
    (the directory cannot be made or the file cannot be written) does not
    fail: it still asks the service to create the run and leaves the
    records of the previous run in the file, and the finish that follows
    counts them in its total. *)
Theorem stale_records_after_failed_clear (config : Config) (o oF : Oracle)
  (s : V1.State) :
  isJenkins (this s) = true ->
  dir_ok o && write_ok o = false -> read_ok oF = true ->
  resolvable (snd (call_v1 config Start o s)) = true ->
  let a := snd (call_v1 config Start o s) in
  ~ propagates_exception (fst (call_v1 config Start o s)) /\
  file (world a) = file (world s) /\
  (exists p,
     requests_between s a
       [mkRequest POST (api_baseURL config ++ "/api/pipeline-runs/")
          (V1.RunCreate p)]) /\
  (exists u p,
     requests_between a (snd (call_v1 config Finish oF a))
       [mkRequest PATCH u (V1.RunUpdate p)] /\
     V1.fp_total_tests p = List.length (records s)).
Proof.
  intros He Hio Hr Hres a.
  destruct (beforeAllTests_v1_effect config o (advance (tick o) s) He)
    as (_ & Q & F & E & _).
  rewrite Hio in F.
  split; [apply first_variant_absorbs_failures|].
  split; [exact F|]. split; [exact Q|].
  destruct (finish_v1_payload config oF a E Hres Hr) as (u & e & d & Q').
  exists u, (V1.aggregate (records a) e d). split; [exact Q'|].
  rewrite aggregate_v1_eq. cbn [V1.fp_total_tests].
  assert (Fa : file (world a) = file (world s)) by exact F.
  unfold records. rewrite Fa. reflexivity.
Qed.

Lemma stale_records_after_failed_clear_witness :
  exists u p,
    requests_between
      (snd (call_v1 ci_config Start (read_only_after 5 created)
              (run_state (call_v1 ci_config) tests_with_timeout started_v1)))
      (snd (call_v1 ci_config Finish (after 20 created)
              (snd (call_v1 ci_config Start (read_only_after 5 created)
                      (run_state (call_v1 ci_config) tests_with_timeout
                         started_v1)))))
      [mkRequest PATCH u (V1.RunUpdate p)] /\
    V1.fp_total_tests p = 2%nat.
Proof.
  destruct (stale_records_after_failed_clear ci_config
              (read_only_after 5 created) (after 20 created)
              (run_state (call_v1 ci_config) tests_with_timeout started_v1)
              eq_refl eq_refl eq_refl eq_refl) as (_ & _ & _ & H).
  exact H.
Defined.

(** X20. With reporting enabled and working file operations, start empties
    the persisted file before it sends its request: the records of the
    previous run are gone also when the request then fails and start
    returns null. Both variants. *)
Theorem start_clears_before_request (config : Config) (o : Oracle)
  (s1 : V1.State) (s2 : V2.State) :
  isJenkins (this s1) = true -> isJenkins (this s2) = true ->
  dir_ok o && write_ok o = true -> net_ok o = false ->
  (returns_null (fst (call_v1 config Start o s1)) /\
   file (world (snd (call_v1 config Start o s1))) = Some []) /\
  (returns_null (fst (call_v2 config Start o s2)) /\
   file (world (snd (call_v2 config Start o s2))) = Some []).
Proof.
  intros He1 He2 Hio Hn. split.
  - destruct (beforeAllTests_v1_effect config o (advance (tick o) s1) He1)
      as (A & _ & F & _).
    rewrite Hn in A. rewrite Hio in F. split; [exact A|exact F].
  - destruct (beforeAllTests_v2_effect config o (advance (tick o) s2) He2)
      as (_ & _ & H).
    rewrite Hio in H. destruct H as (A & _ & F).
    rewrite Hn in A. split; [exact A|exact F].
Qed.

Lemma start_clears_before_request_witness :
  file (world (snd (call_v1 ci_config Start (after 5 timed_out)
                      (run_state (call_v1 ci_config) tests_with_timeout
                         started_v1)))) = Some [] /\
  file (world (snd (call_v2 ci_config Start (after 5 timed_out) resumed_v2)))
    = Some [].
Proof.
  destruct (start_clears_before_request ci_config (after 5 timed_out)
              (run_state (call_v1 ci_config) tests_with_timeout started_v1)
              resumed_v2 eq_refl eq_refl eq_refl eq_refl)
    as ((_ & A) & (_ & C)).
  split; [exact A|exact C].
Defined.
